(** * The 911 operator dashboard: turn coordination, tool dispatch, enrichment

    A shallow embedding of the repository's TypeScript:
    - the stateful operator conversation with its end-call tool
      ([handleUserMessage], [handleToolResponse], [resetConversation]);
    - the analysis route ([searchLocation], [searchPerson],
      [analyzeConversation], [POST]);
    - the [Home] page component ([onSpeechEnd], the two effects, [respond],
      [asyncChecks]).

    Asynchronous functions are written in a state-and-exception monad over
    an explicit world; the external services (language models, web search,
    speech, places) are inputs of the model, and every request sent to
    them is recorded in the world. *)

From Stdlib Require Import Strings.String Strings.Ascii DecimalString.
From stdpp Require Import base numbers list option.

Local Open Scope N_scope.
Set Warnings "-register-all".
Set Default Proof Using "Type".

(** ** JavaScript strings

    A JavaScript string is a sequence of UTF-16 code units; [length] counts
    code units and [===] compares them one by one. *)

Definition jsstring : Type := list N.

Fixpoint js (s : string) : jsstring :=
  match s with
  | EmptyString => []
  | String a s' => N_of_ascii a :: js s'
  end.

(** The double quote, which a literal cannot hold. *)
Definition dquote : jsstring := [34].

(** [s === t] on strings. *)
Definition str_eq (s t : jsstring) : bool := bool_decide (s = t).

(** ToBoolean on a string: only the empty string is falsy. *)
Definition truthy_str (s : jsstring) : bool :=
  match s with [] => false | _ :: _ => true end.

(** ToBoolean on [string | null | undefined]. *)
Definition truthy_ostr (o : option jsstring) : bool :=
  match o with Some s => truthy_str s | None => false end.

(** WhiteSpace and LineTerminator code points of ECMAScript, the ones
    [String.prototype.trim] strips. All of them are single code units. *)
Definition isWhiteSpace (c : N) : bool :=
  ((9 <=? c) && (c <=? 13))
  || (c =? 32) || (c =? 160) || (c =? 5760)
  || ((8192 <=? c) && (c <=? 8202))
  || (c =? 8232) || (c =? 8233) || (c =? 8239) || (c =? 8287)
  || (c =? 12288) || (c =? 65279).

Fixpoint trimStart (s : jsstring) : jsstring :=
  match s with
  | c :: s' => if isWhiteSpace c then trimStart s' else s
  | [] => []
  end.

Definition trimEnd (s : jsstring) : jsstring := rev (trimStart (rev s)).

Definition trim (s : jsstring) : jsstring := trimEnd (trimStart s).

(** [s.substring(0, n)]. *)
Definition substring0 (n : nat) (s : jsstring) : jsstring := take n s.

Fixpoint startsWith (k s : jsstring) : bool :=
  match k, s with
  | [], _ => true
  | _ :: _, [] => false
  | a :: k', b :: s' => (a =? b) && startsWith k' s'
  end.

(** [s.includes(k)]. *)
Fixpoint includes (s k : jsstring) : bool :=
  startsWith k s
  || match s with [] => false | _ :: s' => includes s' k end.

(** [parts.join(sep)]. *)
Fixpoint join (sep : jsstring) (parts : list jsstring) : jsstring :=
  match parts with
  | [] => []
  | [p] => p
  | p :: rest => p ++ sep ++ join sep rest
  end.

(** [String.prototype.toLowerCase], exact on every code unit whose lower
    case lies in ASCII: the Latin capitals, the Kelvin sign (U+212A, to k)
    and the dotted capital I (U+0130, to i followed by U+0307). The lower
    case of any other code unit lies outside ASCII and is kept as it is
    here; the only use of the result is [includes] with ASCII keys, which
    cannot tell the difference. *)
Definition lowerUnit (c : N) : jsstring :=
  if (65 <=? c) && (c <=? 90) then [c + 32]
  else if c =? 8490 then [107]
  else if c =? 304 then [105; 775]
  else [c].

Definition toLowerCase (s : jsstring) : jsstring := concat (map lowerUnit s).

(** ** Asynchronous code: state and exceptions

    An [async] function that awaits external calls is a function of the
    world that returns or throws (a rejected promise) and the world it
    leaves behind. State written before a throw stays written. *)

(** A thrown value: an [Error] instance with its class name and message,
    or any other value. *)
Inductive JsError : Type :=
| ErrorObject (name message : jsstring)
| ThrownValue.

Definition TypeError (message : jsstring) : JsError :=
  ErrorObject (js "TypeError") message.

(** The message of the [TypeError] raised on reading property [p] of
    [undefined]. *)
Definition readOfUndefined (p : string) : JsError :=
  TypeError (js "Cannot read properties of undefined (reading '" ++ js p ++ js "')").

Inductive outcome (A : Type) : Type :=
| Returned (a : A)
| Thrown (e : JsError).
Arguments Returned {A} a.
Arguments Thrown {A} e.

Definition M (W A : Type) : Type := W -> outcome A * W.

Definition ret {W A} (a : A) : M W A := fun w => (Returned a, w).

Definition throw {W A} (e : JsError) : M W A := fun w => (Thrown e, w).

Definition bind {W A B} (m : M W A) (k : A -> M W B) : M W B :=
  fun w =>
    match m w with
    | (Returned a, w') => k a w'
    | (Thrown e, w') => (Thrown e, w')
    end.

(** [try { body } catch (e) { handler }]. *)
Definition try_catch {W A} (body : M W A) (handler : JsError -> M W A) : M W A :=
  fun w =>
    match body w with
    | (Returned a, w') => (Returned a, w')
    | (Thrown e, w') => handler e w'
    end.

Definition get {W} : M W W := fun w => (Returned w, w).
Definition modify {W} (f : W -> W) : M W unit := fun w => (Returned tt, f w).

(** Lifting the result of an awaited external call. *)
Definition await {W A} (o : outcome A) : M W A := fun w => (o, w).

Declare Scope js_scope.
Delimit Scope js_scope with js_m.
Notation "'let*' x ':=' m 'in' k" := (bind m (fun x => k))
  (at level 10, x name, m at level 100, k at level 200) : js_scope.

(** [for (const x of xs) body(x)]. *)
Fixpoint for_of {W A} (xs : list A) (body : A -> M W unit) : M W unit :=
  match xs with
  | [] => ret tt
  | x :: rest => bind (body x) (fun _ => for_of rest body)
  end.

(** ** JSON values and [JSON.stringify]

    Numbers are kept in the text [JSON.stringify] prints for them. *)

Inductive Json : Type :=
| JNull
| JBool (b : bool)
| JNumber (text : jsstring)
| JString (s : jsstring)
| JArray (items : list Json)
| JObject (fields : list (jsstring * Json)).

Definition hexDigit (n : N) : N := if n <? 10 then 48 + n else 87 + n.

Definition unicodeEscape (c : N) : jsstring :=
  [92; 117; hexDigit (c / 4096 mod 16); hexDigit (c / 256 mod 16);
   hexDigit (c / 16 mod 16); hexDigit (c mod 16)].

Definition isLeadSurrogate (c : N) : bool := (55296 <=? c) && (c <=? 56319).
Definition isTrailSurrogate (c : N) : bool := (56320 <=? c) && (c <=? 57343).

Definition quoteUnit (c : N) : jsstring :=
  if c =? 34 then [92; 34]
  else if c =? 92 then [92; 92]
  else if c =? 8 then [92; 98]
  else if c =? 12 then [92; 102]
  else if c =? 10 then [92; 110]
  else if c =? 13 then [92; 114]
  else if c =? 9 then [92; 116]
  else if c <? 32 then unicodeEscape c
  else if isTrailSurrogate c then unicodeEscape c
  else [c].

(** QuoteJSONString without the enclosing quotes: a surrogate pair is
    copied, a lone surrogate is escaped. *)
Fixpoint quoteBody (s : jsstring) : jsstring :=
  match s with
  | [] => []
  | c :: rest =>
      if isLeadSurrogate c then
        match rest with
        | d :: rest' =>
            if isTrailSurrogate d then c :: d :: quoteBody rest'
            else unicodeEscape c ++ quoteBody rest
        | [] => unicodeEscape c
        end
      else quoteUnit c ++ quoteBody rest
  end.

Definition quoteJSONString (s : jsstring) : jsstring :=
  dquote ++ quoteBody s ++ dquote.

Fixpoint JSON_stringify (v : Json) : jsstring :=
  match v with
  | JNull => js "null"
  | JBool true => js "true"
  | JBool false => js "false"
  | JNumber text => text
  | JString s => quoteJSONString s
  | JArray items => js "[" ++ join (js ",") (map JSON_stringify items) ++ js "]"
  | JObject fields =>
      js "{"
      ++ join (js ",")
           (map (fun kv => quoteJSONString (fst kv) ++ js ":" ++ JSON_stringify (snd kv))
              fields)
      ++ js "}"
  end.

(** * The operator conversation (the module with the end-call tool) *)

Module Operator.

Local Open Scope js_scope.

Definition MODEL : jsstring := js "meta-llama/llama-4-scout-17b-16e-instruct".

(** What [JSON.parse(toolCall.function.arguments)] yields for the two
    properties the dispatcher reads, both declared as strings in the tool
    schemas; [None] is a property that is absent. *)
Record Args : Type := { query : option jsstring; reason : option jsstring }.

(** A tool call of the model. The text of [function.arguments] is kept as
    what [JSON.parse] and the property reads make of it: the properties
    read, or the error thrown ([SyntaxError] when the text is no JSON,
    [TypeError] when it is [null]). *)
Record ToolCall : Type := {
  tc_id : jsstring;
  function_name : jsstring;
  arguments : outcome Args
}.

(** [response.choices[0].message]. *)
Record ResponseMessage : Type := {
  rm_content : option jsstring;
  tool_calls : option (list ToolCall)
}.

Record ChatCompletion : Type := { choices : list ResponseMessage }.

(** [ChatCompletionMessageParam]: the entries of the model-facing
    conversation. *)
Inductive ChatMessage : Type :=
| SystemMessage (content : jsstring)
| UserMessage (content : jsstring)
| AssistantMessage (message : ResponseMessage)
| ToolMessage (tool_call_id : jsstring) (content : jsstring).

Record ConversationState : Type := {
  messages : list ChatMessage;
  isActive : bool;
  hasEnded : bool;
  endReason : option jsstring
}.

(** A request to [groq.chat.completions.create]: the messages sent and
    the names of the tools offered ([None]: no [tools] property). *)
Record Request : Type := {
  req_model : jsstring;
  req_messages : list ChatMessage;
  req_tools : option (list jsstring);
  req_tool_choice : option jsstring;
  req_max_completion_tokens : N
}.

(** The world of this module: the global [conversationState], the requests
    sent to the model so far and the shell commands handed to
    [child_process.exec]. *)
Record World : Type := {
  conversationState : ConversationState;
  requests : list Request;
  executed : list jsstring
}.

(** The environment: the model (its answer to the n-th request, or the
    failure it raises), the platform name and the clock. *)
Record Env : Type := {
  groq_create : nat -> Request -> outcome ChatCompletion;
  platform : jsstring;
  toISOString_now : jsstring
}.

Definition initialState : ConversationState :=
  {| messages := []; isActive := false; hasEnded := false; endReason := None |}.

Definition initialWorld : World :=
  {| conversationState := initialState; requests := []; executed := [] |}.

Definition setState (f : ConversationState -> ConversationState) : M World unit :=
  modify (fun w => {| conversationState := f (conversationState w);
                      requests := requests w; executed := executed w |}).

Definition push (m : ChatMessage) : M World unit :=
  setState (fun s => {| messages := messages s ++ [m]; isActive := isActive s;
                        hasEnded := hasEnded s; endReason := endReason s |}).

Definition exec (command : jsstring) : M World unit :=
  modify (fun w => {| conversationState := conversationState w;
                      requests := requests w;
                      executed := executed w ++ [command] |}).

(** [await groq.chat.completions.create(request)]. *)
Definition create (env : Env) (r : Request) : M World ChatCompletion :=
  fun w =>
    (groq_create env (length (requests w)) r,
     {| conversationState := conversationState w;
        requests := requests w ++ [r]; executed := executed w |}).

Definition openBrowser (env : Env) (url : jsstring) : M World unit :=
  let command :=
    if str_eq (platform env) (js "darwin") then js "open"
    else if str_eq (platform env) (js "win32") then js "start"
    else if str_eq (platform env) (js "linux") then js "xdg-open"
    else js "open" in
  exec (command ++ js " " ++ dquote ++ url ++ dquote).

Record MockLocation : Type := { lat : jsstring; lng : jsstring; name : jsstring }.

(** The mock table of [searchMap], in key order. The coordinates are kept
    in the text JavaScript prints for them (-122.4100 prints as -122.41). *)
Definition locations : list (jsstring * MockLocation) :=
  [ (js "main and 5th",
      {| lat := js "37.7837"; lng := js "-122.41"; name := js "Main St & 5th St" |});
    (js "downtown",
      {| lat := js "37.779"; lng := js "-122.415"; name := js "Downtown" |});
    (js "hospital",
      {| lat := js "37.7749"; lng := js "-122.4194"; name := js "General Hospital" |});
    (js "default",
      {| lat := js "37.7749"; lng := js "-122.4194"; name := js "Default Location" |}) ].

Definition defaultLocation : MockLocation :=
  {| lat := js "37.7749"; lng := js "-122.4194"; name := js "Default Location" |}.

(** The [for ... in] loop with its [break]: the first key the lowered
    query includes, ["default"] when there is none. *)
Definition findLocation (q : jsstring) : jsstring * MockLocation :=
  match list_find (fun kv => includes (toLowerCase q) (fst kv) = true) locations with
  | Some (_, kv) => kv
  | None => (js "default", defaultLocation)
  end.

(** [searchMap(query)]; an undefined query throws at [query.toLowerCase()],
    before the browser is opened. *)
Definition searchMap (env : Env) (q : option jsstring) : M World jsstring :=
  match q with
  | None => throw (readOfUndefined "toLowerCase")
  | Some q =>
      let (locationKey, location) := findLocation q in
      let mapUrl :=
        js "https://www.google.com/maps?q=" ++ lat location ++ js ","
        ++ lng location ++ js "&z=17" in
      let* _ := openBrowser env mapUrl in
      ret (JSON_stringify
        (JObject
          [ (js "results",
              JArray
                [ JObject
                    [ (js "name", JString (name location));
                      (js "address",
                        JString (js "Near " ++ name location ++ js ", Example City"));
                      (js "coordinates",
                        JObject [ (js "lat", JNumber (lat location));
                                  (js "lng", JNumber (lng location)) ]);
                      (js "type",
                        JString (if includes locationKey (js "hospital")
                                 then js "medical" else js "intersection"));
                      (js "nearby",
                        JArray [ JString (js "Hospital (0.5mi)");
                                 JString (js "Police Station (1.2mi)");
                                 JString (js "Fire Station (0.8mi)") ]) ] ]);
            (js "query", JString q);
            (js "visualized", JBool true) ]))
  end.

(** A property whose value is [undefined] is left out by [JSON.stringify]. *)
Definition optField (k : jsstring) (v : option jsstring) : list (jsstring * Json) :=
  match v with Some s => [(k, JString s)] | None => [] end.

Definition searchPerson (q : option jsstring) : jsstring :=
  JSON_stringify
    (JObject
      [ (js "results",
          JArray
            [ JObject
                (optField (js "name") q
                 ++ [ (js "possible_matches",
                        JArray
                          [ JObject
                              [ (js "name", JString (js "John Smith"));
                                (js "age", JNumber (js "34"));
                                (js "address", JString (js "123 Main St, Example City"));
                                (js "phone", JString (js "(555) 123-4567")) ] ]) ]
                 ++ optField (js "query") q) ]) ]).

Definition endCall (env : Env) (r : option jsstring) : jsstring :=
  JSON_stringify
    (JObject
      ([ (js "status", JString (js "ended")) ]
       ++ optField (js "reason") r
       ++ [ (js "timestamp", JString (toISOString_now env)) ])).

Record Reply : Type := { response : jsstring; reply_hasEnded : bool }.

Definition systemPrompt : jsstring :=
  js "You are a 911 operator on phone so talk accordingly (keep your responses short). You should gather information about the emergency situation and the caller's whereabouts. Do not reveal your capabilities. Respond as a real 911 operator would. If the emergency has been fully addressed or help is confirmed to be on the way, use the end-call tool to conclude the conversation.".

Definition toolNames : list jsstring :=
  [js "search-map"; js "search-person"; js "end-call"].

(** [a || b] on strings that may be undefined or null. *)
Definition or_else (a : option jsstring) (b : jsstring) : jsstring :=
  match a with
  | Some s => if truthy_str s then s else b
  | None => b
  end.

(** [`${x}`] for a string that may be undefined. *)
Definition template (a : option jsstring) : jsstring :=
  match a with Some s => s | None => js "undefined" end.

(** Process tool responses and get a follow-up response from the model. *)
Definition handleToolResponse (env : Env) : M World Reply :=
  let* w := get in
  if hasEnded (conversationState w) then
    ret {| response :=
             js "Call ended. " ++ template (endReason (conversationState w))
             ++ js ". Emergency services have been dispatched to your location. Please stay safe.";
           reply_hasEnded := true |}
  else
    let* completion :=
      create env {| req_model := MODEL;
                    req_messages := messages (conversationState w);
                    req_tools := None; req_tool_choice := None;
                    req_max_completion_tokens := 1024 |} in
    match choices completion with
    | [] => throw (readOfUndefined "message")
    | responseMessage :: _ =>
        let* _ := push (AssistantMessage responseMessage) in
        let* w' := get in
        ret {| response :=
                 or_else (rm_content responseMessage)
                   (js "I'm processing your emergency. Stay on the line.");
               reply_hasEnded := hasEnded (conversationState w') |}
    end.

(** The body of the loop over the tool calls of one model response. *)
Definition dispatchToolCall (env : Env) (toolCall : ToolCall) : M World unit :=
  match arguments toolCall with
  | Thrown e => throw e
  | Returned functionArgs =>
      let functionName := function_name toolCall in
      let* functionResponse :=
        if str_eq functionName (js "search-map") then
          searchMap env (query functionArgs)
        else if str_eq functionName (js "search-person") then
          ret (searchPerson (query functionArgs))
        else if str_eq functionName (js "end-call") then
          let* _ :=
            setState (fun s => {| messages := messages s; isActive := isActive s;
                                  hasEnded := true;
                                  endReason := reason functionArgs |}) in
          ret (endCall env (reason functionArgs))
        else ret [] in
      push (ToolMessage (tc_id toolCall) functionResponse)
  end.

(** Process a user message and get the 911 operator's response. *)
Definition handleUserMessage (env : Env) (userMessage : jsstring) : M World Reply :=
  let* w0 := get in
  let* _ :=
    if isActive (conversationState w0) then ret tt
    else setState (fun _ => {| messages := [SystemMessage systemPrompt];
                               isActive := true; hasEnded := false;
                               endReason := None |}) in
  let* w1 := get in
  if hasEnded (conversationState w1) then
    ret {| response :=
             js "This emergency call has already ended. Reason: "
             ++ or_else (endReason (conversationState w1))
                  (js "Emergency services have been dispatched.");
           reply_hasEnded := true |}
  else
    let* _ := push (UserMessage userMessage) in
    let* w2 := get in
    let* completion :=
      create env {| req_model := MODEL;
                    req_messages := messages (conversationState w2);
                    req_tools := Some toolNames;
                    req_tool_choice := Some (js "auto");
                    req_max_completion_tokens := 1024 |} in
    match choices completion with
    | [] => throw (readOfUndefined "message")
    | responseMessage :: _ =>
        let* _ := push (AssistantMessage responseMessage) in
        match tool_calls responseMessage with
        | Some (toolCall :: rest) =>
            let* _ := for_of (toolCall :: rest) (dispatchToolCall env) in
            handleToolResponse env
        | _ =>
            let* w3 := get in
            ret {| response :=
                     or_else (rm_content responseMessage)
                       (js "I'm connecting you with emergency services.");
                   reply_hasEnded := hasEnded (conversationState w3) |}
        end
    end.

(** ** Names for the statements about a turn *)

(** The conversation a turn works on: a fresh one when the session is
    not active. *)
Definition started (s : ConversationState) : ConversationState :=
  if isActive s then s
  else {| messages := [SystemMessage systemPrompt]; isActive := true;
          hasEnded := false; endReason := None |}.

(** The tool-enabled request of a turn. *)
Definition turnRequest (s : ConversationState) (userMessage : jsstring) : Request :=
  {| req_model := MODEL;
     req_messages := messages (started s) ++ [UserMessage userMessage];
     req_tools := Some toolNames;
     req_tool_choice := Some (js "auto");
     req_max_completion_tokens := 1024 |}.

(** A tool call whose dispatch completes: its arguments can be read, and
    a map search has a query. *)
Definition dispatches (t : ToolCall) : Prop :=
  exists a, arguments t = Returned a
            /\ (function_name t = js "search-map" -> is_Some (query a)).

(** The reply of a turn on a session that has ended. *)
Definition endedReply (s : ConversationState) : Reply :=
  {| response :=
       js "This emergency call has already ended. Reason: "
       ++ or_else (endReason s) (js "Emergency services have been dispatched.");
     reply_hasEnded := true |}.


(** A session that has not ended: not active yet, or active and running. *)
Definition live (w : World) : Prop :=
  isActive (conversationState w) = true -> hasEnded (conversationState w) = false.

(** The world of a turn once the model has answered with [rm]. *)
Definition afterModel (w : World) (u : jsstring) (rm : ResponseMessage) : World :=
  {| conversationState :=
       {| messages := (messages (started (conversationState w)) ++ [UserMessage u])
                      ++ [AssistantMessage rm];
          isActive := true; hasEnded := false;
          endReason := endReason (started (conversationState w)) |};
     requests := requests w ++ [turnRequest (conversationState w) u];
     executed := executed w |}.

(** The world of a turn once the request to the model is sent. *)
Definition afterRequest (w : World) (u : jsstring) : World :=
  {| conversationState :=
       {| messages := messages (started (conversationState w)) ++ [UserMessage u];
          isActive := true; hasEnded := false;
          endReason := endReason (started (conversationState w)) |};
     requests := requests w ++ [turnRequest (conversationState w) u];
     executed := executed w |}.

(** The two fallback texts of a turn. *)
Definition connecting : jsstring := js "I'm connecting you with emergency services.".

(** Reset the conversation state. *)
Definition resetConversation : M World unit :=
  setState (fun _ => initialState).

Definition converse (env : Env) (userMessage : jsstring) : M World Reply :=
  let* result := handleUserMessage env userMessage in
  ret {| response := response result; reply_hasEnded := reply_hasEnded result |}.

(** Calling [handleUserMessage] once per message of a list, stopping at the
    first call that throws; the replies are collected. *)
Fixpoint handleAll (env : Env) (userMessages : list jsstring) : M World (list Reply) :=
  match userMessages with
  | [] => ret []
  | u :: rest =>
      let* r := handleUserMessage env u in
      let* rs := handleAll env rest in
      ret (r :: rs)
  end.

(** ** Scenarios *)

(** A model that asks to end the call, with the reason "help dispatched". *)
Definition endingModel : Env :=
  {| groq_create := fun _ _ =>
       Returned
         {| choices :=
              [ {| rm_content := None;
                   tool_calls :=
                     Some [ {| tc_id := js "call_1"; function_name := js "end-call";
                               arguments :=
                                 Returned {| query := None;
                                             reason := Some (js "help dispatched") |} |} ]
                |} ] |};
     platform := js "linux";
     toISOString_now := js "2025-01-01T00:00:00.000Z" |}.

(** A model that first asks for a map search and then answers in words. *)
Definition mappingModel : Env :=
  {| groq_create := fun n _ =>
       match n with
       | O =>
           Returned
             {| choices :=
                  [ {| rm_content := None;
                       tool_calls :=
                         Some [ {| tc_id := js "call_1"; function_name := js "search-map";
                                   arguments :=
                                     Returned {| query := Some (js "Main and 5th");
                                                 reason := None |} |} ] |} ] |}
       | S _ =>
           Returned
             {| choices :=
                  [ {| rm_content := Some (js "Units are on their way to Main and 5th.");
                       tool_calls := None |} ] |}
       end;
     platform := js "linux";
     toISOString_now := js "2025-01-01T00:00:00.000Z" |}.

(** A model service that is down: every request fails. *)
Definition failingModel : Env :=
  {| groq_create := fun _ _ => Thrown (ErrorObject (js "APIConnectionError") (js "Connection error."));
     platform := js "linux";
     toISOString_now := js "2025-01-01T00:00:00.000Z" |}.

(** ** Names for the statements about whole turns *)

(** The tool messages for the calls [ts] with the contents [contents]. *)
Definition toolMessages (ts : list ToolCall) (contents : list jsstring)
  : list ChatMessage :=
  zip_with ToolMessage (tc_id <$> ts) contents.

(** The follow-up request of [handleToolResponse]. *)
Definition followUpRequest (ms : list ChatMessage) : Request :=
  {| req_model := MODEL; req_messages := ms; req_tools := None;
     req_tool_choice := None; req_max_completion_tokens := 1024 |}.

(** The reply of the turn in which the call is ended. *)
Definition callEnded (r : option jsstring) : Reply :=
  {| response :=
       js "Call ended. " ++ template r
       ++ js ". Emergency services have been dispatched to your location. Please stay safe.";
     reply_hasEnded := true |}.


(** The second world continues the session of the first: the conversation,
    the requests and the commands only grow, the session stays active or
    inactive as it was, and a call that has ended stays ended. *)
Definition continues (w w' : World) : Prop :=
  messages (conversationState w) `prefix_of` messages (conversationState w')
  /\ requests w `prefix_of` requests w'
  /\ executed w `prefix_of` executed w'
  /\ isActive (conversationState w') = isActive (conversationState w)
  /\ (hasEnded (conversationState w) = true ->
      hasEnded (conversationState w') = true).



(** A model whose answer holds a person search, then a tool call whose
    arguments are no JSON, then an end-call. *)
Definition garblingModel : Env :=
  {| groq_create := fun _ _ =>
       Returned
         {| choices :=
              [ {| rm_content := None;
                   tool_calls :=
                     Some [ {| tc_id := js "call_1"; function_name := js "search-person";
                               arguments :=
                                 Returned {| query := Some (js "John Smith");
                                             reason := None |} |};
                            {| tc_id := js "call_2"; function_name := js "search-map";
                               arguments :=
                                 Thrown (ErrorObject (js "SyntaxError")
                                           (js "Unexpected end of JSON input")) |};
                            {| tc_id := js "call_3"; function_name := js "end-call";
                               arguments :=
                                 Returned {| query := None;
                                             reason := Some (js "help dispatched") |} |} ]
                |} ] |};
     platform := js "linux";
     toISOString_now := js "2025-01-01T00:00:00.000Z" |}.

End Operator.

(** ** The web search service, shared by the route and the page *)

(** The response of [jigsaw.web.search], with the properties the code
    reads; [None] is a property that is absent. *)
Record WebResponse : Type := {
  ai_overview : option jsstring;
  image_urls : option (list jsstring)
}.

(** * The analysis route: search tools and [analyzeConversation] *)

Module Route.

Local Open Scope js_scope.

Section WithNumbers.

(** JavaScript numbers are kept abstract, with the three operations the
    route applies to them. *)
Variable number : Type.
(** ToBoolean: false on 0, -0 and NaN. *)
Variable truthy_num : number -> bool.
(** [n.toFixed(4)]. *)
Variable toFixed4 : number -> jsstring.
(** [`${n}`]. *)
Variable numberToString : number -> jsstring.

(** What the parsing block makes of the text a model returned. *)
Inductive ParsedJson (A : Type) : Type :=
| NotJson                 (* [JSON.parse] throws *)
| JsonNull                (* it yields [null]: reading a property throws *)
| JsonObject (a : A).
Arguments NotJson {A}.
Arguments JsonNull {A}.
Arguments JsonObject {A} a.

(** The properties [extractCoordinatesWithAI] reads: [Some] when
    [typeof] the property is ['number']. *)
Record CoordinateFields : Type := {
  cf_latitude : option number;
  cf_longitude : option number
}.

(** The properties [searchPerson] reads; [pf_age] is [None] when the
    property is null or absent, [pf_background] likewise. *)
Record PersonFields : Type := {
  pf_age : option number;
  pf_background : option jsstring
}.

Record LocationResult : Type := {
  latitude : option number;
  longitude : option number;
  address : option jsstring;
  confidence : option jsstring;
  loc_status : jsstring;
  loc_source : option jsstring;
  loc_message : option jsstring
}.

Record PersonResult : Type := {
  name : jsstring;
  age : option number;
  background : jsstring;
  status : jsstring;
  per_source : option jsstring
}.

Inductive ToolValue : Type :=
| LocationValue (r : LocationResult)
| PersonValue (r : PersonResult).

(** An entry of [step.toolResults], by the properties that matter: the
    code reads [name] and [result], and each may be undefined. The entries
    that [generateText] of the ai package builds are
    [{toolCallId, toolName, args, result}]: the name of the tool is under
    [toolName], and they have no property [name]. *)
Record ToolResult : Type := {
  tr_name : option jsstring;
  toolName : option jsstring;
  result : option ToolValue
}.

Record Step : Type := {
  toolCalls : list jsstring;
  toolResults : list ToolResult
}.

(** An entry of the [messages] argument, with the two properties
    [analyzeConversation] keeps. *)
Record ChatEntry : Type := { role : jsstring; content : jsstring }.

(** The argument of the tool-enabled [generateText] call. *)
Record AnalysisRequest : Type := {
  an_model : jsstring;
  an_system : jsstring;
  an_messages : list ChatEntry;
  an_tools : list jsstring;
  toolChoice : jsstring;
  maxSteps : N;
  temperature : jsstring
}.

(** The external calls of the route. *)
Inductive Call : Type :=
| WebSearch (query : jsstring) (with_ai_overview : bool)
| ExtractText (system : jsstring) (content : jsstring) (temperature : jsstring)
| Analysis (request : AnalysisRequest).

Record World : Type := { calls : list Call }.

Definition initialWorld : World := {| calls := [] |}.

(** The environment: each service answers the n-th call of the run, or
    fails. The answer of an extraction call is kept as what the parsing
    block makes of it. *)
Record Env : Type := {
  web_search : nat -> jsstring -> outcome (option WebResponse);
  extract_coordinates : nat -> jsstring -> outcome (ParsedJson CoordinateFields);
  extract_person : nat -> jsstring -> outcome (ParsedJson PersonFields);
  generateText_steps : nat -> AnalysisRequest -> outcome (list Step);
  randomUUID : jsstring
}.

Definition call {A} (c : Call) (answer : nat -> outcome A) : M World A :=
  fun w => (answer (length (calls w)), {| calls := calls w ++ [c] |}).

Definition nullCoordinates : option number * option number := (None, None).

(** The user message of the coordinate extraction. *)
Definition coordinatesPrompt (text : jsstring) : jsstring :=
  js "Extract latitude and longitude from this text. Return ONLY a JSON object with "
  ++ dquote ++ js "latitude" ++ dquote ++ js " and " ++ dquote ++ js "longitude"
  ++ dquote
  ++ js " as number properties. If coordinates aren't found, return null for those fields:"
  ++ [10; 10] ++ text.

(** The user message of the biography extraction. *)
Definition personPrompt (name aiOverview : jsstring) : jsstring :=
  js "Extract biographical information about " ++ name
  ++ js " from this text. Return ONLY a JSON object with "
  ++ dquote ++ js "age" ++ dquote
  ++ js " as a number (or null if not found) and "
  ++ dquote ++ js "background" ++ dquote
  ++ js " as a concise description:" ++ [10; 10] ++ aiOverview.

(** Extract coordinates from text using AI. *)
Definition extractCoordinatesWithAI (env : Env) (text : jsstring)
  : M World (option number * option number) :=
  if negb (truthy_str text) then ret nullCoordinates
  else
    try_catch
      (let content := coordinatesPrompt text in
       let* locationData :=
         call (ExtractText
                 (js "Extract geographic coordinates from text. Return valid JSON only.")
                 content (js "0.1"))
              (fun n => extract_coordinates env n content) in
       match locationData with
       | JsonObject parsed => ret (cf_latitude parsed, cf_longitude parsed)
       | NotJson | JsonNull => ret nullCoordinates
       end)
      (fun _ => ret nullCoordinates).

Definition locationFailure (st msg : string) : LocationResult :=
  {| latitude := None; longitude := None; address := None; confidence := None;
     loc_status := js st; loc_source := None; loc_message := Some (js msg) |}.

(** The query guard of the location tool. *)
Definition locationQueryTooVague (query : jsstring) : bool :=
  negb (truthy_str query) || (length (trim query) <? 3)%nat
  || str_eq query (js "I am") || str_eq query (js "breathe").

(** [error instanceof Error ? error.message : "Unknown error"]. *)
Definition messageOrUnknown (e : JsError) : jsstring :=
  match e with
  | ErrorObject _ message => message
  | ThrownValue => js "Unknown error"
  end.

(** TOOL A: [searchLocation.execute({ query })]. *)
Definition searchLocation (env : Env) (query : jsstring) : M World LocationResult :=
  try_catch
    (if locationQueryTooVague query then
       ret (locationFailure "skipped" "Location query was too vague or short")
     else
       let searchQuery := js "exact coordinates latitude and longitude of " ++ query in
       try_catch
         (let* response :=
            call (WebSearch searchQuery true) (fun n => web_search env n searchQuery) in
          let aiOverview := response ≫= ai_overview in
          if negb (truthy_ostr aiOverview) then
            ret (locationFailure "no_ai_overview" "No AI overview found")
          else
            let* coordinates := extractCoordinatesWithAI env (default [] aiOverview) in
            match coordinates with
            | (Some la, Some lo) =>
                ret {| latitude := Some la; longitude := Some lo;
                       address := Some query; confidence := Some (js "high");
                       loc_status := js "success";
                       loc_source := Some (js "ai_overview"); loc_message := None |}
            | _ =>
                ret (locationFailure "no_coordinates" "No coordinates found in AI overview")
            end)
         (fun apiError =>
            ret (locationFailure "error" "Failed to retrieve location data")))
    (fun error =>
       ret {| latitude := None; longitude := None; address := None;
              confidence := None; loc_status := js "error"; loc_source := None;
              loc_message := Some (messageOrUnknown error) |}).

Definition personFailure (name : jsstring) (bg st : string) : PersonResult :=
  {| name := name; age := None; background := js bg; status := js st;
     per_source := None |}.

(** The query guard of the person tool. *)
Definition nameTooVague (name : jsstring) : bool :=
  negb (truthy_str name) || (length (trim name) <? 3)%nat
  || str_eq name (js "I am").

(** [x || y] on numbers that may be null. *)
Definition truthy_onum (o : option number) : bool :=
  match o with Some n => truthy_num n | None => false end.

(** TOOL B: [searchPerson.execute({ name })]. *)
Definition searchPerson (env : Env) (name : jsstring) : M World PersonResult :=
  try_catch
    (if nameTooVague name then
       ret (personFailure name "Name query was too vague or short" "skipped")
     else
       let searchQuery := name ++ js " person biography information age background" in
       try_catch
         (let* response :=
            call (WebSearch searchQuery true) (fun n => web_search env n searchQuery) in
          let aiOverview := response ≫= ai_overview in
          if negb (truthy_ostr aiOverview) then
            ret (personFailure name "No information found" "no_ai_overview")
          else
            let overview := default [] aiOverview in
            let content := personPrompt name overview in
            let* personData :=
              call (ExtractText
                      (js "Extract biographical information from text. Return valid JSON only.")
                      content (js "0.2"))
                   (fun n => extract_person env n content) in
            let* parsed :=
              match personData with
              | JsonObject p => ret p
              | NotJson =>
                  ret {| pf_age := None;
                         pf_background := Some (substring0 200 overview) |}
              | JsonNull => throw (TypeError (js "Cannot read properties of null (reading 'age')"))
              end in
            ret {| name := name;
                   age := if truthy_onum (pf_age parsed) then pf_age parsed else None;
                   background :=
                     if truthy_ostr (pf_background parsed)
                     then default [] (pf_background parsed)
                     else substring0 200 overview;
                   status := js "success";
                   per_source := Some (js "ai_overview") |})
         (fun apiError =>
            ret (personFailure name "No information found (API error)" "error")))
    (fun error =>
       ret (personFailure name "Error retrieving information" "error")).

(** The [newMessage] of the analysis: a system notification. *)
Record Notification : Type := {
  n_role : jsstring;
  n_content : jsstring;
  n_id : jsstring;
  n_buffer : list Byte.byte;
  isSystemNotification : bool
}.

Record AnalysisResult : Type := {
  location : option LocationResult;
  callerProfile : option PersonResult;
  newMessage : option Notification
}.

Definition nothingFound : AnalysisResult :=
  {| location := None; callerProfile := None; newMessage := None |}.

(** The three variables of the extraction loop. *)
Record Extracted : Type := {
  x_location : option LocationResult;
  x_callerProfile : option PersonResult;
  foundInfo : bool
}.

(** [x === s] for a string [s] and an [x] that is a string or undefined. *)
Definition is_string (x : option jsstring) (s : jsstring) : bool :=
  match x with
  | Some t => str_eq t s
  | None => false
  end.

(** The body of the inner loop, for one tool result. *)
Definition considerToolResult (acc : Extracted) (toolResult : ToolResult) : Extracted :=
  if is_string (tr_name toolResult) (js "searchLocation") && bool_decide (is_Some (result toolResult)) then
    match result toolResult with
    | Some (LocationValue r) =>
        if truthy_onum (latitude r) && truthy_onum (longitude r) then
          {| x_location := Some r; x_callerProfile := x_callerProfile acc;
             foundInfo := true |}
        else acc
    | _ => acc
    end
  else if is_string (tr_name toolResult) (js "searchPerson") && bool_decide (is_Some (result toolResult)) then
    match result toolResult with
    | Some (PersonValue r) =>
        if truthy_str (background r)
           && negb (str_eq (background r) (js "No background found")) then
          {| x_location := x_location acc; x_callerProfile := Some r;
             foundInfo := true |}
        else acc
    | _ => acc
    end
  else acc.

(** The two nested loops over the steps and their tool results. *)
Definition extractFromSteps (steps : list Step) : Extracted :=
  foldl (fun acc step => foldl considerToolResult acc (toolResults step))
    {| x_location := None; x_callerProfile := None; foundInfo := false |}
    steps.

Definition locationPart (l : LocationResult) : list jsstring :=
  match latitude l, longitude l with
  | Some la, Some lo =>
      if truthy_num la && truthy_num lo then
        [ js "Location identified: "
          ++ (match address l with
              | Some a => if truthy_str a then a else js "Unknown"
              | None => js "Unknown"
              end)
          ++ js " (" ++ toFixed4 la ++ js ", " ++ toFixed4 lo ++ js ")" ]
      else []
  | _, _ => []
  end.

Definition callerParts (p : PersonResult) : list jsstring :=
  if truthy_str (name p) then
    let ageInfo :=
      match age p with
      | Some a => if truthy_num a then js ", age " ++ numberToString a else []
      | None => []
      end in
    [ js "Caller identified: " ++ name p ++ ageInfo ]
    ++ (if truthy_str (background p) then [ js "Background: " ++ background p ] else [])
  else [].

Definition systemNotification (env : Env) (x : Extracted) : option Notification :=
  if foundInfo x then
    let notificationParts :=
      from_option locationPart [] (x_location x)
      ++ from_option callerParts [] (x_callerProfile x) in
    match notificationParts with
    | [] => None
    | _ :: _ =>
        Some {| n_role := js "assistant";
                n_content := js "[System] " ++ join (js ". ") notificationParts;
                n_id := randomUUID env;
                n_buffer := [];
                isSystemNotification := true |}
    end
  else None.

Definition analysisSystemPrompt : jsstring :=
  js "You are looking at a conversation between a 911 operator and caller. Extract information about the caller and their location using the provided tools. IMPORTANT: Only use tools when specific locations or names are mentioned. Don't use the tools for vague terms like 'I am' or single words. If there's no clear name or location to search for, don't use the tools.".

Definition analysisRequest (chat : list ChatEntry) : AnalysisRequest :=
  {| an_model := js "gpt-4o";
     an_system := analysisSystemPrompt;
     an_messages := chat;
     an_tools := [js "searchLocation"; js "searchPerson"];
     toolChoice := js "auto";
     maxSteps := 4;
     temperature := js "0.3" |}.

(** Analyze conversation and extract location and caller profile
    information. *)
Definition analyzeConversation (env : Env) (messages : list ChatEntry)
  : M World AnalysisResult :=
  try_catch
    (let chat := map (fun m => {| role := role m; content := content m |}) messages in
     if (length chat <? 3)%nat then ret nothingFound
     else
       let* steps :=
         call (Analysis (analysisRequest chat))
              (fun n => generateText_steps env n (analysisRequest chat)) in
       let x := extractFromSteps steps in
       ret {| location := x_location x;
              callerProfile := x_callerProfile x;
              newMessage := systemNotification env x |})
    (fun error => ret nothingFound).

(** The body of the JSON response of [POST]. *)
Record PostBody : Type := {
  body_location : option LocationResult;
  caller : option PersonResult;
  body_newMessage : option Notification
}.

(** POST handler; [body] is what [await req.json()] yields. *)
Definition POST (env : Env) (body : outcome (list ChatEntry)) : M World PostBody :=
  let* messages := await body in
  let* r := analyzeConversation env messages in
  ret {| body_location := location r; caller := callerProfile r;
         body_newMessage := newMessage r |}.

(** ** Names for the statements about the extraction *)

(** What holds of the three variables of the extraction loop once it has
    visited the tool results [results]: what it keeps is among them and
    has passed its test. *)
Definition reported (results : list ToolResult) (x : Extracted) : Prop :=
  (forall l, x_location x = Some l ->
     truthy_onum (latitude l) = true
     /\ truthy_onum (longitude l) = true
     /\ exists t, t ∈ results /\ tr_name t = Some (js "searchLocation")
                  /\ result t = Some (LocationValue l))
  /\ (forall p, x_callerProfile x = Some p ->
        background p <> [] /\ background p <> js "No background found"
        /\ exists t, t ∈ results /\ tr_name t = Some (js "searchPerson")
                     /\ result t = Some (PersonValue p))
  /\ (foundInfo x = true <-> x_location x <> None \/ x_callerProfile x <> None).

(** ** Scenarios *)

(** A web search that finds nothing to summarise, and an analysis model
    whose run produced [steps]. *)
Definition silentSearch (steps : list Step) : Env :=
  {| web_search := fun _ _ => Returned (Some {| ai_overview := None; image_urls := None |});
     extract_coordinates := fun _ _ => Returned NotJson;
     extract_person := fun _ _ => Returned NotJson;
     generateText_steps := fun _ _ => Returned steps;
     randomUUID := js "3f2b8c1e-7a4d-4e0b-9c55-1d2e3f4a5b6c" |}.

(** Services that are down: every call fails. *)
Definition servicesDown : Env :=
  {| web_search := fun _ _ => Thrown (ErrorObject (js "Error") (js "fetch failed"));
     extract_coordinates := fun _ _ => Thrown (ErrorObject (js "Error") (js "fetch failed"));
     extract_person := fun _ _ => Thrown (ErrorObject (js "Error") (js "fetch failed"));
     generateText_steps := fun _ _ => Thrown (ErrorObject (js "Error") (js "fetch failed"));
     randomUUID := js "3f2b8c1e-7a4d-4e0b-9c55-1d2e3f4a5b6c" |}.

Definition sampleConversation : list ChatEntry :=
  [ {| role := js "user"; content := js "My name is John Smith, someone broke in" |};
    {| role := js "assistant"; content := js "Are you safe right now?" |};
    {| role := js "user"; content := js "Yes, I am hiding upstairs" |} ].

(** The entry of [step.toolResults] that the ai package builds for a call
    of the tool [tool] that returned [value]: the name of the tool is
    under [toolName]; reading [name] gives undefined. *)
Definition sdkToolResult (tool : jsstring) (value : ToolValue) : ToolResult :=
  {| tr_name := None; toolName := Some tool; result := Some value |}.

(** A run of the analysis model that called the person tool once and got
    [r] from it. *)
Definition personStep (r : PersonResult) : Step :=
  {| toolCalls := [js "searchPerson"];
     toolResults := [sdkToolResult (js "searchPerson") (PersonValue r)] |}.

(** A web search that knows John Smith, an extraction model that reads
    the overview, and an analysis model whose run produced [steps]. *)
Definition informedSearch (steps : list Step) : Env :=
  {| web_search := fun _ _ =>
       Returned (Some {| ai_overview :=
                           Some (js "John Smith, a teacher, has lived in San Francisco since 2010.");
                         image_urls := None |});
     extract_coordinates := fun _ _ => Returned NotJson;
     extract_person := fun _ _ =>
       Returned (JsonObject
                   {| pf_age := None;
                      pf_background :=
                        Some (js "Teacher, lives in San Francisco since 2010.") |});
     generateText_steps := fun _ _ => Returned steps;
     randomUUID := js "3f2b8c1e-7a4d-4e0b-9c55-1d2e3f4a5b6c" |}.

(** What the person tool returns for John Smith on that search. *)
Definition knownCaller : PersonResult :=
  {| name := js "John Smith"; age := None;
     background := js "Teacher, lives in San Francisco since 2010.";
     status := js "success"; per_source := Some (js "ai_overview") |}.

End WithNumbers.

Arguments silentSearch {number}.
Arguments servicesDown {number}.
Arguments sdkToolResult {number}.
Arguments personStep {number}.
Arguments informedSearch {number}.
Arguments knownCaller {number}.
Arguments cf_latitude {number}.
Arguments cf_longitude {number}.
Arguments pf_age {number}.
Arguments pf_background {number}.
Arguments latitude {number}.
Arguments longitude {number}.
Arguments address {number}.
Arguments confidence {number}.
Arguments loc_status {number}.
Arguments loc_source {number}.
Arguments loc_message {number}.
Arguments name {number}.
Arguments age {number}.
Arguments background {number}.
Arguments status {number}.
Arguments per_source {number}.
Arguments LocationValue {number}.
Arguments PersonValue {number}.
Arguments tr_name {number}.
Arguments toolName {number}.
Arguments result {number}.
Arguments toolCalls {number}.
Arguments toolResults {number}.
Arguments web_search {number}.
Arguments extract_coordinates {number}.
Arguments extract_person {number}.
Arguments generateText_steps {number}.
Arguments randomUUID {number}.
Arguments location {number}.
Arguments callerProfile {number}.
Arguments newMessage {number}.
Arguments x_location {number}.
Arguments x_callerProfile {number}.
Arguments foundInfo {number}.
Arguments body_location {number}.
Arguments caller {number}.
Arguments body_newMessage {number}.
Arguments nothingFound {number}.
Arguments locationFailure {number}.
Arguments personFailure {number}.
Arguments nullCoordinates {number}.
Arguments extractCoordinatesWithAI {number}.
Arguments searchLocation {number}.

(** Numbers that are integers (below 10^21 in absolute value), with the
    three operations as JavaScript has them on such numbers. *)
Definition truthy_int (z : Z) : bool := negb (z =? 0)%Z.
Definition intToString (z : Z) : jsstring := js (NilZero.string_of_int (Z.to_int z)).
Definition intToFixed4 (z : Z) : jsstring := intToString z ++ js ".0000".

End Route.

(** * The page component [Home]: timeline, turn check, [respond], [asyncChecks] *)

Module Home.

(** A coordinate of a place, kept in the text JavaScript prints for it:
    the page copies coordinates and never computes with them. *)
Definition number : Type := jsstring.

Inductive Role : Type := assistant | user.

#[local] Instance Role_eq_dec : EqDecision Role.
Proof. solve_decision. Defined.

Definition ArrayBuffer : Type := list Byte.byte.

(** An entry of the [messages] state. *)
Record Message : Type := {
  role : Role;
  content : jsstring;
  id : jsstring;
  buffer : ArrayBuffer;
  sentiment : option jsstring
}.

Record LocationPanel : Type := {
  address : jsstring;
  latitude : number;
  longitude : number
}.

Record ResearchPanel : Type := {
  overview : option jsstring;
  images : list jsstring
}.

(** The values of the [useState] hooks. A render binds each of them as a
    constant; a setter schedules the next render and leaves the bindings
    of earlier renders as they were. *)
Record State : Type := {
  onCall : bool;
  messages : list Message;
  isSpeaking : bool;
  lastSentiment : option jsstring;
  summary : option (list jsstring);
  locationSearch : option LocationPanel;
  humanResearch : option ResearchPanel
}.

(** The [Audio] element behind the [audioSpeaker] ref. *)
Record Audio : Type := {
  paused : bool;
  src : option ArrayBuffer;
  playbackRate : jsstring
}.

(** The places service. *)
Record LatLng : Type := { ll_latitude : number; ll_longitude : number }.
Record Place : Type := { formattedAddress : jsstring; place_location : LatLng }.
Record PlacesResponse : Type := { places : option (list Place) }.

(** The object of the decision step. *)
Record ToolDecision : Type := { query : option jsstring; should_use : bool }.
Record ToolResp : Type := {
  geo_location_search : ToolDecision;
  human_web_search : ToolDecision
}.

(** The requests the page sends to external services. *)
Inductive Request : Type :=
| GenerateText (system : jsstring) (chat : list (Role * jsstring))
| TextToSpeech (text accent : jsstring)
| SentimentRequest (text : jsstring)
| SummaryRequest (text type : jsstring)
| GenerateObject (prompt : jsstring)
| PlacesSearchText (textQuery : jsstring)
| WebSearchRequest (query : jsstring).

(** ** [respond] as a resumable computation

    Every render calls [Home()] anew: [messages] and [isSpeaking] are
    [const] bindings of that call, and [respond] and the effect callbacks
    are closures made by it. Inside one call of [respond] the two names
    therefore denote the values of the render whose effect made the call,
    before and after every [await]: [setMessages] hands a new array
    ([[...prev, m]]) to the next render and never writes to the array of
    an earlier one. Only [audioSpeaker.current], a ref, is read live.
    A call runs up to an [await] and resumes when the awaited promise
    settles. *)

Inductive RespondPhase : Type :=
| AwaitingText
| AwaitingSpeech (responseText : jsstring)
| AwaitingBlob (responseText : jsstring)
| AwaitingArrayBuffer (responseText : jsstring)
| Abandoned            (* one of the three early returns *)
| NoSpeaker            (* the return on a null [audioSpeaker.current] *)
| Committed
| Rejected (e : JsError).

Record Attempt : Type := {
  a_messages : list Message;   (* [messages] of the creating render *)
  a_isSpeaking : bool;         (* [isSpeaking] of the creating render *)
  lastID : option jsstring;
  phase : RespondPhase
}.

(** What an awaited promise of [respond] settles with. *)
Inductive RespondSettled : Type :=
| TextReady (text : jsstring)
| SpeechReady
| BlobReady
| ArrayBufferReady (arrayBuffer : ArrayBuffer) (uuid : jsstring)
| RespondFailed (e : JsError).

(** ** [asyncChecks] as a resumable computation *)

Inductive ChecksPhase : Type :=
| AwaitingAnalysis
| AwaitingLookups (emotion : jsstring) (points : list jsstring)
    (geoRequested humanRequested : bool)
| ChecksDone
| ChecksRejected (e : JsError).

Record Checks : Type := {
  c_lastMessage : option Message;   (* [messages[messages.length - 1]] of the creating render *)
  c_phase : ChecksPhase
}.

Inductive ChecksSettled : Type :=
| AnalysisReady (emotion : jsstring) (points : list jsstring) (toolResp : ToolResp)
| LookupsReady (geo : option PlacesResponse) (human : option WebResponse)
| ChecksFailed (e : JsError).

(** The whole page: hook state, the audio element, the clock, the calls of
    [respond] and [asyncChecks] in flight (in the order they were made)
    and the requests sent so far. *)
Record System : Type := {
  st : State;
  audioSpeaker : option Audio;
  clock : jsstring;
  attempts : list Attempt;
  checks : list Checks;
  sent : list Request
}.

Definition initialState : State :=
  {| onCall := false; messages := []; isSpeaking := false; lastSentiment := None;
     summary := None; locationSearch := None; humanResearch := None |}.

(** The page after its first render and the mount effect
    [audioSpeaker.current = new Audio()]. *)
Definition mounted (now : jsstring) : System :=
  {| st := initialState;
     audioSpeaker := Some {| paused := true; src := None; playbackRate := js "1" |};
     clock := now; attempts := []; checks := []; sent := [] |}.

Definition withState (f : State -> State) (s : System) : System :=
  {| st := f (st s); audioSpeaker := audioSpeaker s; clock := clock s;
     attempts := attempts s; checks := checks s; sent := sent s |}.

Definition withSpeaker (f : Audio -> Audio) (s : System) : System :=
  {| st := st s; audioSpeaker := f <$> audioSpeaker s; clock := clock s;
     attempts := attempts s; checks := checks s; sent := sent s |}.

Definition send (rs : list Request) (s : System) : System :=
  {| st := st s; audioSpeaker := audioSpeaker s; clock := clock s;
     attempts := attempts s; checks := checks s; sent := sent s ++ rs |}.

Definition setMessages (f : list Message -> list Message) : State -> State :=
  fun t => {| onCall := onCall t; messages := f (messages t);
              isSpeaking := isSpeaking t; lastSentiment := lastSentiment t;
              summary := summary t; locationSearch := locationSearch t;
              humanResearch := humanResearch t |}.

Definition setIsSpeaking (b : bool) : State -> State :=
  fun t => {| onCall := onCall t; messages := messages t; isSpeaking := b;
              lastSentiment := lastSentiment t; summary := summary t;
              locationSearch := locationSearch t; humanResearch := humanResearch t |}.

Definition setOnCall (b : bool) : State -> State :=
  fun t => {| onCall := b; messages := messages t; isSpeaking := isSpeaking t;
              lastSentiment := lastSentiment t; summary := summary t;
              locationSearch := locationSearch t; humanResearch := humanResearch t |}.

Definition setLocationSearch (l : LocationPanel) : State -> State :=
  fun t => {| onCall := onCall t; messages := messages t; isSpeaking := isSpeaking t;
              lastSentiment := lastSentiment t; summary := summary t;
              locationSearch := Some l; humanResearch := humanResearch t |}.

Definition setHumanResearch (r : ResearchPanel) : State -> State :=
  fun t => {| onCall := onCall t; messages := messages t; isSpeaking := isSpeaking t;
              lastSentiment := lastSentiment t; summary := summary t;
              locationSearch := locationSearch t; humanResearch := Some r |}.

Definition setLastSentiment (e : jsstring) : State -> State :=
  fun t => {| onCall := onCall t; messages := messages t; isSpeaking := isSpeaking t;
              lastSentiment := Some e; summary := summary t;
              locationSearch := locationSearch t; humanResearch := humanResearch t |}.

Definition setSummary (p : list jsstring) : State -> State :=
  fun t => {| onCall := onCall t; messages := messages t; isSpeaking := isSpeaking t;
              lastSentiment := lastSentiment t; summary := Some p;
              locationSearch := locationSearch t; humanResearch := humanResearch t |}.

Definition systemPrompt (now : jsstring) : jsstring :=
  js "Current ISO datetime: " ++ now
  ++ js ". You're the police operator for the 911 system. You're responsible for taking calls from the public and managing the situation. Your goal is to help the caller, decide to dispatch the police or not. You have to try your best to calm the caller down and get them to tell you what's going on. Get as much information as possible from the caller, and then decide if you need to dispatch the police or not. Make sure to stay on the line with the caller until the police arrive. Get as much info as possible from the caller. Ask one question at a time, only respond with short quick responses that's fast to speak out. Max 2 sentences at a time. Spell out 911 when you need to say it.".

(** [messages.length > 0 && messages[messages.length - 1].role === "user"]. *)
Definition lastIsUser (ms : list Message) : bool :=
  match list.last ms with
  | Some m => bool_decide (role m = user)
  | None => false
  end.

(** The argument [messages] of the [generateText] call of [respond]. *)
Definition chatOf (ms : list Message) : list (Role * jsstring) :=
  map (fun m =>
         (role m,
          content m
          ++ (if truthy_ostr (sentiment m)
              then [10; 10] ++ js "User Sentiment: " ++ default [] (sentiment m)
              else [])))
      ms.

(** The call [respond()] made by a render with state [t]: up to the first
    [await]. [lastID] is [messages?.[messages.length - 1]?.id || null]. *)
Definition respond (t : State) (s : System) : System :=
  let a := {| a_messages := messages t;
              a_isSpeaking := isSpeaking t;
              lastID := (id <$> list.last (messages t)) ≫=
                        (fun i => if truthy_str i then Some i else None);
              phase := AwaitingText |} in
  {| st := st s; audioSpeaker := audioSpeaker s; clock := clock s;
     attempts := attempts s ++ [a]; checks := checks s;
     sent := sent s ++ [GenerateText (systemPrompt (clock s)) (chatOf (messages t))] |}.

(** [messages[messages.length - 1].id !== lastID || isSpeaking], over the
    bindings [respond] closed over; reading [id] of [undefined] throws. *)
Definition abandons (a : Attempt) : outcome bool :=
  match list.last (a_messages a) with
  | None => Thrown (readOfUndefined "id")
  | Some m =>
      Returned (negb (bool_decide (Some (id m) = lastID a)) || a_isSpeaking a)
  end.

Definition withPhase (a : Attempt) (p : RespondPhase) : Attempt :=
  {| a_messages := a_messages a; a_isSpeaking := a_isSpeaking a;
     lastID := lastID a; phase := p |}.

(** The statements between an [await] and the next one, or the end:
    the new phase of the attempt and the system it leaves. *)
Definition checked (a : Attempt) (s : System)
    (continue : RespondPhase * System) : RespondPhase * System :=
  match abandons a with
  | Thrown e => (Rejected e, s)
  | Returned true => (Abandoned, s)
  | Returned false => continue
  end.

Definition respond_resume (a : Attempt) (v : RespondSettled) (s : System)
  : RespondPhase * System :=
  match phase a, v with
  | AwaitingText, TextReady responseText =>
      checked a s
        (AwaitingSpeech responseText,
         send [TextToSpeech responseText (js "en-AU-female-5")] s)
  | AwaitingSpeech responseText, SpeechReady =>
      checked a s (AwaitingBlob responseText, s)
  | AwaitingBlob responseText, BlobReady =>
      (AwaitingArrayBuffer responseText, s)
  | AwaitingArrayBuffer responseText, ArrayBufferReady arrayBuffer uuid =>
      checked a s
        (match audioSpeaker s with
         | None => (NoSpeaker, s)
         | Some _ =>
             (Committed,
              withState
                (setMessages (fun prev =>
                   prev ++ [ {| role := assistant; content := responseText;
                                id := uuid; buffer := arrayBuffer;
                                sentiment := None |} ]))
                (withSpeaker
                   (fun _ => {| paused := false; src := Some arrayBuffer;
                                playbackRate := js "1.3" |})
                   s))
         end)
  | (AwaitingText | AwaitingSpeech _ | AwaitingBlob _ | AwaitingArrayBuffer _),
    RespondFailed e => (Rejected e, s)
  | p, _ => (p, s)
  end.

(** ** [asyncChecks] *)

(** The call [asyncChecks()] made by a render with state [t]: up to the
    first [await]. *)
Definition asyncChecks (t : State) (s : System) : System :=
  match list.last (messages t) with
  | None =>
      {| st := st s; audioSpeaker := audioSpeaker s; clock := clock s;
         attempts := attempts s;
         checks := checks s ++ [ {| c_lastMessage := None;
                                    c_phase := ChecksRejected (readOfUndefined "content") |} ];
         sent := sent s |}
  | Some lastMessage =>
      {| st := st s; audioSpeaker := audioSpeaker s; clock := clock s;
         attempts := attempts s;
         checks := checks s ++ [ {| c_lastMessage := Some lastMessage;
                                    c_phase := AwaitingAnalysis |} ];
         sent := sent s
           ++ [ SentimentRequest (content lastMessage);
                SummaryRequest (join [10] (map content (messages t))) (js "points");
                GenerateObject
                  (js "Decide the relevant services to use based on the content of the conversation. Return the params of the tool in a JSON format, if the tool is not suppose to be used, return null. Message content: "
                   ++ content lastMessage) ] |}
  end.

(** [d.should_use && d.query], as a condition. *)
Definition wanted (d : ToolDecision) : bool := should_use d && truthy_ostr (query d).

(** The requests of the second [Promise.all]. *)
Definition lookupRequests (toolResp : ToolResp) : list Request :=
  (if wanted (geo_location_search toolResp)
   then [PlacesSearchText (default [] (query (geo_location_search toolResp))
                           ++ js " San Francisco, USA")]
   else [])
  ++ (if wanted (human_web_search toolResp)
      then [WebSearchRequest (js "Short research on "
                              ++ default [] (query (human_web_search toolResp)))]
      else []).

(** [newMessages[index].sentiment = emotion]. *)
Definition withSentiment (emotion : jsstring) (m : Message) : Message :=
  {| role := role m; content := content m; id := id m; buffer := buffer m;
     sentiment := Some emotion |}.

(** The updater passed to [setMessages] at the end of [asyncChecks]:
    [findIndex] by id, then the assignment when the index is not -1. *)
Definition mergeSentiment (lastMessageId emotion : jsstring) (prev : list Message)
  : list Message :=
  match list_find (fun m => id m = lastMessageId) prev with
  | Some (index, _) => alter (withSentiment emotion) index prev
  | None => prev
  end.

(** The statements after the second [Promise.all]. Each setter is applied
    as it is called, so the ones before a throw keep their effect. *)
Definition applyLookups (lastMessage : Message) (emotion : jsstring)
    (points : list jsstring)
    (geoLocationSearch : option PlacesResponse) (humanWebSearch : option WebResponse)
  : M State unit :=
  (let* _ :=
     match (geoLocationSearch ≫= places) ≫= head with
     | Some geoData =>
         modify (setLocationSearch
                   {| address := formattedAddress geoData;
                      latitude := ll_latitude (place_location geoData);
                      longitude := ll_longitude (place_location geoData) |})
     | None => ret tt
     end in
   let* _ :=
     match humanWebSearch with
     | Some r =>
         match image_urls r with
         | None => throw (readOfUndefined "slice")
         | Some urls =>
             modify (setHumanResearch {| overview := ai_overview r;
                                         images := take 3 urls |})
         end
     | None => ret tt
     end in
   let* _ := modify (setLastSentiment emotion) in
   let* _ := modify (setSummary points) in
   modify (setMessages (mergeSentiment (id lastMessage) emotion)))%js_m.

Definition checks_resume (c : Checks) (v : ChecksSettled) (s : System)
  : ChecksPhase * System :=
  match c_phase c, v, c_lastMessage c with
  | AwaitingAnalysis, AnalysisReady emotion points toolResp, Some _ =>
      (AwaitingLookups emotion points
         (wanted (geo_location_search toolResp))
         (wanted (human_web_search toolResp)),
       send (lookupRequests toolResp) s)
  | AwaitingLookups emotion points geoRequested humanRequested,
    LookupsReady geo human, Some lastMessage =>
      let geoLocationSearch := if geoRequested then geo else None in
      let humanWebSearch := if humanRequested then human else None in
      match applyLookups lastMessage emotion points geoLocationSearch humanWebSearch
              (st s) with
      | (Returned _, t) => (ChecksDone, withState (fun _ => t) s)
      | (Thrown e, t) => (ChecksRejected e, withState (fun _ => t) s)
      end
  | (AwaitingAnalysis | AwaitingLookups _ _ _ _), ChecksFailed e, _ =>
      (ChecksRejected e, s)
  | p, _, _ => (p, s)
  end.

(** ** Renders and effects *)

(** The effect with dependencies [[isSpeaking]]. *)
Definition turnCheck (t : State) (s : System) : System :=
  if negb (isSpeaking t) then
    if lastIsUser (messages t) then respond t s else s
  else s.

(** The effect with dependencies [[messages?.length]]. *)
Definition enrichmentCheck (t : State) (s : System) : System :=
  if lastIsUser (messages t) then asyncChecks t s else s.

(** The render that follows a batch of state updates: the effects whose
    dependencies differ from those of the previous render run, in the
    order they are declared, over the bindings of the new render. *)
Definition rerender (previous : State) (s : System) : System :=
  let t := st s in
  let s1 :=
    if bool_decide (isSpeaking previous = isSpeaking t) then s else turnCheck t s in
  if bool_decide (length (messages previous) = length (messages t)) then s1
  else enrichmentCheck t s1.

Definition setAttempt (k : nat) (p : RespondPhase) (s : System) : System :=
  {| st := st s; audioSpeaker := audioSpeaker s; clock := clock s;
     attempts := alter (fun a => withPhase a p) k (attempts s);
     checks := checks s; sent := sent s |}.

Definition setChecks (k : nat) (p : ChecksPhase) (s : System) : System :=
  {| st := st s; audioSpeaker := audioSpeaker s; clock := clock s;
     attempts := attempts s;
     checks := alter (fun c => {| c_lastMessage := c_lastMessage c; c_phase := p |})
                 k (checks s);
     sent := sent s |}.

(** What happens to the page. *)
Inductive Event : Type :=
| PressCall                      (* [handleCall] *)
| PressEndCall                   (* [handleEndCall] *)
| SpeechStart                    (* the detector calls [onSpeechStart] *)
| Transcribed (transcript uuid : jsstring) (wavBuffer : ArrayBuffer)
                                 (* [onSpeechEnd] resumes after [transcribeAudio] *)
| PlaybackEnded                  (* the audio element reaches the end *)
| ClockAdvances (now : jsstring)
| RespondSettles (k : nat) (v : RespondSettled)
| ChecksSettle (k : nat) (v : ChecksSettled).

Definition step (s : System) (e : Event) : System :=
  match e with
  | PressCall => rerender (st s) (withState (setOnCall true) s)
  | PressEndCall =>
      rerender (st s) (withState (fun t => setIsSpeaking false (setOnCall false t)) s)
  | SpeechStart =>
      rerender (st s)
        (withState (setIsSpeaking true)
           (withSpeaker
              (fun a => {| paused := true; src := src a; playbackRate := playbackRate a |})
              s))
  | Transcribed transcript uuid wavBuffer =>
      rerender (st s)
        (withState
           (fun t =>
              setIsSpeaking false
                (setMessages (fun prev =>
                   prev ++ [ {| role := user; content := transcript; id := uuid;
                                buffer := wavBuffer; sentiment := None |} ]) t))
           s)
  | PlaybackEnded =>
      withSpeaker
        (fun a => {| paused := true; src := src a; playbackRate := playbackRate a |}) s
  | ClockAdvances now =>
      {| st := st s; audioSpeaker := audioSpeaker s; clock := now;
         attempts := attempts s; checks := checks s; sent := sent s |}
  | RespondSettles k v =>
      match attempts s !! k with
      | Some a =>
          let (p, s') := respond_resume a v s in
          rerender (st s) (setAttempt k p s')
      | None => s
      end
  | ChecksSettle k v =>
      match checks s !! k with
      | Some c =>
          let (p, s') := checks_resume c v s in
          rerender (st s) (setChecks k p s')
      | None => s
      end
  end.

Definition run (s : System) (events : list Event) : System := foldl step s events.

(** The ids of the entries come from [crypto.randomUUID()], which returns
    a string of 36 characters: an event that brings an id brings a
    non-empty one. *)
Definition hasId (e : Event) : bool :=
  match e with
  | Transcribed _ uuid _ => truthy_str uuid
  | RespondSettles _ (ArrayBufferReady _ uuid) => truthy_str uuid
  | _ => true
  end.

(** ** Observations on the timeline *)

Definition roles (ms : list Message) : list Role := map role ms.

(** Two neighbouring [assistant] entries. *)
Fixpoint consecutiveAssistants (ms : list Message) : bool :=
  match ms with
  | m1 :: ((m2 :: _) as rest) =>
      (bool_decide (role m1 = assistant) && bool_decide (role m2 = assistant))
      || consecutiveAssistants rest
  | _ => false
  end.

(** The id of the most recent [user] entry. *)
Definition lastUserId (ms : list Message) : option jsstring :=
  id <$> list.last (filter (fun m => role m = user) ms).

(** The part of a message that the enrichment must leave alone. *)
Definition frame (m : Message) : Role * jsstring * jsstring * ArrayBuffer :=
  (role m, content m, id m, buffer m).

(** ** Scenarios *)

(** The first bytes of a WAV buffer, standing for a whole one. *)
Definition wav : ArrayBuffer := [Byte.x52; Byte.x49; Byte.x46; Byte.x46].

(** Two utterances in quick succession: the second one is transcribed
    while the response to the first one is still being generated. *)
Definition twoUtterances : list Event :=
  [ SpeechStart;
    Transcribed (js "There is a fire") (js "id-U1") wav;
    SpeechStart;
    Transcribed (js "It is at Main and 5th, please hurry") (js "id-U2") wav ].

(** The four promises of the k-th call of [respond] settle. *)
Definition settles (k : nat) (text uuid : jsstring) : list Event :=
  [ RespondSettles k (TextReady text);
    RespondSettles k SpeechReady;
    RespondSettles k BlobReady;
    RespondSettles k (ArrayBufferReady wav uuid) ].

(** Both responses are then generated, the one to the first utterance
    first. *)
Definition bothRespond : list Event :=
  twoUtterances
  ++ settles 0 (js "What is the address of the fire?") (js "id-A1")
  ++ settles 1 (js "Help is on the way to Main and 5th.") (js "id-A2").

(** One utterance, answered while the caller has started to speak again. *)
Definition callerResumes : list Event :=
  [ SpeechStart;
    Transcribed (js "There is a fire") (js "id-U1") wav;
    SpeechStart ]
  ++ settles 0 (js "What is the address of the fire?") (js "id-A1").

Definition startOfCall : System := mounted (js "2025-01-01T00:00:00.000Z").

(** One utterance, and the decision step of its enrichment settles. *)
Definition oneUtterance : list Event :=
  [ SpeechStart;
    Transcribed (js "There is a fire at Main and 5th") (js "id-U1") wav ].

(** The timeline entry of that utterance. *)
Definition firstUtterance : Message :=
  {| role := user; content := js "There is a fire at Main and 5th";
     id := js "id-U1"; buffer := wav; sentiment := None |}.

Definition mainAnd5th : ToolResp :=
  {| geo_location_search := {| query := Some (js "Main and 5th"); should_use := true |};
     human_web_search := {| query := None; should_use := false |} |}.

Definition firstPlace : Place :=
  {| formattedAddress := js "5th St & Main St, San Francisco, CA 94105, USA";
     place_location := {| ll_latitude := js "37.7837"; ll_longitude := js "-122.41" |} |}.

(** A decision that asks for the place lookup with an empty text. *)
Definition emptyGeoQuery : ToolResp :=
  {| geo_location_search := {| query := Some []; should_use := true |};
     human_web_search := {| query := None; should_use := false |} |}.

(** A decision that asks for the person lookup only. *)
Definition askAboutJohn : ToolResp :=
  {| geo_location_search := {| query := None; should_use := false |};
     human_web_search := {| query := Some (js "John Smith"); should_use := true |} |}.

(** A search response with four images, and one without the image list. *)
Definition johnSmith : WebResponse :=
  {| ai_overview := Some (js "John Smith is a resident of San Francisco.");
     image_urls := Some [js "https://img.example/1"; js "https://img.example/2";
                         js "https://img.example/3"; js "https://img.example/4"] |}.

Definition noImages : WebResponse :=
  {| ai_overview := Some (js "John Smith is a resident of San Francisco.");
     image_urls := None |}.

(** One utterance about a person, up to the decision step of its
    enrichment. *)
Definition personUtterance : list Event :=
  [ SpeechStart;
    Transcribed (js "My neighbour John Smith has collapsed") (js "id-U1") wav;
    ChecksSettle 0 (AnalysisReady (js "fear") [js "A neighbour has collapsed"]
                      askAboutJohn) ].

End Home.

(** * The string functions on small inputs *)

Module JsExamples.

Example trim_strips_both_ends : trim (js "  I am ") = js "I am".
Proof. reflexivity. Qed.

Example trim_strips_unicode_spaces : trim [160; 8195; 72; 105; 10; 65279] = js "Hi".
Proof. reflexivity. Qed.

Example trim_of_blanks_is_empty : length (trim (js "      ")) = 0%nat.
Proof. reflexivity. Qed.

Example length_counts_code_units : length [233; 233] = 2%nat.
Proof. reflexivity. Qed.

Example includes_after_lowering :
  includes (toLowerCase (js "Fire at MAIN and 5th")) (js "main and 5th") = true.
Proof. reflexivity. Qed.

Example join_three : join (js ". ") [js "a"; js "b"; js "c"] = js "a. b. c".
Proof. reflexivity. Qed.

Example stringify_escapes :
  JSON_stringify (JObject [(js "reason", JString (js "a" ++ dquote ++ [10]))])
  = js "{" ++ dquote ++ js "reason" ++ dquote ++ js ":" ++ dquote
    ++ js "a" ++ [92] ++ dquote ++ [92] ++ js "n" ++ dquote ++ js "}".
Proof. reflexivity. Qed.

Example searchMap_prefers_the_first_key :
  fst (Operator.findLocation (js "the hospital downtown")) = js "downtown".
Proof. reflexivity. Qed.

End JsExamples.

(** * Properties of the operator conversation *)

Module OperatorProperties.

Import Operator.

Local Open Scope js_scope.

Ltac world :=
  cbn [fst snd conversationState requests executed messages isActive hasEnded
       endReason response reply_hasEnded choices tool_calls rm_content] in *.

Ltac run_monad :=
  unfold handleToolResponse, dispatchToolCall, push, setState, exec, create,
    openBrowser, modify, get, bind, ret, throw, await in *;
  world.

Lemma for_of_app {W A} (l1 l2 : list A) (body : A -> M W unit) (w : W) :
  for_of (l1 ++ l2) body w
  = bind (for_of l1 body) (fun _ => for_of l2 body) w.
Proof.
  revert w; induction l1 as [|x l1 IH]; intros w; cbn [for_of app].
  - reflexivity.
  - unfold bind in *.
    destruct (body x w) as [[[]|e] w1]; [|reflexivity].
    apply IH.
Qed.

(** A turn on an ended session answers with the fixed reply and leaves the
    world as it is. *)
Lemma handleUserMessage_ended env u w :
  isActive (conversationState w) = true ->
  hasEnded (conversationState w) = true ->
  handleUserMessage env u w = (Returned (endedReply (conversationState w)), w).
Proof.
  intros Hact Hend. unfold handleUserMessage. run_monad.
  rewrite Hact. world. rewrite Hend. reflexivity.
Qed.

Lemma handleAll_ended env us w :
  isActive (conversationState w) = true ->
  hasEnded (conversationState w) = true ->
  handleAll env us w
  = (Returned (map (fun _ => endedReply (conversationState w)) us), w).
Proof.
  intros Hact Hend. induction us as [|u us IH]; cbn [handleAll map].
  - reflexivity.
  - unfold bind. rewrite handleUserMessage_ended by assumption.
    rewrite IH. reflexivity.
Qed.

(** The map search touches neither the conversation nor the model. *)
Lemma searchMap_frame env q w :
  conversationState (snd (searchMap env q w)) = conversationState w
  /\ requests (snd (searchMap env q w)) = requests w.
Proof.
  unfold searchMap. destruct q as [q|]; [|split; reflexivity].
  destruct (findLocation q) as [k l]. split; reflexivity.
Qed.

Lemma searchMap_completes env q w :
  exists r, fst (searchMap env (Some q) w) = Returned r.
Proof.
  unfold searchMap. destruct (findLocation q) as [k l]. eexists. reflexivity.
Qed.

(** What the dispatch of one tool call may change. *)
Lemma dispatchToolCall_frame env t w :
  let w' := snd (dispatchToolCall env t w) in
  isActive (conversationState w') = isActive (conversationState w)
  /\ requests w' = requests w
  /\ (hasEnded (conversationState w) = true -> hasEnded (conversationState w') = true)
  /\ (function_name t <> js "end-call" ->
      hasEnded (conversationState w') = hasEnded (conversationState w)
      /\ endReason (conversationState w') = endReason (conversationState w)).
Proof.
  unfold dispatchToolCall.
  destruct (arguments t) as [a|e]; [|unfold throw; world; tauto].
  destruct (str_eq (function_name t) (js "search-map")) eqn:E1.
  { unfold bind. destruct (searchMap_frame env (query a) w) as [F1 F2].
    destruct (searchMap env (query a) w) as [[r|e] w1]; run_monad;
      rewrite ?F1, ?F2; tauto. }
  destruct (str_eq (function_name t) (js "search-person")) eqn:E2;
    [run_monad; tauto|].
  destruct (str_eq (function_name t) (js "end-call")) eqn:E3;
    [|run_monad; tauto].
  apply bool_decide_eq_true in E3. run_monad. tauto.
Qed.

Lemma dispatchToolCall_completes env t w :
  dispatches t -> fst (dispatchToolCall env t w) = Returned tt.
Proof.
  intros (a & Ha & Hq). unfold dispatchToolCall. rewrite Ha.
  destruct (str_eq (function_name t) (js "search-map")) eqn:E1.
  { apply bool_decide_eq_true in E1. destruct (Hq E1) as [q Hq'].
    rewrite Hq'. unfold bind. destruct (searchMap_completes env q w) as [r Hr].
    destruct (searchMap env (Some q) w) as [o w1]. cbn [fst] in Hr. subst o.
    reflexivity. }
  destruct (str_eq (function_name t) (js "search-person")); [reflexivity|].
  destruct (str_eq (function_name t) (js "end-call")); reflexivity.
Qed.

Lemma dispatch_end_call env t a w :
  function_name t = js "end-call" -> arguments t = Returned a ->
  let w' := snd (dispatchToolCall env t w) in
  fst (dispatchToolCall env t w) = Returned tt
  /\ isActive (conversationState w') = isActive (conversationState w)
  /\ requests w' = requests w
  /\ hasEnded (conversationState w') = true
  /\ endReason (conversationState w') = reason a.
Proof.
  intros Hn Ha. unfold dispatchToolCall. rewrite Ha, Hn.
  change (str_eq (js "end-call") (js "search-map")) with false.
  change (str_eq (js "end-call") (js "search-person")) with false.
  change (str_eq (js "end-call") (js "end-call")) with true.
  run_monad. auto.
Qed.

Lemma for_of_dispatch_frame env ts w :
  let w' := snd (for_of ts (dispatchToolCall env) w) in
  isActive (conversationState w') = isActive (conversationState w)
  /\ requests w' = requests w
  /\ (hasEnded (conversationState w) = true -> hasEnded (conversationState w') = true)
  /\ (Forall (fun t => function_name t <> js "end-call") ts ->
      hasEnded (conversationState w') = hasEnded (conversationState w)
      /\ endReason (conversationState w') = endReason (conversationState w)).
Proof.
  revert w; induction ts as [|t ts IH]; intros w; cbn [for_of].
  - unfold ret; world; auto.
  - unfold bind.
    pose proof (dispatchToolCall_frame env t w) as (F1 & F2 & F3 & F4).
    destruct (dispatchToolCall env t w) as [[[]|e] w1]; world.
    + destruct (IH w1) as (G1 & G2 & G3 & G4).
      split; [congruence|]. split; [congruence|]. split; [auto|].
      intros Hall; inversion Hall; subst.
      destruct F4 as [F4a F4b]; [assumption|].
      destruct G4 as [G4a G4b]; [assumption|].
      split; congruence.
    + split; [assumption|]. split; [assumption|]. split; [assumption|].
      intros Hall; inversion Hall; subst. apply F4; assumption.
Qed.

Lemma for_of_dispatch_completes env ts w :
  Forall dispatches ts -> fst (for_of ts (dispatchToolCall env) w) = Returned tt.
Proof.
  intros Hall; revert w; induction Hall as [|t ts Ht _ IH]; intros w; cbn [for_of].
  - reflexivity.
  - unfold bind. pose proof (dispatchToolCall_completes env t w Ht) as E.
    destruct (dispatchToolCall env t w) as [o w1]; cbn [fst] in E; subst o. apply IH.
Qed.

Lemma handleToolResponse_ended env w :
  hasEnded (conversationState w) = true ->
  snd (handleToolResponse env w) = w.
Proof.
  intros Hend. unfold handleToolResponse, bind, get, ret. world.
  rewrite Hend. reflexivity.
Qed.

(** The tool phase of a turn whose tool calls hold an end-call. *)
Lemma tools_phase_with_end_call env w pre tc post a r :
  Forall dispatches pre ->
  function_name tc = js "end-call" ->
  arguments tc = Returned a ->
  reason a = Some r ->
  Forall (fun t => function_name t <> js "end-call") post ->
  let w' := snd (bind (for_of (pre ++ tc :: post) (dispatchToolCall env))
                   (fun _ => handleToolResponse env) w) in
  isActive (conversationState w') = isActive (conversationState w)
  /\ hasEnded (conversationState w') = true
  /\ endReason (conversationState w') = Some r
  /\ requests w' = requests w.
Proof.
  intros Hpre Hname Hargs Hreason Hpost w'.
  assert (E : w' = snd (bind (for_of (pre ++ tc :: post) (dispatchToolCall env))
                          (fun _ => handleToolResponse env) w)) by reflexivity.
  clearbody w'. revert E.
  unfold bind at 1. rewrite for_of_app. unfold bind at 1.
  pose proof (for_of_dispatch_completes env pre w Hpre) as C1.
  pose proof (for_of_dispatch_frame env pre w) as (F1 & F2 & _ & _).
  destruct (for_of pre (dispatchToolCall env) w) as [o1 w1].
  cbn [fst snd] in *. subst o1. cbn [for_of]. unfold bind at 1.
  pose proof (dispatch_end_call env tc a w1 Hname Hargs) as (C2 & G1 & G2 & G3 & G4).
  destruct (dispatchToolCall env tc w1) as [o2 w2].
  cbn [fst snd] in *. subst o2.
  pose proof (for_of_dispatch_frame env post w2) as (K1 & K2 & K3 & K4).
  destruct (K4 Hpost) as [K5 K6].
  destruct (for_of post (dispatchToolCall env) w2) as [[[]|e] w3]; cbn [fst snd] in *.
  - rewrite handleToolResponse_ended by congruence.
    intros ->. repeat split; congruence.
  - intros ->. repeat split; congruence.
Qed.

Lemma started_live w :
  live w ->
  isActive (started (conversationState w)) = true
  /\ hasEnded (started (conversationState w)) = false.
Proof.
  unfold live, started. destruct (isActive (conversationState w)) eqn:E; auto.
Qed.

(** A turn on a live session, once the model has answered. *)
Lemma handleUserMessage_model_answers env w u completion rm others :
  live w ->
  groq_create env (length (requests w)) (turnRequest (conversationState w) u)
    = Returned completion ->
  choices completion = rm :: others ->
  handleUserMessage env u w
  = match tool_calls rm with
    | Some (t :: ts) =>
        bind (for_of (t :: ts) (dispatchToolCall env))
          (fun _ => handleToolResponse env) (afterModel w u rm)
    | _ =>
        (Returned {| response := or_else (rm_content rm) connecting;
                     reply_hasEnded := false |},
         afterModel w u rm)
    end.
Proof.
  intros Hlive Hreq Hch.
  unfold handleUserMessage, turnRequest, started, afterModel, connecting, live in *.
  unfold bind at 1 2 3 4 5 6 7. unfold get, push, setState, modify, create, ret. world.
  destruct (isActive (conversationState w)) eqn:Hact; world.
  - rewrite (Hlive eq_refl). rewrite Hreq, Hch. world.
    rewrite (Hlive eq_refl).
    destruct (tool_calls rm) as [[|t ts]|];
      unfold afterModel, turnRequest, started; rewrite Hact; try reflexivity;
      unfold bind; world; rewrite ?(Hlive eq_refl); reflexivity.
  - rewrite Hreq, Hch. world.
    destruct (tool_calls rm) as [[|t ts]|];
      unfold afterModel, turnRequest, started; rewrite Hact; reflexivity.
Qed.

(** A turn on a live session whose model call fails, or answers without
    a choice, throws. *)
Lemma handleUserMessage_model_fails env w u :
  live w ->
  handleUserMessage env u w
  = match groq_create env (length (requests w)) (turnRequest (conversationState w) u) with
    | Thrown e => (Thrown e, afterRequest w u)
    | Returned completion =>
        match choices completion with
        | [] => (Thrown (readOfUndefined "message"), afterRequest w u)
        | rm :: _ => handleUserMessage env u w
        end
    end.
Proof.
  intros Hlive.
  destruct (groq_create env (length (requests w))
              (turnRequest (conversationState w) u)) as [completion|e] eqn:Hreq.
  2: { unfold handleUserMessage, afterRequest, turnRequest, started, live in *.
       unfold bind, get, push, setState, modify, create, ret. world.
       destruct (isActive (conversationState w)) eqn:Hact; world.
       - rewrite (Hlive eq_refl). rewrite Hreq. world.
         rewrite ?(Hlive eq_refl), ?Hact. reflexivity.
       - rewrite Hreq. reflexivity. }
  destruct (choices completion) as [|rm others] eqn:Hch; [|reflexivity].
  unfold handleUserMessage, afterRequest, turnRequest, started, live in *.
  unfold bind, get, push, setState, modify, create, ret, throw. world.
  destruct (isActive (conversationState w)) eqn:Hact; world.
  - rewrite (Hlive eq_refl). rewrite Hreq, Hch. world.
    rewrite ?(Hlive eq_refl), ?Hact. reflexivity.
  - rewrite Hreq, Hch. reflexivity.
Qed.

(** C3, as the code has it. When the model's answer holds an end-call
    tool call with a reason, the tool calls before it in that answer
    complete (their arguments are JSON, and a map search has a query)
    and none after it is another end-call,
    the turn leaves the session with [hasEnded = true] and [endReason] set
    to that reason; every call of [handleUserMessage] after it returns the
    fixed call-has-ended reply with [hasEnded = true] and leaves the world
    as it is: no request is sent to the model and the conversation gets no
    new entry. *)
Theorem end_call_ends_the_session env w u completion rm others pre tc post a r :
  live w ->
  groq_create env (length (requests w)) (turnRequest (conversationState w) u)
    = Returned completion ->
  choices completion = rm :: others ->
  tool_calls rm = Some (pre ++ tc :: post) ->
  Forall dispatches pre ->
  function_name tc = js "end-call" ->
  arguments tc = Returned a ->
  reason a = Some r ->
  Forall (fun t => function_name t <> js "end-call") post ->
  let w' := snd (handleUserMessage env u w) in
  hasEnded (conversationState w') = true
  /\ endReason (conversationState w') = Some r
  /\ forall userMessages,
       handleAll env userMessages w'
       = (Returned
            (map (fun _ =>
                    {| response :=
                         js "This emergency call has already ended. Reason: "
                         ++ (if truthy_str r then r
                             else js "Emergency services have been dispatched.");
                       reply_hasEnded := true |})
               userMessages),
          w').
Proof.
  intros Hlive Hreq Hch Htc Hpre Hname Hargs Hreason Hpost w'.
  assert (isActive (conversationState w') = true
          /\ hasEnded (conversationState w') = true
          /\ endReason (conversationState w') = Some r) as (Hact & Hend & Hr).
  { subst w'. rewrite (handleUserMessage_model_answers env w u completion rm others)
      by assumption.
    rewrite Htc.
    destruct (pre ++ tc :: post) as [|t0 ts] eqn:E; [destruct pre; discriminate|].
    rewrite <- E.
    pose proof (tools_phase_with_end_call env (afterModel w u rm) pre tc post a r
                  Hpre Hname Hargs Hreason Hpost) as (T1 & T2 & T3 & _).
    auto. }
  split; [assumption|]. split; [assumption|].
  intros userMessages. rewrite handleAll_ended by assumption.
  unfold endedReply. rewrite Hr. reflexivity.
Qed.

(** The scenario of the specification: the model ends the call with the
    reason "help dispatched"; two further messages get the fixed reply. *)
Lemma end_call_ends_the_session_witness :
  let w' := snd (handleUserMessage endingModel (js "There is a fire") initialWorld) in
  hasEnded (conversationState w') = true
  /\ endReason (conversationState w') = Some (js "help dispatched")
  /\ forall userMessages,
       handleAll endingModel userMessages w'
       = (Returned
            (map (fun _ =>
                    {| response :=
                         js "This emergency call has already ended. Reason: "
                         ++ js "help dispatched";
                       reply_hasEnded := true |})
               userMessages),
          w').
Proof.
  refine (end_call_ends_the_session endingModel initialWorld (js "There is a fire")
            _ _ [] [] _ [] _ (js "help dispatched") _ eq_refl eq_refl eq_refl
            _ eq_refl eq_refl eq_refl _).
  - intros H; discriminate H.
  - constructor.
  - constructor.
Defined.

(** C3, as stated, at an answer of the model that holds the end-call with
    its reason behind a tool call whose arguments are no JSON: the turn
    throws at that call, the end-call is not reached and the session has
    not ended; the next call of [handleUserMessage] appends its message
    and asks the model. *)
Lemma end_call_behind_a_failing_call_is_lost :
  let u := js "There is a fire" in
  let w' := snd (handleUserMessage garblingModel u initialWorld) in
  let next := handleUserMessage garblingModel (js "Are you there?") w' in
  (exists rm others,
     groq_create garblingModel 0 (turnRequest (conversationState initialWorld) u)
     = Returned {| choices := rm :: others |}
     /\ {| tc_id := js "call_3"; function_name := js "end-call";
            arguments := Returned {| query := None;
                                     reason := Some (js "help dispatched") |} |}
        ∈ default [] (tool_calls rm))
  /\ hasEnded (conversationState w') = false
  /\ endReason (conversationState w') = None
  /\ length (requests (snd next)) = S (length (requests w'))
  /\ list.last (messages (conversationState w')) <> Some (UserMessage (js "Are you there?"))
  /\ UserMessage (js "Are you there?") ∈ messages (conversationState (snd next)).
Proof.
  cbv zeta. split.
  { eexists _, _. split; [reflexivity|].
    apply (list_elem_of_lookup_2 _ 2%nat). reflexivity. }
  split; [vm_compute; reflexivity|]. split; [vm_compute; reflexivity|].
  split; [vm_compute; reflexivity|]. split; [vm_compute; discriminate|].
  apply (list_elem_of_lookup_2 _ 4%nat). vm_compute. reflexivity.
Qed.

End OperatorProperties.

(** * Properties of the analysis route *)

Module RouteProperties.

Import Route.

Local Open Scope js_scope.

Lemma try_catch_returns {W A} (body : M W A) (handler : JsError -> M W A) w :
  (forall e w1, exists r, fst (handler e w1) = Returned r) ->
  exists r, fst (try_catch body handler w) = Returned r.
Proof.
  intros Hh. unfold try_catch. destruct (body w) as [[a|e] w1].
  - exists a. reflexivity.
  - apply Hh.
Qed.

Lemma truthy_str_false (s : jsstring) : negb (truthy_str s) = true <-> s = [].
Proof. destruct s; cbn; split; congruence. Qed.

Lemma str_eq_true (s t : jsstring) : str_eq s t = true <-> s = t.
Proof. unfold str_eq. apply bool_decide_eq_true. Qed.

Section WithNumbers.

Variable number : Type.
Variable truthy_num : number -> bool.
Variable toFixed4 : number -> jsstring.
Variable numberToString : number -> jsstring.

Abbreviation Env := (Env number).
Abbreviation searchPerson := (searchPerson number truthy_num).
Abbreviation analyzeConversation :=
  (analyzeConversation number truthy_num toFixed4 numberToString).
Abbreviation POST := (POST number truthy_num toFixed4 numberToString).

(** The guards, in the words of the rule. *)
Lemma locationQueryTooVague_spec (query : jsstring) :
  locationQueryTooVague query = true
  <-> query = [] \/ (length (trim query) < 3)%nat
      \/ query = js "I am" \/ query = js "breathe".
Proof.
  unfold locationQueryTooVague.
  rewrite !orb_true_iff, truthy_str_false, Nat.ltb_lt, !str_eq_true. tauto.
Qed.

Lemma nameTooVague_spec (name : jsstring) :
  nameTooVague name = true
  <-> name = [] \/ (length (trim name) < 3)%nat \/ name = js "I am".
Proof.
  unfold nameTooVague.
  rewrite !orb_true_iff, truthy_str_false, Nat.ltb_lt, !str_eq_true. tauto.
Qed.

Lemma searchLocation_skips (env : Env) query w :
  locationQueryTooVague query = true ->
  searchLocation env query w
  = (Returned (locationFailure "skipped" "Location query was too vague or short"), w).
Proof.
  intros H. unfold Route.searchLocation, try_catch. rewrite H. reflexivity.
Qed.

Lemma searchPerson_skips (env : Env) name w :
  nameTooVague name = true ->
  searchPerson env name w
  = (Returned (personFailure name "Name query was too vague or short" "skipped"), w).
Proof.
  intros H. unfold Route.searchPerson, try_catch. rewrite H. reflexivity.
Qed.

(** The world after the first call of a tool that is not skipped. *)
Lemma extractCoordinates_calls (env : Env) text w :
  exists rest, calls (snd (extractCoordinatesWithAI env text w)) = calls w ++ rest.
Proof.
  unfold extractCoordinatesWithAI.
  destruct (negb (truthy_str text)).
  - exists []. unfold ret. cbn [snd]. rewrite app_nil_r. reflexivity.
  - unfold try_catch, bind, call, ret. cbv beta. cbn [calls].
    match goal with
    | |- context [extract_coordinates env ?n ?c] =>
        destruct (extract_coordinates env n c) as [[| |p]|e]
    end; eexists; reflexivity.
Qed.

Lemma searchLocation_searches (env : Env) query w :
  locationQueryTooVague query = false ->
  exists rest,
    calls (snd (searchLocation env query w))
    = calls w
      ++ WebSearch (js "exact coordinates latitude and longitude of " ++ query) true
         :: rest.
Proof.
  intros H. unfold Route.searchLocation. rewrite H.
  unfold try_catch at 1. unfold try_catch at 1. unfold bind at 1. unfold call at 1.
  cbv beta.
  match goal with
  | |- context [web_search env ?n ?c] => destruct (web_search env n c) as [response|e]
  end.
  2: { exists []. reflexivity. }
  destruct (negb (truthy_ostr (response ≫= ai_overview))).
  { exists []. reflexivity. }
  unfold bind at 1.
  match goal with
  | |- context [extractCoordinatesWithAI env ?t ?w1] =>
      destruct (extractCoordinates_calls env t w1) as [rest Hrest];
      destruct (extractCoordinatesWithAI env t w1) as [[[[la|] [lo|]]|e] w2]
  end; unfold ret; cbn [snd calls] in *; exists rest;
    rewrite Hrest, <- app_assoc; reflexivity.
Qed.

Lemma searchPerson_searches (env : Env) name w :
  nameTooVague name = false ->
  exists rest,
    calls (snd (searchPerson env name w))
    = calls w
      ++ WebSearch (name ++ js " person biography information age background") true
         :: rest.
Proof.
  intros H. unfold Route.searchPerson. rewrite H.
  unfold try_catch at 1. unfold try_catch at 1. unfold bind at 1. unfold call at 1.
  cbv beta zeta.
  match goal with
  | |- context [web_search env ?n ?c] => destruct (web_search env n c) as [response|e]
  end.
  2: { exists []. reflexivity. }
  match goal with
  | |- context [if ?c then ret (personFailure _ _ _) else _] => destruct c
  end.
  { exists []. reflexivity. }
  unfold bind, call, ret, throw. cbv beta. cbn [calls].
  match goal with
  | |- context [extract_person env ?n ?c] =>
      destruct (extract_person env n c) as [[| |p]|e]
  end; eexists; cbn [snd calls]; rewrite <- app_assoc; reflexivity.
Qed.

(** Neither tool throws, whatever the services do. *)
Lemma searchLocation_returns (env : Env) query w :
  exists r, fst (searchLocation env query w) = Returned r.
Proof.
  unfold Route.searchLocation. apply try_catch_returns.
  intros e w1. eexists. reflexivity.
Qed.

Lemma searchPerson_returns (env : Env) name w :
  exists r, fst (searchPerson env name w) = Returned r.
Proof.
  unfold Route.searchPerson. apply try_catch_returns.
  intros e w1. eexists. reflexivity.
Qed.

Lemma searchLocation_search_fails (env : Env) query w e :
  locationQueryTooVague query = false ->
  web_search env (length (calls w))
    (js "exact coordinates latitude and longitude of " ++ query) = Thrown e ->
  fst (searchLocation env query w)
  = Returned (locationFailure "error" "Failed to retrieve location data").
Proof.
  intros H Hs. unfold Route.searchLocation. rewrite H.
  unfold try_catch, bind, call. cbv beta. rewrite Hs. reflexivity.
Qed.

Lemma searchPerson_search_fails (env : Env) name w e :
  nameTooVague name = false ->
  web_search env (length (calls w))
    (name ++ js " person biography information age background") = Thrown e ->
  fst (searchPerson env name w)
  = Returned (personFailure name "No information found (API error)" "error").
Proof.
  intros H Hs. unfold Route.searchPerson. rewrite H.
  unfold try_catch, bind, call. cbv beta zeta. rewrite Hs. reflexivity.
Qed.

(** A failure of the extraction model after a successful search. *)
Lemma searchPerson_extraction_fails (env : Env) name w response overview e :
  nameTooVague name = false ->
  web_search env (length (calls w))
    (name ++ js " person biography information age background")
  = Returned (Some response) ->
  ai_overview response = Some overview -> overview <> [] ->
  extract_person env (S (length (calls w))) (personPrompt name overview) = Thrown e ->
  fst (searchPerson env name w)
  = Returned (personFailure name "No information found (API error)" "error").
Proof.
  intros H Hs Hov Hne He. unfold Route.searchPerson. rewrite H.
  unfold try_catch, bind, call. cbv beta zeta. rewrite Hs.
  cbn [mbind option_bind]. rewrite Hov.
  destruct overview as [|c overview]; [congruence|].
  cbn [truthy_ostr truthy_str negb default from_option calls].
  rewrite length_app, Nat.add_1_r. cbn [length]. unfold id. rewrite He. reflexivity.
Qed.

Lemma searchLocation_extraction_fails (env : Env) query w response overview e :
  locationQueryTooVague query = false ->
  web_search env (length (calls w))
    (js "exact coordinates latitude and longitude of " ++ query)
  = Returned (Some response) ->
  ai_overview response = Some overview -> overview <> [] ->
  extract_coordinates env (S (length (calls w))) (coordinatesPrompt overview) = Thrown e ->
  fst (searchLocation env query w)
  = Returned (locationFailure "no_coordinates" "No coordinates found in AI overview").
Proof.
  intros H Hs Hov Hne He. unfold Route.searchLocation. rewrite H.
  unfold try_catch at 1 2. unfold bind at 1. unfold call at 1. cbv beta zeta.
  rewrite Hs. cbn [mbind option_bind]. rewrite Hov.
  destruct overview as [|c overview]; [congruence|].
  cbn [truthy_ostr truthy_str negb default from_option]. unfold id.
  unfold extractCoordinatesWithAI. cbn [truthy_str negb].
  unfold try_catch, bind, call. cbv beta zeta. cbn [calls].
  rewrite length_app, Nat.add_1_r. cbn [length]. rewrite He. reflexivity.
Qed.

(** [analyzeConversation] on fewer than three messages. *)
Lemma analyzeConversation_short (env : Env) messages w :
  (length messages < 3)%nat ->
  analyzeConversation env messages w = (Returned nothingFound, w).
Proof.
  intros H. unfold Route.analyzeConversation, try_catch. cbv zeta.
  rewrite length_map. apply Nat.ltb_lt in H. rewrite H. reflexivity.
Qed.

(** [analyzeConversation] on three messages or more: one request to the
    model, then the extraction on its steps or the catch. *)
Lemma analyzeConversation_long (env : Env) messages w :
  (3 <= length messages)%nat ->
  let chat := map (fun m => {| role := role m; content := content m |}) messages in
  analyzeConversation env messages w
  = (match generateText_steps env (length (calls w)) (analysisRequest chat) with
     | Returned steps =>
         let x := extractFromSteps number truthy_num steps in
         Returned {| location := x_location x;
                     callerProfile := x_callerProfile x;
                     newMessage :=
                       systemNotification number truthy_num toFixed4 numberToString env x |}
     | Thrown _ => Returned nothingFound
     end,
     {| calls := calls w ++ [Analysis (analysisRequest chat)] |}).
Proof.
  intros H chat. unfold Route.analyzeConversation, try_catch, bind, call, ret.
  cbv beta zeta. rewrite length_map. apply Nat.ltb_ge in H. rewrite H.
  fold chat.
  destruct (generateText_steps env (length (calls w)) (analysisRequest chat));
    reflexivity.
Qed.

Lemma analyzeConversation_returns (env : Env) messages w :
  exists r, fst (analyzeConversation env messages w) = Returned r.
Proof.
  unfold Route.analyzeConversation. apply try_catch_returns.
  intros e w1. eexists. reflexivity.
Qed.

(** C6. A location query that is empty, shorter than 3 code units once
    trimmed, or one of the filler phrases "I am" and "breathe", and a
    person name that is empty, shorter than 3 once trimmed, or "I am",
    make the tool return a result with status "skipped" and leave the world
    as it is (no external call); every other query is sent to the web
    search as the first call of the tool. *)
Theorem vague_queries_are_skipped (env : Env) (text : jsstring) (w : World) :
  ((text = [] \/ (length (trim text) < 3)%nat \/ text = js "I am" \/ text = js "breathe") ->
     exists r, searchLocation env text w = (Returned r, w)
               /\ loc_status r = js "skipped")
  /\ ((text = [] \/ (length (trim text) < 3)%nat \/ text = js "I am") ->
     exists r, searchPerson env text w = (Returned r, w)
               /\ status r = js "skipped")
  /\ (~ (text = [] \/ (length (trim text) < 3)%nat \/ text = js "I am" \/ text = js "breathe") ->
     exists rest,
       calls (snd (searchLocation env text w))
       = calls w
         ++ WebSearch (js "exact coordinates latitude and longitude of " ++ text) true
            :: rest)
  /\ (~ (text = [] \/ (length (trim text) < 3)%nat \/ text = js "I am") ->
     exists rest,
       calls (snd (searchPerson env text w))
       = calls w
         ++ WebSearch (text ++ js " person biography information age background") true
            :: rest).
Proof.
  repeat split.
  - intros H. apply locationQueryTooVague_spec in H.
    eexists. split; [apply searchLocation_skips; assumption | reflexivity].
  - intros H. apply nameTooVague_spec in H.
    eexists. split; [apply searchPerson_skips; assumption | reflexivity].
  - intros H. apply searchLocation_searches.
    destruct (locationQueryTooVague text) eqn:E; [|reflexivity].
    exfalso. apply H, locationQueryTooVague_spec, E.
  - intros H. apply searchPerson_searches.
    destruct (nameTooVague text) eqn:E; [|reflexivity].
    exfalso. apply H, nameTooVague_spec, E.
Qed.

(** C9. On a conversation of fewer than 3 messages [analyzeConversation]
    returns the three nulls and leaves the world as it is: no request to
    the model, no tool call; [POST] answers with the same three nulls. *)
Theorem too_few_messages (env : Env) (messages : list ChatEntry) (w : World) :
  (length messages < 3)%nat ->
  analyzeConversation env messages w
  = (Returned {| location := None; callerProfile := None; newMessage := None |}, w)
  /\ POST env (Returned messages) w
     = (Returned {| body_location := None; caller := None; body_newMessage := None |}, w).
Proof.
  intros H. split.
  - apply analyzeConversation_short, H.
  - unfold Route.POST, bind, await. cbv beta.
    rewrite (analyzeConversation_short env messages w H). reflexivity.
Qed.

(** A tool result without the property [name] passes neither test of
    the extraction loop. *)
Lemma considerToolResult_unnamed (acc : Extracted number) (t : ToolResult number) :
  tr_name t = None -> considerToolResult number truthy_num acc t = acc.
Proof. intros H. unfold Route.considerToolResult. rewrite H. reflexivity. Qed.

Lemma extractFromSteps_unnamed (steps : list (Step number)) :
  Forall (fun t => tr_name t = None) (concat (toolResults <$> steps)) ->
  extractFromSteps number truthy_num steps
  = {| x_location := None; x_callerProfile := None; foundInfo := false |}.
Proof.
  unfold Route.extractFromSteps.
  generalize ({| x_location := None; x_callerProfile := None; foundInfo := false |}
              : Extracted number).
  induction steps as [|step steps IH]; intros acc Hall; [reflexivity|].
  cbn [fmap list_fmap concat] in Hall. apply Forall_app in Hall as [H1 H2].
  cbn [foldl].
  assert (E : foldl (considerToolResult number truthy_num) acc (toolResults step) = acc).
  { clear IH H2. revert acc. induction H1 as [|t ts Ht _ IHts]; intros acc;
      [reflexivity|].
    cbn [foldl]. rewrite considerToolResult_unnamed by exact Ht. apply IHts. }
  rewrite E. apply IH, H2.
Qed.

(** C8, on the code. The person tool returns a profile of John Smith with
    a background that is neither empty nor a placeholder; [generateText]
    hands the result over in an entry that carries the name of the tool
    under [toolName]. The extraction loop tests [toolResult.name], which
    such an entry does not have: the profile is not accepted, and the
    analysis returns the three nulls. So it is with every run whose tool
    results have no property [name], whatever they hold. *)
Theorem sdk_profile_is_not_accepted :
  let knownCaller : PersonResult number := knownCaller in
  fst (searchPerson (informedSearch []) (js "John Smith") initialWorld)
  = Returned knownCaller
  /\ background knownCaller <> []
  /\ background knownCaller <> js "No information found"
  /\ background knownCaller <> js "No background found"
  /\ toolResults (personStep knownCaller)
     = [ {| tr_name := None; toolName := Some (js "searchPerson");
            result := Some (PersonValue knownCaller) |} ]
  /\ fst (analyzeConversation (informedSearch [personStep knownCaller])
            sampleConversation initialWorld)
     = Returned {| location := None; callerProfile := None; newMessage := None |}
  /\ forall (env : Env) messages w steps,
       generateText_steps env (length (calls w))
         (analysisRequest (map (fun m => {| role := role m; content := content m |})
                             messages))
       = Returned steps ->
       Forall (fun t => tr_name t = None) (concat (toolResults <$> steps)) ->
       fst (analyzeConversation env messages w)
       = Returned {| location := None; callerProfile := None; newMessage := None |}.
Proof.
  cbv zeta. split; [vm_compute; reflexivity|].
  split; [discriminate|]. split; [discriminate|]. split; [discriminate|].
  split; [reflexivity|]. split; [vm_compute; reflexivity|].
  intros env messages w steps Hsteps Hall.
  destruct (Nat.lt_ge_cases (length messages) 3) as [Hshort|Hlong].
  - rewrite (analyzeConversation_short env messages w Hshort). reflexivity.
  - rewrite (analyzeConversation_long env messages w Hlong). cbv zeta.
    rewrite Hsteps, (extractFromSteps_unnamed steps Hall). reflexivity.
Qed.

End WithNumbers.

(** The guards on two queries: "I am" is skipped without a call, "Main and
    5th" and "John Smith" go to the web search. *)
Lemma vague_queries_are_skipped_witness :
  (exists r, searchLocation (servicesDown (number := Z)) (js "I am") initialWorld
             = (Returned r, initialWorld)
             /\ loc_status r = js "skipped")
  /\ (exists rest,
        calls (snd (searchLocation (servicesDown (number := Z)) (js "Main and 5th")
                      initialWorld))
        = calls initialWorld
          ++ WebSearch (js "exact coordinates latitude and longitude of "
                        ++ js "Main and 5th") true
             :: rest).
Proof.
  split.
  - apply (vague_queries_are_skipped Z truthy_int servicesDown (js "I am") initialWorld).
    right. right. left. reflexivity.
  - apply (vague_queries_are_skipped Z truthy_int servicesDown (js "Main and 5th")
             initialWorld).
    intros [H|[H|[H|H]]].
    + discriminate H.
    + vm_compute in H. lia.
    + discriminate H.
    + discriminate H.
Defined.

(** Two messages: nothing is analysed. *)
Lemma too_few_messages_witness :
  analyzeConversation Z truthy_int intToFixed4 intToString servicesDown
    (take 2 (sampleConversation)) initialWorld
  = (Returned {| location := None; callerProfile := None; newMessage := None |},
     initialWorld)
  /\ POST Z truthy_int intToFixed4 intToString servicesDown
       (Returned (take 2 sampleConversation)) initialWorld
     = (Returned {| body_location := None; caller := None; body_newMessage := None |},
        initialWorld).
Proof.
  apply (too_few_messages Z truthy_int intToFixed4 intToString servicesDown
           (take 2 sampleConversation) initialWorld).
  cbn. lia.
Defined.

End RouteProperties.

(** * Failures and rounds at the dispatch boundary *)

Module DispatchProperties.

Import OperatorProperties RouteProperties.

Local Open Scope js_scope.




Section WithNumbers.

Variable number : Type.
Variable truthy_num : number -> bool.
Variable toFixed4 : number -> jsstring.
Variable numberToString : number -> jsstring.

Abbreviation analyzeConversation :=
  (Route.analyzeConversation number truthy_num toFixed4 numberToString).
Abbreviation searchPerson := (Route.searchPerson number truthy_num).

(** C4, as the code has it. Inside the analysis route every failure is
    caught: the two search tools and [analyzeConversation] never throw; a
    failing web search makes a tool return a result with status "error",
    a failing extraction model the status "no_coordinates" (location) or
    "error" (person), and a failing model call makes [analyzeConversation]
    return the three nulls. [handleUserMessage] has no catch: when its
    model call fails on a session that has not ended, the failure is
    thrown to the caller. *)
Theorem failures_are_caught_in_the_route_only :
  (forall (env : Route.Env number) messages w,
     exists r, fst (analyzeConversation env messages w) = Returned r)
  /\ (forall (env : Route.Env number) messages w e,
        (3 <= length messages)%nat ->
        Route.generateText_steps env (length (Route.calls w))
          (Route.analysisRequest
             (map (fun m => {| Route.role := Route.role m;
                               Route.content := Route.content m |}) messages))
        = Thrown e ->
        fst (analyzeConversation env messages w)
        = Returned {| Route.location := None; Route.callerProfile := None;
                      Route.newMessage := None |})
  /\ (forall (env : Route.Env number) query w,
        exists r, fst (Route.searchLocation env query w) = Returned r)
  /\ (forall (env : Route.Env number) query w e,
        Route.locationQueryTooVague query = false ->
        Route.web_search env (length (Route.calls w))
          (js "exact coordinates latitude and longitude of " ++ query) = Thrown e ->
        exists r, fst (Route.searchLocation env query w) = Returned r
                  /\ Route.loc_status r = js "error")
  /\ (forall (env : Route.Env number) name w,
        exists r, fst (searchPerson env name w) = Returned r)
  /\ (forall (env : Route.Env number) name w e,
        Route.nameTooVague name = false ->
        Route.web_search env (length (Route.calls w))
          (name ++ js " person biography information age background") = Thrown e ->
        exists r, fst (searchPerson env name w) = Returned r
                  /\ Route.status r = js "error")
  /\ (forall (env : Route.Env number) query w response overview e,
        Route.locationQueryTooVague query = false ->
        Route.web_search env (length (Route.calls w))
          (js "exact coordinates latitude and longitude of " ++ query)
        = Returned (Some response) ->
        ai_overview response = Some overview -> overview <> [] ->
        Route.extract_coordinates env (S (length (Route.calls w)))
          (Route.coordinatesPrompt overview) = Thrown e ->
        exists r, fst (Route.searchLocation env query w) = Returned r
                  /\ Route.loc_status r = js "no_coordinates")
  /\ (forall (env : Route.Env number) name w response overview e,
        Route.nameTooVague name = false ->
        Route.web_search env (length (Route.calls w))
          (name ++ js " person biography information age background")
        = Returned (Some response) ->
        ai_overview response = Some overview -> overview <> [] ->
        Route.extract_person env (S (length (Route.calls w)))
          (Route.personPrompt name overview) = Thrown e ->
        exists r, fst (searchPerson env name w) = Returned r
                  /\ Route.status r = js "error")
  /\ (forall env u w e,
        Operator.live w ->
        Operator.groq_create env (length (Operator.requests w))
          (Operator.turnRequest (Operator.conversationState w) u) = Thrown e ->
        fst (Operator.handleUserMessage env u w) = Thrown e).
Proof.
  split; [|split; [|split; [|split; [|split; [|split; [|split; [|split]]]]]]].
  - intros env messages w. apply analyzeConversation_returns.
  - intros env messages w e Hlen Hfail.
    rewrite (analyzeConversation_long number truthy_num toFixed4 numberToString
               env messages w Hlen).
    cbv zeta. rewrite Hfail. reflexivity.
  - intros env query w. apply searchLocation_returns.
  - intros env query w e Hq Hfail. eexists. split.
    + eapply searchLocation_search_fails; eassumption.
    + reflexivity.
  - intros env name w. apply searchPerson_returns.
  - intros env name w e Hq Hfail. eexists. split.
    + eapply searchPerson_search_fails; eassumption.
    + reflexivity.
  - intros env query w response overview e Hq Hs Hov Hne Hfail. eexists. split.
    + eapply searchLocation_extraction_fails; eassumption.
    + reflexivity.
  - intros env name w response overview e Hq Hs Hov Hne Hfail. eexists. split.
    + eapply searchPerson_extraction_fails; eassumption.
    + reflexivity.
  - intros env u w e Hlive Hfail.
    rewrite (handleUserMessage_model_fails env w u Hlive), Hfail. reflexivity.
Qed.

End WithNumbers.

(** C4, as stated, at a model service that is down: the failure of the
    model call leaves [handleUserMessage] as a thrown error. *)
Lemma model_failure_escapes_handleUserMessage :
  fst (Operator.handleUserMessage Operator.failingModel (js "There is a fire")
         Operator.initialWorld)
  = Thrown (ErrorObject (js "APIConnectionError") (js "Connection error.")).
Proof. vm_compute. reflexivity. Qed.

(** With every service down: the route returns its nulls, the location
    tool its error result, and the operator turn throws. *)
Lemma failures_are_caught_in_the_route_only_witness :
  fst (Route.analyzeConversation Z Route.truthy_int Route.intToFixed4 Route.intToString
         Route.servicesDown Route.sampleConversation Route.initialWorld)
  = Returned {| Route.location := None; Route.callerProfile := None;
                Route.newMessage := None |}
  /\ (exists r,
        fst (Route.searchLocation (Route.servicesDown (number := Z))
               (js "Main and 5th") Route.initialWorld) = Returned r
        /\ Route.loc_status r = js "error")
  /\ fst (Operator.handleUserMessage Operator.failingModel (js "There is a fire")
            Operator.initialWorld)
     = Thrown (ErrorObject (js "APIConnectionError") (js "Connection error.")).
Proof.
  pose proof (failures_are_caught_in_the_route_only Z Route.truthy_int
                Route.intToFixed4 Route.intToString)
    as (_ & A & _ & L & _ & _ & _ & _ & O).
  split; [|split].
  - apply (A Route.servicesDown Route.sampleConversation Route.initialWorld
             (ErrorObject (js "Error") (js "fetch failed"))).
    + cbn. lia.
    + reflexivity.
  - apply (L Route.servicesDown (js "Main and 5th") Route.initialWorld
             (ErrorObject (js "Error") (js "fetch failed"))).
    + vm_compute. reflexivity.
    + reflexivity.
  - apply (O Operator.failingModel (js "There is a fire") Operator.initialWorld).
    + intros H; discriminate H.
    + reflexivity.
Defined.

End DispatchProperties.


(** * Properties of the page component *)

Module HomeProperties.

Import Home.

Local Open Scope nat_scope.

(** ** Renders do not touch the hook state *)

Lemma respond_st t s : st (respond t s) = st s.
Proof. reflexivity. Qed.

Lemma asyncChecks_st t s : st (asyncChecks t s) = st s.
Proof. unfold asyncChecks. destruct (list.last (messages t)); reflexivity. Qed.

Lemma rerender_st previous s : st (rerender previous s) = st s.
Proof.
  unfold rerender, turnCheck, enrichmentCheck.
  repeat match goal with
         | |- context [if ?c then _ else _] => destruct c
         end;
    rewrite ?asyncChecks_st, ?respond_st; reflexivity.
Qed.

Lemma respond_sent t s :
  exists new, sent (respond t s) = sent s ++ new
              /\ Forall (fun r => forall q, r <> PlacesSearchText q) new.
Proof.
  eexists [_]. split; [reflexivity|].
  constructor; [intros q; discriminate | constructor].
Qed.

Lemma asyncChecks_sent t s :
  exists new, sent (asyncChecks t s) = sent s ++ new
              /\ Forall (fun r => forall q, r <> PlacesSearchText q) new.
Proof.
  unfold asyncChecks. destruct (list.last (messages t)).
  - eexists [_; _; _]. split; [reflexivity|].
    repeat constructor; intros q; discriminate.
  - exists []. cbn [sent]. rewrite app_nil_r. split; [reflexivity | constructor].
Qed.

(** ** The sentiment merge *)

Lemma alter_withSentiment_frame emotion index (prev : list Message) :
  frame <$> alter (withSentiment emotion) index prev = frame <$> prev.
Proof.
  revert index; induction prev as [|m prev IH]; intros [|index]; cbn.
  - reflexivity.
  - reflexivity.
  - reflexivity.
  - f_equal. apply IH.
Qed.

Lemma mergeSentiment_frame i emotion (prev : list Message) :
  frame <$> mergeSentiment i emotion prev = frame <$> prev.
Proof.
  unfold mergeSentiment.
  destruct (list_find (fun m => id m = i) prev) as [[index m]|].
  - apply alter_withSentiment_frame.
  - reflexivity.
Qed.




(** The statements after the second [Promise.all] either run to the end,
    and then the timeline is the merged one, or throw before the merge. *)
Lemma applyLookups_messages lastMessage emotion points geo human t :
  let r := applyLookups lastMessage emotion points geo human t in
  (fst r = Returned tt
   /\ messages (snd r) = mergeSentiment (id lastMessage) emotion (messages t))
  \/ ((exists e, fst r = Thrown e) /\ messages (snd r) = messages t).
Proof.
  unfold applyLookups, bind, modify, ret, throw.
  destruct ((geo ≫= places) ≫= head) as [geoData|];
    destruct human as [[overview [urls|]]|]; cbn;
    solve [left; split; reflexivity | right; split; [eexists|]; reflexivity].
Qed.


(** The timeline after a promise of [asyncChecks] settles. *)
Lemma checks_resume_messages c v s :
  let s1 := snd (checks_resume c v s) in
  messages (st s1) = messages (st s)
  \/ exists lastMessage emotion,
       c_lastMessage c = Some lastMessage
       /\ messages (st s1) = mergeSentiment (id lastMessage) emotion (messages (st s)).
Proof.
  unfold checks_resume.
  destruct (c_phase c) as [|emotion points g h| |e];
    destruct v as [emotion' points' toolResp|geo human|e'];
    destruct (c_lastMessage c) as [lastMessage|]; try (left; reflexivity).
  pose proof (applyLookups_messages lastMessage emotion points
                (if g then geo else None) (if h then human else None) (st s)) as H.
  cbv zeta in H.
  destruct (applyLookups lastMessage emotion points (if g then geo else None)
              (if h then human else None) (st s)) as [[[]|e] t];
    cbn [fst snd st withState] in *.
  - destruct H as [[_ H]|[[e He] _]]; [|discriminate He].
    right. exists lastMessage, emotion. split; [reflexivity | exact H].
  - destruct H as [[H _]|[_ H]]; [discriminate H|]. left. exact H.
Qed.

Lemma step_checks_messages s k v :
  messages (st (step s (ChecksSettle k v)))
  = match checks s !! k with
    | Some c => messages (st (snd (checks_resume c v s)))
    | None => messages (st s)
    end.
Proof.
  unfold step. destruct (checks s !! k) as [c|]; [|reflexivity].
  destruct (checks_resume c v s) as [p s1]. rewrite rerender_st. reflexivity.
Qed.

Lemma rerender_same s s' :
  isSpeaking (st s') = isSpeaking (st s) ->
  length (messages (st s')) = length (messages (st s)) ->
  rerender (st s) s' = s'.
Proof.
  intros H1 H2. unfold rerender. rewrite H1, H2.
  rewrite !bool_decide_eq_true_2 by reflexivity. reflexivity.
Qed.

Lemma applyLookups_location lastMessage emotion points geoResp place rest human t :
  places geoResp = Some (place :: rest) ->
  locationSearch (snd (applyLookups lastMessage emotion points (Some geoResp) human t))
  = Some {| address := formattedAddress place;
            latitude := ll_latitude (place_location place);
            longitude := ll_longitude (place_location place) |}.
Proof.
  intros Hp. unfold applyLookups, bind, modify, ret, throw. cbn [mbind option_bind].
  rewrite Hp. cbn [mbind option_bind head].
  destruct human as [[overview [urls|]]|]; reflexivity.
Qed.


(** C10, as the code has it. When the decision step marks
    geo-location-search as [should_use] with a query that is neither null
    nor empty, exactly one place lookup is sent, with the text query made
    of the query followed by " San Francisco, USA"; and when the lookups
    then settle with a places response that holds a place, the location
    panel is set from the first place's address and coordinates. *)
Theorem place_lookup_query (s : System) (k : nat) c lastMessage emotion points toolResp q :
  checks s !! k = Some c ->
  c_phase c = AwaitingAnalysis ->
  c_lastMessage c = Some lastMessage ->
  should_use (geo_location_search toolResp) = true ->
  query (geo_location_search toolResp) = Some q ->
  q <> [] ->
  let s1 := step s (ChecksSettle k (AnalysisReady emotion points toolResp)) in
  (exists others,
     sent s1 = sent s ++ PlacesSearchText (q ++ js " San Francisco, USA") :: others
     /\ Forall (fun r => forall q', r <> PlacesSearchText q') others)
  /\ (exists h,
        checks s1 !! k
        = Some {| c_lastMessage := Some lastMessage;
                  c_phase := AwaitingLookups emotion points true h |})
  /\ forall (s2 : System) c2 h geoResp place rest human,
       checks s2 !! k = Some c2 ->
       c_phase c2 = AwaitingLookups emotion points true h ->
       c_lastMessage c2 = Some lastMessage ->
       places geoResp = Some (place :: rest) ->
       locationSearch
         (st (step s2 (ChecksSettle k (LookupsReady (Some geoResp) human))))
       = Some {| address := formattedAddress place;
                 latitude := ll_latitude (place_location place);
                 longitude := ll_longitude (place_location place) |}.
Proof.
  intros Hc Hp Hl Huse Hq Hne s1.
  assert (Hw : wanted (geo_location_search toolResp) = true).
  { unfold wanted. rewrite Huse, Hq. destruct q; [congruence | reflexivity]. }
  assert (E : s1 = setChecks k (AwaitingLookups emotion points true
                                  (wanted (human_web_search toolResp)))
                     (send (lookupRequests toolResp) s)).
  { subst s1. unfold step. rewrite Hc. unfold checks_resume. rewrite Hp, Hl, Hw.
    apply rerender_same; reflexivity. }
  split; [|split].
  - rewrite E. cbn [sent setChecks send]. unfold lookupRequests. rewrite Hw, Hq.
    cbn [default from_option app].
    destruct (wanted (human_web_search toolResp)).
    + eexists [_]. split; [reflexivity|].
      constructor; [intros q'; discriminate | constructor].
    + exists []. split; [reflexivity | constructor].
  - exists (wanted (human_web_search toolResp)). rewrite E. cbn [checks setChecks send].
    rewrite list_lookup_alter_eq, Hc. cbn. rewrite Hl. reflexivity.
  - intros s2 c2 h geoResp place rest human Hc2 Hp2 Hl2 Hplaces.
    unfold step. rewrite Hc2. unfold checks_resume. rewrite Hp2, Hl2.
    pose proof (applyLookups_location lastMessage emotion points geoResp place rest
                  (if h then human else None) (st s2) Hplaces) as H.
    destruct (applyLookups lastMessage emotion points (Some geoResp)
                (if h then human else None) (st s2)) as [[[]|e] t];
      rewrite rerender_st; exact H.
Qed.

(** ** Evaluations of the page on the scenarios *)

(** C1, on the code. With two utterances in quick succession both calls
    of [respond] commit: the timeline ends with two [assistant] entries in
    a row, and the first of them is appended by the call that captured the
    id of the first utterance at a moment when the most recent [user]
    entry is the second utterance. *)
Theorem stale_response_is_committed :
  let final := run startOfCall bothRespond in
  let atCommit :=
    run startOfCall
      (twoUtterances ++ take 3 (settles 0 (js "What is the address of the fire?")
                                  (js "id-A1"))) in
  let committed :=
    step atCommit (RespondSettles 0 (ArrayBufferReady wav (js "id-A1"))) in
  roles (messages (st final)) = [user; user; assistant; assistant]
  /\ consecutiveAssistants (messages (st final)) = true
  /\ lastID <$> attempts atCommit !! 0 = Some (Some (js "id-U1"))
  /\ lastUserId (messages (st atCommit)) = Some (js "id-U2")
  /\ messages (st committed)
     = messages (st atCommit)
       ++ [ {| role := assistant; content := js "What is the address of the fire?";
               id := js "id-A1"; buffer := wav; sentiment := None |} ].
Proof. cbv zeta. repeat split; vm_compute; reflexivity. Qed.

(** The staleness test of a call made by the turn check cannot fire,
    whatever happens to the page afterwards: it compares the bindings of
    the render that made the call with a value read from these same
    bindings. *)
Lemma abandons_of_turn_check (t : State) (s : System) (m : Message) :
  isSpeaking t = false ->
  list.last (messages t) = Some m ->
  id m <> [] ->
  forall a, list.last (attempts (respond t s)) = Some a ->
  forall p, abandons (withPhase a p) = Returned false.
Proof.
  intros Hs Hl Hid a Ha p. unfold respond in Ha. cbn [attempts] in Ha.
  rewrite last_snoc in Ha. injection Ha as <-.
  unfold abandons, withPhase. cbn [a_messages a_isSpeaking lastID].
  rewrite Hl, Hs. cbn [fmap option_fmap option_map mbind option_bind].
  destruct (id m) as [|c i] eqn:E; [congruence|]. cbn [truthy_str].
  rewrite bool_decide_eq_true_2 by reflexivity. reflexivity.
Qed.

(** C2, on the code. After the second utterance the last id of the
    timeline differs from the id the first call of [respond] captured, yet
    that call goes on after each of its suspension points, appends its
    entry and starts playback; and a call made before the caller resumed
    speaking does the same while [isSpeaking] is true. *)
Theorem staleness_checks_read_old_bindings :
  let mid := run startOfCall twoUtterances in
  let text := js "What is the address of the fire?" in
  let afterText := step mid (RespondSettles 0 (TextReady text)) in
  let afterSpeech := step afterText (RespondSettles 0 SpeechReady) in
  let afterBlob := step afterSpeech (RespondSettles 0 BlobReady) in
  let done := step afterBlob (RespondSettles 0 (ArrayBufferReady wav (js "id-A1"))) in
  let spoken := run startOfCall callerResumes in
  id <$> list.last (messages (st mid)) = Some (js "id-U2")
  /\ lastID <$> attempts mid !! 0 = Some (Some (js "id-U1"))
  /\ phase <$> attempts afterText !! 0 = Some (AwaitingSpeech text)
  /\ phase <$> attempts afterSpeech !! 0 = Some (AwaitingBlob text)
  /\ phase <$> attempts done !! 0 = Some Committed
  /\ roles (messages (st done)) = [user; user; assistant]
  /\ paused <$> audioSpeaker done = Some false
  /\ isSpeaking (st (run startOfCall (take 3 callerResumes))) = true
  /\ isSpeaking (st spoken) = true
  /\ roles (messages (st spoken)) = [user; assistant]
  /\ paused <$> audioSpeaker spoken = Some false.
Proof. cbv zeta. repeat split; vm_compute; reflexivity. Qed.

(** C10, as stated, at a decision with an empty query: the decision is
    marked [should_use] and its query is not null, and no request at all
    is sent when it settles. *)
Lemma empty_query_sends_no_place_lookup :
  let s0 := run startOfCall oneUtterance in
  let s1 := step s0 (ChecksSettle 0 (AnalysisReady (js "fear")
                                       [js "A fire is reported"] emptyGeoQuery)) in
  should_use (geo_location_search emptyGeoQuery) = true
  /\ query (geo_location_search emptyGeoQuery) = Some []
  /\ sent s1 = sent s0
  /\ PlacesSearchText (js " San Francisco, USA") ∉ sent s1.
Proof.
  cbv zeta. split; [reflexivity|]. split; [reflexivity|].
  split; [vm_compute; reflexivity|].
  intros Hin. vm_compute in Hin.
  repeat (apply elem_of_cons in Hin as [Hin|Hin]; [discriminate Hin|]).
  inversion Hin.
Qed.

(** The scenario of the specification: a fire at Main and 5th. *)
Lemma place_lookup_query_witness :
  let s0 := run startOfCall oneUtterance in
  let s1 := step s0 (ChecksSettle 0 (AnalysisReady (js "fear")
                                       [js "A fire is reported"] mainAnd5th)) in
  (exists others,
     sent s1 = sent s0 ++ PlacesSearchText (js "Main and 5th" ++ js " San Francisco, USA")
                          :: others
     /\ Forall (fun r => forall q', r <> PlacesSearchText q') others)
  /\ locationSearch
       (st (step s1 (ChecksSettle 0
                       (LookupsReady (Some {| places := Some [firstPlace] |}) None))))
     = Some {| address := js "5th St & Main St, San Francisco, CA 94105, USA";
               latitude := js "37.7837"; longitude := js "-122.41" |}.
Proof.
  intros s0 s1.
  assert (Hc : checks s0 !! 0
               = Some {| c_lastMessage := Some firstUtterance;
                         c_phase := AwaitingAnalysis |})
    by (vm_compute; reflexivity).
  destruct (place_lookup_query s0 0 _ _ (js "fear") [js "A fire is reported"]
              mainAnd5th (js "Main and 5th") Hc eq_refl eq_refl eq_refl eq_refl)
    as (Hsent & (h & Hphase) & Hpanel).
  { discriminate. }
  split; [exact Hsent|].
  apply (Hpanel s1 _ h {| places := Some [firstPlace] |} firstPlace [] None Hphase
           eq_refl eq_refl eq_refl).
Defined.


End HomeProperties.

(** * Further properties of the operator conversation *)

Module OperatorTurns.

Import Operator OperatorProperties.

Local Open Scope js_scope.
Local Open Scope nat_scope.

(** The dispatch of a tool call that completes appends one tool message
    with the id of the call and touches nothing else of the session, the
    flags of an end-call apart. *)
Lemma dispatchToolCall_appends env t w :
  dispatches t ->
  exists content w',
    dispatchToolCall env t w = (Returned tt, w')
    /\ messages (conversationState w')
       = messages (conversationState w) ++ [ToolMessage (tc_id t) content]
    /\ requests w' = requests w
    /\ isActive (conversationState w') = isActive (conversationState w)
    /\ (function_name t <> js "end-call" ->
        hasEnded (conversationState w') = hasEnded (conversationState w)
        /\ endReason (conversationState w') = endReason (conversationState w)).
Proof.
  intros (a & Ha & Hq). unfold dispatchToolCall. rewrite Ha.
  destruct (str_eq (function_name t) (js "search-map")) eqn:E1.
  { apply bool_decide_eq_true in E1. destruct (Hq E1) as [q Hq']. rewrite Hq'.
    unfold bind. destruct (searchMap_completes env q w) as [r Hr].
    destruct (searchMap_frame env (Some q) w) as [F1 F2].
    destruct (searchMap env (Some q) w) as [o w1]. cbn [fst snd] in *. subst o.
    run_monad. eexists _, _. split; [reflexivity|]. world.
    rewrite F1, F2. auto. }
  destruct (str_eq (function_name t) (js "search-person")) eqn:E2.
  { run_monad. eexists _, _. split; [reflexivity|]. world. auto. }
  destruct (str_eq (function_name t) (js "end-call")) eqn:E3.
  { apply bool_decide_eq_true in E3. run_monad. eexists _, _.
    split; [reflexivity|]. world. repeat split; auto; congruence. }
  run_monad. eexists _, _. split; [reflexivity|]. world. auto.
Qed.

Lemma toolMessages_snoc ts t contents content :
  length contents = length ts ->
  toolMessages (ts ++ [t]) (contents ++ [content])
  = toolMessages ts contents ++ [ToolMessage (tc_id t) content].
Proof.
  intros Hlen. unfold toolMessages. rewrite fmap_app.
  rewrite zip_with_app by (rewrite length_fmap; congruence). reflexivity.
Qed.

Lemma toolMessages_cons t ts content contents :
  toolMessages (t :: ts) (content :: contents)
  = ToolMessage (tc_id t) content :: toolMessages ts contents.
Proof. reflexivity. Qed.

(** The loop over tool calls that all complete. *)
Lemma for_of_dispatch_appends env ts w :
  Forall dispatches ts ->
  exists contents w',
    for_of ts (dispatchToolCall env) w = (Returned tt, w')
    /\ length contents = length ts
    /\ messages (conversationState w')
       = messages (conversationState w) ++ toolMessages ts contents
    /\ requests w' = requests w
    /\ isActive (conversationState w') = isActive (conversationState w)
    /\ (Forall (fun t => function_name t <> js "end-call") ts ->
        hasEnded (conversationState w') = hasEnded (conversationState w)
        /\ endReason (conversationState w') = endReason (conversationState w)).
Proof.
  intros Hall; revert w; induction Hall as [|t ts Ht _ IH]; intros w.
  - exists [], w. cbn [for_of]. unfold ret, toolMessages. cbn.
    rewrite app_nil_r. repeat split; auto.
  - destruct (dispatchToolCall_appends env t w Ht)
      as (content & w1 & E1 & M1 & R1 & A1 & H1).
    destruct (IH w1) as (contents & w2 & E2 & L2 & M2 & R2 & A2 & H2).
    exists (content :: contents), w2. cbn [for_of]. unfold bind. rewrite E1, E2.
    split; [reflexivity|]. split; [cbn; congruence|].
    split. { rewrite M2, M1, toolMessages_cons, <- app_assoc. reflexivity. }
    split; [congruence|]. split; [congruence|].
    intros Hno. inversion Hno; subst.
    destruct (H1 ltac:(assumption)) as [H1a H1b].
    destruct (H2 ltac:(assumption)) as [H2a H2b]. split; congruence.
Qed.


Lemma handleToolResponse_requests env w :
  hasEnded (conversationState w) = false ->
  requests (snd (handleToolResponse env w))
  = requests w ++ [followUpRequest (messages (conversationState w))].
Proof.
  intros Hend. unfold handleToolResponse, bind, get, ret. world. rewrite Hend.
  unfold create. world.
  match goal with
  | |- context [groq_create env ?n ?q] => destruct (groq_create env n q) as [c|e]
  end; world; [|reflexivity].
  destruct (choices c) as [|rm others]; reflexivity.
Qed.

Lemma handleToolResponse_when_ended env w :
  hasEnded (conversationState w) = true ->
  handleToolResponse env w
  = (Returned (callEnded (endReason (conversationState w))), w).
Proof.
  intros Hend. unfold handleToolResponse, bind, get, ret. world. rewrite Hend.
  reflexivity.
Qed.

(** X1. In a turn whose model answer holds tool calls that all complete
    and none of which ends the call, the follow-up request carries the
    conversation with one tool message per call, in the order of the calls
    and with their ids, right after the answer that made the calls; the
    turn sends these two requests and no other. *)
Theorem follow_up_carries_every_tool_result env w u completion rm others t ts :
  live w ->
  groq_create env (length (requests w)) (turnRequest (conversationState w) u)
    = Returned completion ->
  choices completion = rm :: others ->
  tool_calls rm = Some (t :: ts) ->
  Forall dispatches (t :: ts) ->
  Forall (fun c => function_name c <> js "end-call") (t :: ts) ->
  exists contents,
    length contents = length (t :: ts)
    /\ requests (snd (handleUserMessage env u w))
       = requests w
         ++ [ turnRequest (conversationState w) u;
              followUpRequest
                (messages (started (conversationState w))
                 ++ [UserMessage u; AssistantMessage rm]
                 ++ toolMessages (t :: ts) contents) ].
Proof.
  intros Hlive Hreq Hch Htc Hall Hno.
  rewrite (handleUserMessage_model_answers env w u completion rm others Hlive Hreq Hch).
  rewrite Htc. unfold bind.
  destruct (for_of_dispatch_appends env (t :: ts) (afterModel w u rm) Hall)
    as (contents & w1 & E & L & Ms & R & _ & F).
  destruct (F Hno) as [Hend _]. rewrite E.
  exists contents. split; [exact L|].
  rewrite handleToolResponse_requests by (rewrite Hend; reflexivity).
  rewrite R, Ms. cbn [afterModel requests conversationState messages].
  rewrite <- !app_assoc. reflexivity.
Qed.

Lemma follow_up_carries_every_tool_result_witness :
  exists contents,
    length contents = 1
    /\ requests (snd (handleUserMessage mappingModel
                        (js "There is a fire at Main and 5th") initialWorld))
       = requests initialWorld
         ++ [ turnRequest (conversationState initialWorld)
                (js "There is a fire at Main and 5th");
              followUpRequest
                (messages (started (conversationState initialWorld))
                 ++ [ UserMessage (js "There is a fire at Main and 5th");
                      AssistantMessage
                        {| rm_content := None;
                           tool_calls :=
                             Some [ {| tc_id := js "call_1";
                                       function_name := js "search-map";
                                       arguments :=
                                         Returned {| query := Some (js "Main and 5th");
                                                     reason := None |} |} ] |} ]
                 ++ toolMessages
                      [ {| tc_id := js "call_1"; function_name := js "search-map";
                           arguments :=
                             Returned {| query := Some (js "Main and 5th");
                                         reason := None |} |} ]
                      contents) ].
Proof.
  refine (follow_up_carries_every_tool_result mappingModel initialWorld
            (js "There is a fire at Main and 5th") _ _ [] _ [] _ eq_refl eq_refl
            eq_refl _ _).
  - intros H; discriminate H.
  - constructor; [|constructor]. eexists. split; [reflexivity|].
    intros _. eexists. reflexivity.
  - constructor; [|constructor]. intros H; discriminate H.
Defined.

(** The flags after the loop over tool calls that hold an end-call. *)
Lemma for_of_end_call_flags env w pre tc post a :
  Forall dispatches pre ->
  function_name tc = js "end-call" ->
  arguments tc = Returned a ->
  Forall (fun t => function_name t <> js "end-call") post ->
  let w' := snd (for_of (pre ++ tc :: post) (dispatchToolCall env) w) in
  hasEnded (conversationState w') = true
  /\ endReason (conversationState w') = reason a.
Proof.
  intros Hpre Hname Hargs Hpost w'. subst w'. rewrite for_of_app. unfold bind.
  pose proof (for_of_dispatch_completes env pre w Hpre) as C1.
  destruct (for_of pre (dispatchToolCall env) w) as [o1 w1].
  cbn [fst] in C1. subst o1. cbn [for_of]. unfold bind.
  pose proof (dispatch_end_call env tc a w1 Hname Hargs) as (C2 & _ & _ & G3 & G4).
  destruct (dispatchToolCall env tc w1) as [o2 w2].
  cbn [fst snd] in *. subst o2.
  pose proof (for_of_dispatch_frame env post w2) as (_ & _ & _ & K4).
  destruct (K4 Hpost) as [K5 K6]. split; congruence.
Qed.

(** X2. The turn in which the model ends the call, all its tool calls
    completing: the reply is the call-ended text with the reason and
    [hasEnded = true], every tool call of the answer has got its tool
    message, also those after the end-call, and the only request of the
    turn is the tool-enabled one: no follow-up is asked of the model. *)
Theorem end_call_turn_replies_without_follow_up
    env w u completion rm others pre tc post a r :
  live w ->
  groq_create env (length (requests w)) (turnRequest (conversationState w) u)
    = Returned completion ->
  choices completion = rm :: others ->
  tool_calls rm = Some (pre ++ tc :: post) ->
  Forall dispatches (pre ++ tc :: post) ->
  function_name tc = js "end-call" ->
  arguments tc = Returned a ->
  reason a = Some r ->
  Forall (fun t => function_name t <> js "end-call") post ->
  let run := handleUserMessage env u w in
  fst run = Returned (callEnded (Some r))
  /\ requests (snd run) = requests w ++ [turnRequest (conversationState w) u]
  /\ exists contents,
       length contents = length (pre ++ tc :: post)
       /\ messages (conversationState (snd run))
          = messages (started (conversationState w))
            ++ [UserMessage u; AssistantMessage rm]
            ++ toolMessages (pre ++ tc :: post) contents.
Proof.
  intros Hlive Hreq Hch Htc Hall Hname Hargs Hreason Hpost run. subst run.
  rewrite (handleUserMessage_model_answers env w u completion rm others Hlive Hreq Hch).
  rewrite Htc.
  destruct (pre ++ tc :: post) as [|t0 ts] eqn:E; [destruct pre; discriminate|].
  rewrite <- E in *. unfold bind.
  assert (Hpre : Forall dispatches pre) by (apply Forall_app in Hall; tauto).
  pose proof (for_of_end_call_flags env (afterModel w u rm) pre tc post a
                Hpre Hname Hargs Hpost) as [Hend Hr].
  cbv zeta in Hend, Hr.
  destruct (for_of_dispatch_appends env (pre ++ tc :: post) (afterModel w u rm) Hall)
    as (contents & w1 & E1 & L & Ms & R & _ & _).
  rewrite E1 in *. cbn [snd] in Hend, Hr.
  rewrite handleToolResponse_when_ended by exact Hend.
  cbn [fst snd]. rewrite Hr, Hreason. split; [reflexivity|].
  split; [rewrite R; reflexivity|].
  exists contents. split; [exact L|]. rewrite Ms.
  cbn [afterModel conversationState messages]. rewrite <- !app_assoc. reflexivity.
Qed.

Lemma end_call_turn_replies_without_follow_up_witness :
  let run := handleUserMessage endingModel (js "There is a fire") initialWorld in
  fst run = Returned (callEnded (Some (js "help dispatched")))
  /\ requests (snd run)
     = requests initialWorld
       ++ [turnRequest (conversationState initialWorld) (js "There is a fire")].
Proof.
  destruct (end_call_turn_replies_without_follow_up endingModel initialWorld
              (js "There is a fire") _ _ [] [] _ [] _ (js "help dispatched")
              ltac:(intros H; discriminate H) eq_refl eq_refl eq_refl
              ltac:(repeat constructor; eexists; split;
                    [reflexivity | intros H; discriminate H])
              eq_refl eq_refl eq_refl ltac:(constructor))
    as (H1 & H2 & _).
  split; assumption.
Defined.




(** ** Sessions only grow *)

Lemma continues_refl w : continues w w.
Proof. unfold continues. repeat split; auto. Qed.

Lemma continues_trans w1 w2 w3 : continues w1 w2 -> continues w2 w3 -> continues w1 w3.
Proof.
  intros (M1 & R1 & X1 & A1 & E1) (M2 & R2 & X2 & A2 & E2). unfold continues.
  split; [etrans; eassumption|]. split; [etrans; eassumption|].
  split; [etrans; eassumption|]. split; [congruence | auto].
Qed.

Ltac grown :=
  unfold continues; world;
  repeat split; auto;
  try (apply prefix_app_r; reflexivity); try reflexivity.

Lemma searchMap_continues env q w : continues w (snd (searchMap env q w)).
Proof.
  unfold searchMap. destruct q as [q|]; [|apply continues_refl].
  destruct (findLocation q) as [k l]. run_monad. grown.
Qed.

Lemma dispatchToolCall_continues env t w :
  continues w (snd (dispatchToolCall env t w)).
Proof.
  unfold dispatchToolCall.
  destruct (arguments t) as [a|e]; [|apply continues_refl].
  destruct (str_eq (function_name t) (js "search-map")).
  { unfold bind. pose proof (searchMap_continues env (query a) w) as C.
    destruct (searchMap env (query a) w) as [[r|e] w1]; cbn [snd] in *;
      [|exact C].
    eapply continues_trans; [exact C|]. run_monad. grown. }
  destruct (str_eq (function_name t) (js "search-person")); [run_monad; grown|].
  destruct (str_eq (function_name t) (js "end-call")); run_monad; grown.
Qed.

Lemma for_of_dispatch_continues env ts w :
  continues w (snd (for_of ts (dispatchToolCall env) w)).
Proof.
  revert w; induction ts as [|t ts IH]; intros w; cbn [for_of].
  - apply continues_refl.
  - unfold bind. pose proof (dispatchToolCall_continues env t w) as C.
    destruct (dispatchToolCall env t w) as [[[]|e] w1]; cbn [snd] in *;
      [|exact C].
    eapply continues_trans; [exact C | apply IH].
Qed.

Lemma handleToolResponse_continues env w :
  continues w (snd (handleToolResponse env w)).
Proof.
  unfold handleToolResponse, bind, get, ret. world.
  destruct (hasEnded (conversationState w)) eqn:Hend; [apply continues_refl|].
  unfold create. world.
  match goal with
  | |- context [groq_create env ?n ?q] => destruct (groq_create env n q) as [c|e]
  end; world; [|grown].
  destruct (choices c) as [|rm others]; [unfold throw; grown|].
  unfold push, setState, modify. grown.
Qed.

(** A turn on a live session continues from the world in which its
    request has been sent. *)
Lemma turn_continues_from_request env u w :
  live w -> continues (afterRequest w u) (snd (handleUserMessage env u w)).
Proof.
  intros Hlive. rewrite (handleUserMessage_model_fails env w u Hlive).
  destruct (groq_create env (length (requests w))
              (turnRequest (conversationState w) u)) as [completion|e] eqn:Hreq;
    [|apply continues_refl].
  destruct (choices completion) as [|rm others] eqn:Hch; [apply continues_refl|].
  rewrite (handleUserMessage_model_answers env w u completion rm others Hlive Hreq Hch).
  assert (C0 : continues (afterRequest w u) (afterModel w u rm))
    by (unfold afterRequest, afterModel; grown).
  destruct (tool_calls rm) as [[|t ts]|]; try exact C0.
  unfold bind.
  pose proof (for_of_dispatch_continues env (t :: ts) (afterModel w u rm)) as C1.
  destruct (for_of (t :: ts) (dispatchToolCall env) (afterModel w u rm))
    as [[[]|e] w1]; cbn [snd] in *.
  - eapply continues_trans; [exact C0|]. eapply continues_trans; [exact C1|].
    apply handleToolResponse_continues.
  - eapply continues_trans; eassumption.
Qed.

Lemma handleUserMessage_continues env u w :
  isActive (conversationState w) = true ->
  continues w (snd (handleUserMessage env u w)).
Proof.
  intros Hact.
  destruct (hasEnded (conversationState w)) eqn:Hend.
  { rewrite handleUserMessage_ended by assumption. apply continues_refl. }
  assert (Hlive : live w) by (intros _; exact Hend).
  eapply continues_trans; [|apply turn_continues_from_request; exact Hlive].
  unfold afterRequest, started. rewrite Hact. unfold continues. world.
  repeat split; auto; try reflexivity.
  - apply prefix_app_r. reflexivity.
  - apply prefix_app_r. reflexivity.
  - congruence.
Qed.

(** X4. Over any number of turns of an active session the conversation,
    the requests sent and the commands run only grow (what was there stays
    where it was), the session stays active, and a call that has ended
    stays ended, whether the turns return or throw. *)
Theorem turns_only_extend_the_session env userMessages w :
  isActive (conversationState w) = true ->
  continues w (snd (handleAll env userMessages w)).
Proof.
  revert w; induction userMessages as [|u us IH]; intros w Hact; cbn [handleAll].
  - apply continues_refl.
  - unfold bind. pose proof (handleUserMessage_continues env u w Hact) as C.
    destruct (handleUserMessage env u w) as [[r|e] w1]; cbn [snd] in *;
      [|exact C].
    assert (Hact1 : isActive (conversationState w1) = true)
      by (destruct C as (_ & _ & _ & A & _); congruence).
    specialize (IH w1 Hact1).
    destruct (handleAll env us w1) as [[rs|e] w2]; cbn [snd] in *;
      eapply continues_trans; eassumption.
Qed.

Lemma turns_only_extend_the_session_witness :
  let w := snd (handleUserMessage mappingModel (js "There is a fire at Main and 5th")
                  initialWorld) in
  continues w (snd (handleAll mappingModel [js "Please hurry"; js "Hello?"] w)).
Proof.
  apply (turns_only_extend_the_session mappingModel [js "Please hurry"; js "Hello?"]).
  vm_compute. reflexivity.
Defined.

(** X5. After [resetConversation] the next turn starts a new session,
    whatever the old one was (also one that had ended): its request to the
    model holds the system prompt and the new user message and nothing
    else, and these two open the conversation the turn leaves. *)
Theorem reset_starts_a_new_session env u w :
  let w0 := snd (resetConversation w) in
  let w' := snd (handleUserMessage env u w0) in
  fst (resetConversation w) = Returned tt
  /\ (exists rest,
        requests w'
        = requests w
          ++ {| req_model := MODEL;
                req_messages := [SystemMessage systemPrompt; UserMessage u];
                req_tools := Some toolNames;
                req_tool_choice := Some (js "auto");
                req_max_completion_tokens := 1024 |} :: rest)
  /\ (exists rest,
        messages (conversationState w')
        = SystemMessage systemPrompt :: UserMessage u :: rest)
  /\ isActive (conversationState w') = true.
Proof.
  intros w0 w'.
  assert (Hlive : live w0) by (intros H; discriminate H).
  pose proof (turn_continues_from_request env u w0 Hlive) as (M & R & _ & A & _).
  fold w' in M, R, A. split; [reflexivity|].
  destruct M as [ms M], R as [rs R]. split; [|split].
  - exists rs. rewrite R. cbn [afterRequest requests]. 
    rewrite <- app_assoc. reflexivity.
  - exists ms. rewrite M. reflexivity.
  - rewrite A. reflexivity.
Qed.

(** X6. A turn whose model call fails leaves the user message in the
    conversation, so a second attempt with the same message sends it
    twice: the request of the retry ends with two copies of the message. *)
Theorem retry_after_failure_repeats_the_message env u w e :
  live w ->
  groq_create env (length (requests w)) (turnRequest (conversationState w) u)
    = Thrown e ->
  let w1 := snd (handleUserMessage env u w) in
  fst (handleUserMessage env u w) = Thrown e
  /\ messages (conversationState w1)
     = messages (started (conversationState w)) ++ [UserMessage u]
  /\ exists rest,
       requests (snd (handleUserMessage env u w1))
       = requests w
         ++ turnRequest (conversationState w) u
            :: {| req_model := MODEL;
                  req_messages :=
                    messages (started (conversationState w))
                    ++ [UserMessage u; UserMessage u];
                  req_tools := Some toolNames;
                  req_tool_choice := Some (js "auto");
                  req_max_completion_tokens := 1024 |} :: rest.
Proof.
  intros Hlive Hfail w1.
  assert (E : handleUserMessage env u w = (Thrown e, afterRequest w u))
    by (rewrite (handleUserMessage_model_fails env w u Hlive), Hfail; reflexivity).
  subst w1. rewrite E. cbn [fst snd].
  split; [reflexivity|]. split; [reflexivity|].
  assert (Hlive1 : live (afterRequest w u)) by (intros _; reflexivity).
  pose proof (turn_continues_from_request env u (afterRequest w u) Hlive1)
    as (_ & [rs R] & _).
  exists rs. rewrite R. cbn [afterRequest requests conversationState].
  rewrite <- !app_assoc. cbn [app]. do 2 f_equal.
  unfold turnRequest. f_equal. unfold started at 1.
  cbn [isActive messages conversationState]. rewrite <- app_assoc. reflexivity.
Qed.

Lemma retry_after_failure_repeats_the_message_witness :
  let w1 := snd (handleUserMessage failingModel (js "There is a fire") initialWorld) in
  exists rest,
    requests (snd (handleUserMessage failingModel (js "There is a fire") w1))
    = requests initialWorld
      ++ turnRequest (conversationState initialWorld) (js "There is a fire")
         :: {| req_model := MODEL;
               req_messages :=
                 messages (started (conversationState initialWorld))
                 ++ [UserMessage (js "There is a fire");
                     UserMessage (js "There is a fire")];
               req_tools := Some toolNames;
               req_tool_choice := Some (js "auto");
               req_max_completion_tokens := 1024 |} :: rest.
Proof.
  apply (retry_after_failure_repeats_the_message failingModel
           (js "There is a fire") initialWorld
           (ErrorObject (js "APIConnectionError") (js "Connection error."))).
  - intros H; discriminate H.
  - reflexivity.
Defined.

End OperatorTurns.

(** * The model rounds of a turn *)

Module ModelRounds.

Import Operator OperatorProperties.

Local Open Scope js_scope.
Local Open Scope nat_scope.


Section WithNumbers.

Variable number : Type.
Variable truthy_num : number -> bool.
Variable toFixed4 : number -> jsstring.
Variable numberToString : number -> jsstring.


End WithNumbers.



End ModelRounds.

(** * Further properties of the analysis route *)

Module RouteResults.

Import Route RouteProperties.

Local Open Scope js_scope.
Local Open Scope nat_scope.

Section WithNumbers.

Variable number : Type.
Variable truthy_num : number -> bool.
Variable toFixed4 : number -> jsstring.
Variable numberToString : number -> jsstring.

Abbreviation Env := (Env number).
Abbreviation searchPerson := (searchPerson number truthy_num).
Abbreviation analyzeConversation :=
  (analyzeConversation number truthy_num toFixed4 numberToString).
Abbreviation POST := (POST number truthy_num toFixed4 numberToString).
Abbreviation extractFromSteps := (extractFromSteps number truthy_num).
Abbreviation considerToolResult := (considerToolResult number truthy_num).
Abbreviation systemNotification :=
  (systemNotification number truthy_num toFixed4 numberToString).
Abbreviation reported := (reported number truthy_num).

(** The extraction returns a pair and sends at most one request. *)
Lemma extractCoordinatesWithAI_returns (env : Env) (text : jsstring) (w : World) :
  exists la lo w' new,
    extractCoordinatesWithAI env text w = (Returned (la, lo), w')
    /\ calls w' = calls w ++ new /\ length new <= 1.
Proof.
  unfold extractCoordinatesWithAI. destruct (negb (truthy_str text)).
  { unfold ret. exists None, None, w, []. rewrite app_nil_r.
    split; [reflexivity|]. split; [reflexivity | cbn; lia]. }
  unfold try_catch, bind, call, ret. cbv beta zeta.
  match goal with
  | |- context [extract_coordinates env ?n ?p] =>
      destruct (extract_coordinates env n p) as [[| |parsed]|e]
  end; eexists _, _, _, [_]; (split; [reflexivity|]);
    (split; [reflexivity | cbn; lia]).
Qed.

(** X7. [extractCoordinatesWithAI] never throws, whatever the model does:
    it sends at most one request, and none for an empty text, for which
    both coordinates are null. *)
Theorem extractCoordinatesWithAI_is_safe (env : Env) (text : jsstring) (w : World) :
  exists la lo w',
    extractCoordinatesWithAI env text w = (Returned (la, lo), w')
    /\ (calls w' = calls w
        \/ calls w'
           = calls w
             ++ [ExtractText
                   (js "Extract geographic coordinates from text. Return valid JSON only.")
                   (coordinatesPrompt text) (js "0.1")])
    /\ (text = [] -> calls w' = calls w /\ la = None /\ lo = None).
Proof.
  unfold extractCoordinatesWithAI. destruct text as [|c text].
  { cbn [truthy_str negb]. unfold ret. eexists _, _, _.
    split; [reflexivity|]. split; [left; reflexivity|]. auto. }
  cbn [truthy_str negb]. unfold try_catch, bind, call, ret. cbv beta zeta.
  match goal with
  | |- context [extract_coordinates env ?n ?p] =>
      destruct (extract_coordinates env n p) as [[| |parsed]|e]
  end; eexists _, _, _; (split; [reflexivity|]);
    (split; [right; reflexivity | intros H; discriminate H]).
Qed.

Lemma failure_is_not_success st :
  st <> "success"%string -> js st <> js "success".
Proof.
  intros Hne E. apply Hne. clear Hne. revert E.
  generalize "success"%string. induction st as [|a st IH]; intros [|b t] E;
    try discriminate E; [reflexivity|].
  cbn in E. injection E as E1 E2. f_equal.
  - rewrite <- (ascii_N_embedding a), <- (ascii_N_embedding b), E1. reflexivity.
  - apply IH, E2.
Qed.

(** X8. The location tool always returns. Its result has status
    "success" exactly when it carries both coordinates, and then its address
    is the query; every other result has both coordinates null, no
    address, and a message. A run sends at most two requests. *)
Theorem searchLocation_succeeds_only_with_coordinates
    (env : Env) (query : jsstring) (w : World) :
  exists r w',
    searchLocation env query w = (Returned r, w')
    /\ ((loc_status r = js "success"
         /\ is_Some (latitude r) /\ is_Some (longitude r)
         /\ address r = Some query)
        \/ (loc_status r <> js "success"
            /\ latitude r = None /\ longitude r = None
            /\ address r = None /\ is_Some (loc_message r)))
    /\ exists new, calls w' = calls w ++ new /\ length new <= 2.
Proof.
  assert (failure : forall st msg w',
            st <> "success"%string ->
            (exists new, calls w' = calls w ++ new /\ length new <= 2) ->
            exists r w'0,
              (Returned (locationFailure (number := number) st msg), w') = (Returned r, w'0)
              /\ ((loc_status r = js "success"
                   /\ is_Some (latitude r) /\ is_Some (longitude r)
                   /\ address r = Some query)
                  \/ (loc_status r <> js "success"
                      /\ latitude r = None /\ longitude r = None
                      /\ address r = None /\ is_Some (loc_message r)))
              /\ exists new, calls w'0 = calls w ++ new /\ length new <= 2).
  { intros st msg w' Hst Hnew. eexists _, _. split; [reflexivity|].
    split; [|exact Hnew]. right. cbn.
    split; [apply failure_is_not_success, Hst|]. repeat split; eauto. }
  unfold Route.searchLocation. unfold try_catch at 1.
  destruct (locationQueryTooVague query).
  { apply failure; [discriminate|]. exists []. rewrite app_nil_r. split; [reflexivity | cbn; lia]. }
  unfold try_catch at 1. unfold bind at 1. unfold call at 1. cbv beta zeta.
  match goal with
  | |- context [web_search env ?n ?q] => destruct (web_search env n q) as [response|e]
  end.
  2: { apply failure; [discriminate|]. eexists [_]. split; [reflexivity | cbn; lia]. }
  destruct (negb (truthy_ostr (response ≫= ai_overview))).
  { apply failure; [discriminate|]. eexists [_]. split; [reflexivity | cbn; lia]. }
  unfold bind at 1.
  match goal with
  | |- context [extractCoordinatesWithAI env ?t ?w1] =>
      destruct (extractCoordinatesWithAI_returns env t w1)
        as (la & lo & w2 & sent & E & Hc & Hone)
  end.
  rewrite E.
  assert (Hnew : exists new, calls w2 = calls w ++ new /\ length new <= 2).
  { rewrite Hc. cbn [calls]. rewrite <- app_assoc. eexists (_ :: sent).
    split; [reflexivity | cbn; lia]. }
  destruct la as [la|], lo as [lo|];
    try (apply failure; [discriminate | exact Hnew]).
  eexists _, _. split; [reflexivity|]. split; [|exact Hnew].
  left. cbn. repeat split; eauto.
Qed.

(** X9. The person tool always returns a result for the name it was asked
    about, with a background that is never empty; the age it reports is
    never a falsy number (zero is reported as null), and only a result with
    status "success" has an age or a source. A run sends at most two
    requests. *)
Theorem searchPerson_result_is_filled (env : Env) (name : jsstring) (w : World) :
  exists r w',
    searchPerson env name w = (Returned r, w')
    /\ Route.name r = name
    /\ background r <> []
    /\ (forall a, age r = Some a -> truthy_num a = true /\ status r = js "success")
    /\ (status r <> js "success" -> per_source r = None)
    /\ exists new, calls w' = calls w ++ new /\ length new <= 2.
Proof.
  assert (failure : forall bg st w',
            bg <> ""%string -> st <> "success"%string ->
            (exists new, calls w' = calls w ++ new /\ length new <= 2) ->
            exists r w'0,
              (Returned (personFailure (number := number) name bg st), w') = (Returned r, w'0)
              /\ Route.name r = name
              /\ background r <> []
              /\ (forall a, age r = Some a -> truthy_num a = true /\ status r = js "success")
              /\ (status r <> js "success" -> per_source r = None)
              /\ exists new, calls w'0 = calls w ++ new /\ length new <= 2).
  { intros bg st w' Hbg Hst Hnew. eexists _, _. split; [reflexivity|]. cbn.
    split; [reflexivity|]. split; [destruct bg; [congruence | discriminate]|].
    split; [intros a H; discriminate H|]. split; [reflexivity | exact Hnew]. }
  unfold Route.searchPerson. unfold try_catch at 1.
  destruct (nameTooVague name).
  { apply failure; [discriminate..|]. exists []. rewrite app_nil_r.
    split; [reflexivity | cbn; lia]. }
  unfold try_catch at 1. unfold bind at 1. unfold call at 1. cbv beta zeta.
  match goal with
  | |- context [web_search env ?n ?q] => destruct (web_search env n q) as [response|e]
  end.
  2: { apply failure; [discriminate..|]. eexists [_]. split; [reflexivity | cbn; lia]. }
  destruct (response ≫= ai_overview) as [[|c overview]|] eqn:Hov;
    cbn [truthy_ostr truthy_str negb].
  1, 3: apply failure; [discriminate..|]; eexists [_];
        (split; [reflexivity | cbn; lia]).
  unfold bind, call, ret, throw. cbv beta. cbn [calls default from_option]. unfold id.
  assert (Hsub : substring0 200 (c :: overview) <> []) by (cbn; discriminate).
  assert (two : forall c1 c2 : Call,
            exists new, (calls w ++ [c1]) ++ [c2] = calls w ++ new /\ length new <= 2).
  { intros c1 c2. rewrite <- app_assoc. eexists [_; _].
    split; [reflexivity | cbn; lia]. }
  match goal with
  | |- context [extract_person env ?n ?p] =>
      destruct (extract_person env n p) as [[| |parsed]|e]
  end; try (apply failure; [discriminate..|]; apply two).
  - eexists _, _. split; [reflexivity|]. cbn.
    split; [reflexivity|]. split; [exact Hsub|].
    split; [intros a H; discriminate H|]. split; [intros H; congruence | apply two].
  - eexists _, _. split; [reflexivity|]. cbn [Route.name background age status per_source calls].
    split; [reflexivity|]. split.
    { destruct (pf_background parsed) as [[|b bg]|]; cbn; try exact Hsub. discriminate. }
    split.
    { intros a Ha. destruct (truthy_onum number truthy_num (pf_age parsed)) eqn:T;
        [|discriminate Ha].
      rewrite Ha in T. cbn in T. auto. }
    split; [intros H; congruence | apply two].
Qed.

(** ** What the analysis reports *)

(** The tool results of a run, in the order the loops visit them. *)
Lemma extractFromSteps_flat steps :
  extractFromSteps steps
  = foldl considerToolResult
      {| x_location := None; x_callerProfile := None; foundInfo := false |}
      (concat (toolResults <$> steps)).
Proof.
  unfold Route.extractFromSteps.
  generalize ({| x_location := None; x_callerProfile := None; foundInfo := false |}
              : Extracted number).
  induction steps as [|step steps IH]; intros acc; cbn.
  - reflexivity.
  - rewrite foldl_app. apply IH.
Qed.

Lemma reported_mono results tr x :
  reported results x -> reported (results ++ [tr]) x.
Proof.
  intros (L & P & F). split; [|split; [|exact F]].
  - intros l Hl. destruct (L l Hl) as (A & B & t & Ht & C).
    repeat split; auto. exists t. split; [apply elem_of_app; auto | exact C].
  - intros p Hp. destruct (P p Hp) as (A & B & t & Ht & C).
    repeat split; auto. exists t. split; [apply elem_of_app; auto | exact C].
Qed.

Lemma considerToolResult_reported results tr x :
  reported results x -> reported (results ++ [tr]) (considerToolResult x tr).
Proof.
  intros Hx. pose proof (reported_mono results tr x Hx) as Hm.
  unfold Route.considerToolResult.
  destruct tr as [[nm|] tool [[l|p]|]]; cbn [tr_name result is_string andb];
    try exact Hm;
    destruct (str_eq nm (js "searchLocation")) eqn:E1;
    destruct (str_eq nm (js "searchPerson")) eqn:E2;
    cbn [andb]; rewrite ?bool_decide_eq_true_2 by eauto;
    rewrite ?bool_decide_eq_false_2 by (intros [? ?]; discriminate);
    cbn [andb]; try exact Hm.
  all: apply bool_decide_eq_true in E1 || apply bool_decide_eq_true in E2; subst nm.
  - destruct (truthy_onum number truthy_num (latitude l)) eqn:Tla;
      destruct (truthy_onum number truthy_num (longitude l)) eqn:Tlo;
      cbn [andb]; try exact Hm.
    destruct Hm as (L & P & F). split; [|split].
    + intros l' Hl'. cbn in Hl'. injection Hl' as <-.
      repeat split; auto.
      exists {| tr_name := Some (js "searchLocation"); toolName := tool;
                result := Some (LocationValue l) |}.
      split; [|split; reflexivity].
      apply elem_of_app. right. apply list_elem_of_singleton. reflexivity.
    + exact P.
    + cbn. split; [left; discriminate | reflexivity].
  - destruct (truthy_onum number truthy_num (latitude l)) eqn:Tla;
      destruct (truthy_onum number truthy_num (longitude l)) eqn:Tlo;
      cbn [andb]; try exact Hm.
    destruct Hm as (L & P & F). split; [|split].
    + intros l' Hl'. cbn in Hl'. injection Hl' as <-.
      repeat split; auto.
      exists {| tr_name := Some (js "searchLocation"); toolName := tool;
                result := Some (LocationValue l) |}.
      split; [|split; reflexivity].
      apply elem_of_app. right. apply list_elem_of_singleton. reflexivity.
    + exact P.
    + cbn. split; [left; discriminate | reflexivity].
  - destruct (truthy_str (background p)) eqn:Tb; cbn [andb]; try exact Hm.
    destruct (str_eq (background p) (js "No background found")) eqn:Tn;
      cbn [negb]; try exact Hm.
    destruct Hm as (L & P & F). split; [|split].
    + exact L.
    + intros p' Hp'. cbn in Hp'. injection Hp' as <-.
      split; [destruct (background p); [discriminate Tb | discriminate]|].
      split; [intros E; apply bool_decide_eq_false in Tn; auto|].
      exists {| tr_name := Some (js "searchPerson"); toolName := tool;
                result := Some (PersonValue p) |}.
      split; [|split; reflexivity].
      apply elem_of_app. right. apply list_elem_of_singleton. reflexivity.
    + cbn. split; [right; discriminate | reflexivity].
Qed.

Lemma foldl_reported results (acc : Extracted number) :
  forall before, reported before acc ->
  reported (before ++ results) (foldl considerToolResult acc results).
Proof.
  revert acc. induction results as [|tr results IH]; intros acc before H; cbn.
  - rewrite app_nil_r. exact H.
  - replace (before ++ tr :: results) with ((before ++ [tr]) ++ results)
      by (rewrite <- app_assoc; reflexivity).
    apply IH, considerToolResult_reported, H.
Qed.

Lemma extractFromSteps_reported steps :
  reported (concat (toolResults <$> steps)) (extractFromSteps steps).
Proof.
  rewrite extractFromSteps_flat.
  apply (foldl_reported _ _ []).
  split; [|split].
  - intros l H; discriminate H.
  - intros p H; discriminate H.
  - cbn. split; [discriminate | intros [H|H]; congruence].
Qed.

(** X10. [analyzeConversation] always returns, and it invents nothing:
    a location it reports is the result of a searchLocation entry of the
    steps and has two truthy coordinates (a latitude or longitude of zero
    counts as missing), and a caller profile it reports is the result of a
    searchPerson entry with a background that is neither empty nor "No
    background found". *)
Theorem analysis_reports_only_tool_results (env : Env) messages w :
  exists r w',
    analyzeConversation env messages w = (Returned r, w')
    /\ (forall l, location r = Some l ->
          truthy_onum number truthy_num (latitude l) = true
          /\ truthy_onum number truthy_num (longitude l) = true
          /\ exists steps,
               generateText_steps env (length (calls w))
                 (analysisRequest
                    (map (fun m => {| role := role m; content := content m |}) messages))
               = Returned steps
               /\ exists t, t ∈ concat (toolResults <$> steps)
                            /\ tr_name t = Some (js "searchLocation")
                            /\ result t = Some (LocationValue l))
    /\ (forall p, callerProfile r = Some p ->
          background p <> [] /\ background p <> js "No background found"
          /\ exists steps,
               generateText_steps env (length (calls w))
                 (analysisRequest
                    (map (fun m => {| role := role m; content := content m |}) messages))
               = Returned steps
               /\ exists t, t ∈ concat (toolResults <$> steps)
                            /\ tr_name t = Some (js "searchPerson")
                            /\ result t = Some (PersonValue p)).
Proof.
  destruct (Nat.lt_ge_cases (length messages) 3) as [Hshort|Hlong].
  { rewrite (analyzeConversation_short number truthy_num toFixed4 numberToString
               env messages w Hshort).
    eexists _, _. split; [reflexivity|].
    split; intros x H; discriminate H. }
  rewrite (analyzeConversation_long number truthy_num toFixed4 numberToString
             env messages w Hlong).
  cbv zeta.
  destruct (generateText_steps env (length (calls w)) _) as [steps|e] eqn:Hsteps.
  2: { eexists _, _. split; [reflexivity|]. split; intros x H; discriminate H. }
  eexists _, _. split; [reflexivity|]. cbn [location callerProfile].
  destruct (extractFromSteps_reported steps) as (L & P & _).
  split.
  - intros l Hl. destruct (L l Hl) as (A & B & C). eauto 6.
  - intros p Hp. destruct (P p Hp) as (A & B & C). eauto 6.
Qed.

Lemma join_nonempty sep (p : jsstring) parts : p <> [] -> join sep (p :: parts) <> [].
Proof.
  intros Hp. destruct parts; cbn; [exact Hp|].
  destruct p; [congruence | discriminate].
Qed.

(** The notification of an extraction. *)
Lemma systemNotification_spec (env : Env) results x :
  reported results x ->
  (systemNotification env x = None
   <-> x_location x = None
       /\ forall p, x_callerProfile x = Some p -> Route.name p = [])
  /\ forall n, systemNotification env x = Some n ->
       n_role n = js "assistant" /\ isSystemNotification n = true
       /\ n_buffer n = [] /\ n_id n = randomUUID env
       /\ exists text, text <> [] /\ n_content n = js "[System] " ++ text.
Proof.
  intros (L & P & F). unfold Route.systemNotification.
  destruct (foundInfo x) eqn:Hf.
  2: { assert (x_location x = None /\ x_callerProfile x = None) as [Hl Hp].
       { destruct (x_location x), (x_callerProfile x); auto;
           exfalso; assert (false = true) by (apply F; auto; left + right; discriminate);
           discriminate. }
       split; [|intros n H; discriminate H].
       split; [|reflexivity]. intros _. split; [exact Hl|].
       intros p H. congruence. }
  assert (Hloc : forall l, x_location x = Some l ->
                   exists part, locationPart number truthy_num toFixed4 l = [part]
                                /\ part <> []).
  { intros l Hl. destruct (L l Hl) as (A & B & _). unfold locationPart.
    destruct (latitude l) as [la|]; [|discriminate A].
    destruct (longitude l) as [lo|]; [|discriminate B].
    cbn in A, B. rewrite A, B. cbn [andb]. eexists. split; [reflexivity|].
    discriminate. }
  assert (Hcall : forall p, x_callerProfile x = Some p ->
                    (Route.name p = []
                     /\ callerParts number truthy_num numberToString p = [])
                    \/ (Route.name p <> []
                        /\ exists part rest,
                             callerParts number truthy_num numberToString p = part :: rest
                             /\ part <> [])).
  { intros p Hp. unfold callerParts. destruct (Route.name p) as [|c nm].
    - left. split; reflexivity.
    - right. split; [discriminate|]. cbn [truthy_str]. eexists _, _.
      split; [reflexivity | discriminate]. }
  destruct (x_location x) as [l|] eqn:El.
  - destruct (Hloc l eq_refl) as (part & Hpart & Hne).
    cbn [from_option]. rewrite Hpart. cbn [app].
    split.
    + split; [intros H; discriminate H | intros [H _]; discriminate H].
    + intros n Hn. injection Hn as <-.
      cbn [n_role isSystemNotification n_buffer n_id n_content].
      repeat split.
      exists (join (js ". ")
                (part :: from_option (callerParts number truthy_num numberToString) []
                           (x_callerProfile x))).
      split; [apply join_nonempty, Hne | reflexivity].
  - cbn [from_option app].
    destruct (x_callerProfile x) as [p|] eqn:Ep.
    + cbn [from_option].
      destruct (Hcall p eq_refl) as [[Hn Hparts]|(Hn & part & rest & Hparts & Hne)];
        rewrite Hparts.
      * split; [|intros n H; discriminate H].
        split; [|reflexivity]. intros _. split; [reflexivity|].
        intros p' Hp'. congruence.
      * split.
        -- split; [intros H; discriminate H|].
           intros [_ H]. exfalso. apply Hn, H. reflexivity.
        -- intros n H. injection H as <-.
           cbn [n_role isSystemNotification n_buffer n_id n_content].
           repeat split. exists (join (js ". ") (part :: rest)).
           split; [apply join_nonempty, Hne | reflexivity].
    + exfalso. assert (None <> None \/ None <> None) as [H|H]
        by (apply F; reflexivity); congruence.
Qed.

(** X11. The system notification of the analysis: it is missing exactly
    when no location is reported and the caller profile, if there is one,
    has an empty name; when present it is an assistant message flagged as
    system notification, with an empty buffer, the fresh id, and a content
    that starts with "[System] " and goes on. *)
Theorem notification_follows_the_findings (env : Env) messages w :
  exists r w',
    analyzeConversation env messages w = (Returned r, w')
    /\ (newMessage r = None
        <-> location r = None
            /\ forall p, callerProfile r = Some p -> Route.name p = [])
    /\ forall n, newMessage r = Some n ->
         n_role n = js "assistant" /\ isSystemNotification n = true
         /\ n_buffer n = [] /\ n_id n = randomUUID env
         /\ exists text, text <> [] /\ n_content n = js "[System] " ++ text.
Proof.
  assert (nothing : forall w' : World,
            exists r w'0,
              (Returned (nothingFound (number := number)), w') = (Returned r, w'0)
              /\ (newMessage r = None
                  <-> location r = None
                      /\ forall p, callerProfile r = Some p -> Route.name p = [])
              /\ forall n, newMessage r = Some n ->
                   n_role n = js "assistant" /\ isSystemNotification n = true
                   /\ n_buffer n = [] /\ n_id n = randomUUID env
                   /\ exists text, text <> [] /\ n_content n = js "[System] " ++ text).
  { intros w'. eexists _, _. split; [reflexivity|]. cbn. split.
    - split; [|reflexivity]. intros _. split; [reflexivity|]. intros p H; discriminate H.
    - intros n H; discriminate H. }
  destruct (Nat.lt_ge_cases (length messages) 3) as [Hshort|Hlong].
  { rewrite (analyzeConversation_short number truthy_num toFixed4 numberToString
               env messages w Hshort). apply nothing. }
  rewrite (analyzeConversation_long number truthy_num toFixed4 numberToString
             env messages w Hlong).
  cbv zeta.
  destruct (generateText_steps env (length (calls w)) _) as [steps|e];
    [|apply nothing].
  eexists _, _. split; [reflexivity|]. cbn [location callerProfile newMessage].
  apply (systemNotification_spec env _ _ (extractFromSteps_reported steps)).
Qed.

(** X12. [POST] fails only on the request body: when reading the body
    throws, [POST] throws the same error without a call; otherwise it
    returns what [analyzeConversation] found, the caller profile under the
    name [caller], and sends what [analyzeConversation] sends. *)
Theorem POST_fails_only_on_the_body (env : Env) (w : World) :
  (forall e, POST env (Thrown e) w = (Thrown e, w))
  /\ forall messages,
       exists r w',
         analyzeConversation env messages w = (Returned r, w')
         /\ POST env (Returned messages) w
            = (Returned {| body_location := location r; caller := callerProfile r;
                           body_newMessage := newMessage r |}, w').
Proof.
  split; [reflexivity|]. intros messages.
  destruct (analyzeConversation_returns number truthy_num toFixed4 numberToString
              env messages w) as [r Hr].
  unfold Route.POST, bind, await, ret. cbv beta.
  destruct (analyzeConversation env messages w) as [o w']. cbn [fst] in Hr. subst o.
  eexists _, _. split; reflexivity.
Qed.

End WithNumbers.

(** A real run: the person tool found John Smith, the entry of the run has
    no property [name], and no notification is made. *)
Lemma notification_follows_the_findings_witness :
  let env := informedSearch (number := Z) [personStep knownCaller] in
  exists r w',
    analyzeConversation Z truthy_int intToFixed4 intToString env sampleConversation
      initialWorld = (Returned r, w')
    /\ newMessage r = None.
Proof.
  intros env.
  destruct (notification_follows_the_findings Z truthy_int intToFixed4 intToString
              env sampleConversation initialWorld) as (r & w' & E & I & _).
  exists r, w'. split; [exact E|]. apply I.
  assert (location r = None /\ callerProfile r = None) as [Hl Hp].
  { vm_compute in E. injection E as <- _. split; reflexivity. }
  split; [exact Hl|]. intros p H. congruence.
Defined.

End RouteResults.

(** * Further properties of the page *)

Module HomeTimeline.

Import Home HomeProperties.

Local Open Scope nat_scope.

#[local] Existing Instance Role_eq_dec.

(** ** What a render adds *)

(** The two effects of a render, by the conditions under which they
    call [respond] and [asyncChecks]. *)
Lemma rerender_cases previous s :
  let t := st s in
  let responds :=
    negb (bool_decide (isSpeaking previous = isSpeaking t))
    && negb (isSpeaking t) && lastIsUser (messages t) in
  let analyses :=
    negb (bool_decide (length (messages previous) = length (messages t)))
    && lastIsUser (messages t) in
  rerender previous s
  = (if analyses then asyncChecks t else fun s1 => s1)
      ((if responds then respond t else fun s1 => s1) s).
Proof.
  unfold rerender, turnCheck, enrichmentCheck. cbv zeta.
  destruct (bool_decide (isSpeaking previous = isSpeaking (st s)));
    destruct (bool_decide (length (messages previous) = length (messages (st s))));
    destruct (isSpeaking (st s)); destruct (lastIsUser (messages (st s)));
    reflexivity.
Qed.

Lemma asyncChecks_attempts t s : attempts (asyncChecks t s) = attempts s.
Proof. unfold asyncChecks. destruct (list.last (messages t)); reflexivity. Qed.

Lemma asyncChecks_audioSpeaker t s : audioSpeaker (asyncChecks t s) = audioSpeaker s.
Proof. unfold asyncChecks. destruct (list.last (messages t)); reflexivity. Qed.

Lemma rerender_audioSpeaker previous s :
  audioSpeaker (rerender previous s) = audioSpeaker s.
Proof.
  rewrite rerender_cases. cbv zeta.
  repeat match goal with
         | |- context [if ?c then _ else _] => destruct c
         end;
    rewrite ?asyncChecks_audioSpeaker; reflexivity.
Qed.

(** A render starts a call of [respond] exactly when [isSpeaking] went
    from true to false and the last entry is the caller's. *)
Lemma rerender_attempts previous s :
  (attempts (rerender previous s) = attempts s
   /\ (isSpeaking previous = isSpeaking (st s)
       \/ isSpeaking (st s) = true
       \/ lastIsUser (messages (st s)) = false))
  \/ (isSpeaking previous = true /\ isSpeaking (st s) = false
      /\ lastIsUser (messages (st s)) = true
      /\ attempts (rerender previous s) = attempts (respond (st s) s)).
Proof.
  rewrite rerender_cases. cbv zeta.
  destruct (bool_decide (isSpeaking previous = isSpeaking (st s))) eqn:E1;
    [apply bool_decide_eq_true_1 in E1 | apply bool_decide_eq_false_1 in E1];
    destruct (isSpeaking (st s)) eqn:E2; destruct (lastIsUser (messages (st s))) eqn:E3;
    cbn [negb andb];
    repeat match goal with
           | |- context [if ?c then _ else _] => destruct c
           end;
    rewrite ?asyncChecks_attempts;
    try (left; split; [reflexivity | auto]; fail).
  all: right; destruct (isSpeaking previous); [auto | congruence].
Qed.

(** A render starts a call of [asyncChecks] exactly when the number of
    entries changed and the last entry is the caller's. *)
Lemma rerender_checks previous s :
  (checks (rerender previous s) = checks s
   /\ (length (messages previous) = length (messages (st s))
       \/ lastIsUser (messages (st s)) = false))
  \/ (length (messages previous) <> length (messages (st s))
      /\ exists lastMessage,
           list.last (messages (st s)) = Some lastMessage
           /\ role lastMessage = user
           /\ checks (rerender previous s)
              = checks s ++ [ {| c_lastMessage := Some lastMessage;
                                 c_phase := AwaitingAnalysis |} ]).
Proof.
  rewrite rerender_cases. cbv zeta.
  destruct (bool_decide (length (messages previous) = length (messages (st s)))) eqn:E1;
    [apply bool_decide_eq_true_1 in E1 | apply bool_decide_eq_false_1 in E1];
    destruct (lastIsUser (messages (st s))) eqn:E3; cbn [negb andb];
    try (left; split; [|auto];
         repeat match goal with
                | |- context [if ?c then _ else _] => destruct c
                end; reflexivity).
  right. split; [exact E1|]. unfold lastIsUser in E3.
  destruct (list.last (messages (st s))) as [m|] eqn:El; [|discriminate].
  exists m. split; [reflexivity|]. split; [exact (bool_decide_eq_true_1 _ E3)|].
  unfold asyncChecks. rewrite El. cbn [checks].
  repeat match goal with
         | |- context [if ?c then _ else _] => destruct c
         end; reflexivity.
Qed.

(** ** What a settled promise of [respond] does *)

Lemma respond_resume_cases a v s :
  (snd (respond_resume a v s) = s
   /\ (fst (respond_resume a v s) = Committed -> phase a = Committed))
  \/ (exists text,
        phase a = AwaitingText /\ v = TextReady text
        /\ respond_resume a v s
           = (AwaitingSpeech text, send [TextToSpeech text (js "en-AU-female-5")] s))
  \/ (exists text arrayBuffer uuid speaker,
        phase a = AwaitingArrayBuffer text /\ v = ArrayBufferReady arrayBuffer uuid
        /\ audioSpeaker s = Some speaker
        /\ abandons a = Returned false
        /\ respond_resume a v s
           = (Committed,
              withState
                (setMessages (fun prev =>
                   prev ++ [ {| role := assistant; content := text; id := uuid;
                                buffer := arrayBuffer; sentiment := None |} ]))
                (withSpeaker
                   (fun _ => {| paused := false; src := Some arrayBuffer;
                                playbackRate := js "1.3" |})
                   s))).
Proof.
  unfold respond_resume, checked.
  destruct (phase a) eqn:Hp; destruct v; destruct (abandons a) as [[|]|];
    try destruct (audioSpeaker s) eqn:Hs;
    first [ left; split; [reflexivity | cbn [fst]; congruence]
          | right; left; eexists; repeat split; reflexivity
          | right; right; eexists _, _, _, _; repeat split; reflexivity ].
Qed.

Lemma respond_resume_frame a v s :
  let s1 := snd (respond_resume a v s) in
  attempts s1 = attempts s /\ checks s1 = checks s /\ clock s1 = clock s
  /\ isSpeaking (st s1) = isSpeaking (st s) /\ onCall (st s1) = onCall (st s)
  /\ locationSearch (st s1) = locationSearch (st s)
  /\ humanResearch (st s1) = humanResearch (st s)
  /\ lastSentiment (st s1) = lastSentiment (st s)
  /\ summary (st s1) = summary (st s).
Proof.
  destruct (respond_resume_cases a v s)
    as [[-> _]|[(text & _ & _ & ->)|(text & b & u & sp & _ & _ & _ & _ & ->)]];
    repeat split; reflexivity.
Qed.

(** ** What a settled promise of [asyncChecks] does *)

Lemma applyLookups_frame lastMessage emotion points geo human t :
  let t1 := snd (applyLookups lastMessage emotion points geo human t) in
  isSpeaking t1 = isSpeaking t /\ onCall t1 = onCall t.
Proof.
  unfold applyLookups, bind, modify, ret, throw.
  destruct ((geo ≫= places) ≫= head) as [geoData|];
    destruct human as [[overview [urls|]]|]; cbn; split; reflexivity.
Qed.

Lemma mergeSentiment_length i emotion (prev : list Message) :
  length (mergeSentiment i emotion prev) = length prev.
Proof.
  rewrite <- (length_fmap frame), mergeSentiment_frame. apply length_fmap.
Qed.

Lemma checks_resume_frame c v s :
  let s1 := snd (checks_resume c v s) in
  attempts s1 = attempts s /\ checks s1 = checks s /\ clock s1 = clock s
  /\ audioSpeaker s1 = audioSpeaker s
  /\ isSpeaking (st s1) = isSpeaking (st s) /\ onCall (st s1) = onCall (st s)
  /\ length (messages (st s1)) = length (messages (st s)).
Proof.
  cbv zeta.
  assert (Hlen : length (messages (st (snd (checks_resume c v s))))
                 = length (messages (st s))).
  { destruct (checks_resume_messages c v s) as [->|(m & e & _ & ->)];
      [reflexivity | apply mergeSentiment_length]. }
  repeat split; try exact Hlen; clear Hlen; unfold checks_resume;
    destruct (c_phase c) as [|emotion points g h| |e];
    destruct v as [emotion' points' toolResp|geo human|e'];
    destruct (c_lastMessage c) as [lastMessage|]; try reflexivity;
    pose proof (applyLookups_frame lastMessage emotion points
                  (if g then geo else None) (if h then human else None) (st s)) as H;
    cbv zeta in H;
    destruct (applyLookups lastMessage emotion points (if g then geo else None)
                (if h then human else None) (st s)) as [[[]|e] t];
    cbn [fst snd st withState] in *; try reflexivity; apply H.
Qed.

Lemma lastIsUser_snoc ms m : lastIsUser (ms ++ [m]) = bool_decide (role m = user).
Proof. unfold lastIsUser. rewrite last_snoc. reflexivity. Qed.

(** ** How the timeline changes *)

(** One event either keeps every entry's role, content, id and buffer, or
    appends the caller's utterance, or appends a response and plays it. *)
Lemma step_timeline s e :
  let s' := step s e in
  frame <$> messages (st s') = frame <$> messages (st s)
  \/ (exists transcript uuid wavBuffer,
        e = Transcribed transcript uuid wavBuffer
        /\ messages (st s')
           = messages (st s)
             ++ [ {| role := user; content := transcript; id := uuid;
                     buffer := wavBuffer; sentiment := None |} ])
  \/ (exists k a text arrayBuffer uuid speaker,
        e = RespondSettles k (ArrayBufferReady arrayBuffer uuid)
        /\ attempts s !! k = Some a /\ phase a = AwaitingArrayBuffer text
        /\ abandons a = Returned false
        /\ audioSpeaker s = Some speaker
        /\ messages (st s')
           = messages (st s)
             ++ [ {| role := assistant; content := text; id := uuid;
                     buffer := arrayBuffer; sentiment := None |} ]
        /\ audioSpeaker s'
           = Some {| paused := false; src := Some arrayBuffer;
                     playbackRate := js "1.3" |}).
Proof.
  cbv zeta. destruct e as [| | |transcript uuid wavBuffer| |now|k v|k v].
  - left. unfold step. rewrite rerender_st. reflexivity.
  - left. unfold step. rewrite rerender_st. reflexivity.
  - left. unfold step. rewrite rerender_st. reflexivity.
  - right. left. exists transcript, uuid, wavBuffer. split; [reflexivity|].
    unfold step. rewrite rerender_st. reflexivity.
  - left. reflexivity.
  - left. reflexivity.
  - unfold step. destruct (attempts s !! k) as [a|] eqn:Ha; [|left; reflexivity].
    destruct (respond_resume_cases a v s)
      as [[E _]|[(text & _ & _ & E)|(text & b & u & sp & Hp & -> & Hs & Hab & E)]].
    + destruct (respond_resume a v s) as [p s1]. cbn [snd] in E. subst s1.
      left. rewrite rerender_st. reflexivity.
    + rewrite E. left. rewrite rerender_st. reflexivity.
    + rewrite E. right. right. exists k, a, text, b, u, sp.
      rewrite rerender_st, rerender_audioSpeaker.
      cbn [st setAttempt withState withSpeaker audioSpeaker setMessages messages].
      rewrite Hs. repeat split; auto.
  - left. rewrite step_checks_messages.
    destruct (checks s !! k) as [c|]; [|reflexivity].
    destruct (checks_resume_messages c v s) as [->|(m & e & _ & ->)];
      [reflexivity | apply mergeSentiment_frame].
Qed.

(** X15. The timeline only grows: whatever happens to the page, the
    entries it had keep their role, content, id and buffer and their
    order, and one event adds at most one entry. *)
Theorem timeline_only_grows (s : System) (events : list Event) :
  (frame <$> messages (st s)) `prefix_of` (frame <$> messages (st (run s events)))
  /\ length (messages (st (run s events))) <= length (messages (st s)) + length events.
Proof.
  revert s. induction events as [|e events IH]; intros s.
  - split; [reflexivity | cbn; lia].
  - change (run s (e :: events)) with (run (step s e) events).
    destruct (IH (step s e)) as [IH1 IH2].
    assert (H1 : (frame <$> messages (st s)) `prefix_of` (frame <$> messages (st (step s e)))
                 /\ length (messages (st (step s e))) <= S (length (messages (st s)))).
    { destruct (step_timeline s e)
        as [E|[(t & u & b & _ & E)|(k & a & t & b & u & sp & _ & _ & _ & _ & _ & E & _)]].
      - rewrite E. split; [reflexivity|].
        rewrite <- (length_fmap frame), E, length_fmap. lia.
      - rewrite E, fmap_app, length_app. split; [apply prefix_app_r; reflexivity|].
        cbn. lia.
      - rewrite E, fmap_app, length_app. split; [apply prefix_app_r; reflexivity|].
        cbn. lia. }
    destruct H1 as [H1 H2]. split; [etrans; eassumption|]. cbn [length]. lia.
Qed.

(** X16. An entry is added to the timeline in two ways only: an utterance
    is transcribed, and the entry is the caller's with the transcript; or
    the last promise of a call of [respond] settles while an audio
    element exists, and the entry is the operator's with the generated
    text, whose audio starts to play at rate 1.3. *)
Theorem entries_are_utterances_and_responses (s : System) (e : Event) :
  length (messages (st (step s e))) <> length (messages (st s)) ->
  let s' := step s e in
  (exists transcript uuid wavBuffer,
     e = Transcribed transcript uuid wavBuffer
     /\ messages (st s')
        = messages (st s)
          ++ [ {| role := user; content := transcript; id := uuid;
                  buffer := wavBuffer; sentiment := None |} ])
  \/ (exists k a text arrayBuffer uuid,
        e = RespondSettles k (ArrayBufferReady arrayBuffer uuid)
        /\ attempts s !! k = Some a /\ phase a = AwaitingArrayBuffer text
        /\ is_Some (audioSpeaker s)
        /\ messages (st s')
           = messages (st s)
             ++ [ {| role := assistant; content := text; id := uuid;
                     buffer := arrayBuffer; sentiment := None |} ]
        /\ audioSpeaker s'
           = Some {| paused := false; src := Some arrayBuffer;
                     playbackRate := js "1.3" |}).
Proof.
  intros Hlen. cbv zeta.
  destruct (step_timeline s e)
    as [E|[H|(k & a & t & b & u & sp & He & Ha & Hp & _ & Hs & E & Hplay)]].
  - exfalso. apply Hlen. rewrite <- (length_fmap frame), E. apply length_fmap.
  - left. exact H.
  - right. exists k, a, t, b, u. rewrite Hs. eauto 10.
Qed.

(** ** When the effects run *)

Lemma rerender_quiet previous s :
  isSpeaking previous = isSpeaking (st s) \/ isSpeaking (st s) = true
  \/ lastIsUser (messages (st s)) = false ->
  length (messages previous) = length (messages (st s))
  \/ lastIsUser (messages (st s)) = false ->
  rerender previous s = s.
Proof.
  intros H1 H2. rewrite rerender_cases. cbv zeta.
  destruct H2 as [->| ->].
  - rewrite bool_decide_eq_true_2 by reflexivity. cbn [negb andb].
    destruct H1 as [->|[->| ->]].
    + rewrite bool_decide_eq_true_2 by reflexivity. reflexivity.
    + rewrite andb_false_r. reflexivity.
    + rewrite andb_false_r. reflexivity.
  - rewrite !andb_false_r. reflexivity.
Qed.

(** The call of [respond] a render makes, with its request. *)
Lemma rerender_responds previous s :
  isSpeaking previous = true -> isSpeaking (st s) = false ->
  lastIsUser (messages (st s)) = true ->
  attempts (rerender previous s) = attempts (respond (st s) s)
  /\ exists later,
       sent (rerender previous s)
       = sent s ++ GenerateText (systemPrompt (clock s)) (chatOf (messages (st s)))
                   :: later.
Proof.
  intros H1 H2 H3. rewrite rerender_cases. cbv zeta. rewrite H1, H2, H3.
  rewrite (bool_decide_eq_false_2 (true = false)) by discriminate. cbn [negb andb].
  destruct (negb (bool_decide (length (messages previous) = length (messages (st s)))));
    cbn [andb]; cbv beta iota.
  - rewrite asyncChecks_attempts. split; [reflexivity|].
    destruct (asyncChecks_sent (st s) (respond (st s) s)) as (new & -> & _).
    exists new. cbn [sent respond]. rewrite <- app_assoc. reflexivity.
  - split; [reflexivity|]. exists []. reflexivity.
Qed.

(** The step of a transcribed utterance: the entry is added, [respond]
    is called when the page was in the speaking state, and [asyncChecks]
    is called. *)
Lemma step_transcribed s transcript uuid wavBuffer :
  let s0 :=
    withState
      (fun t =>
         setIsSpeaking false
           (setMessages (fun prev =>
              prev ++ [ {| role := user; content := transcript; id := uuid;
                           buffer := wavBuffer; sentiment := None |} ]) t))
      s in
  step s (Transcribed transcript uuid wavBuffer)
  = asyncChecks (st s0) (if isSpeaking (st s) then respond (st s0) s0 else s0).
Proof.
  cbv zeta. unfold step. rewrite rerender_cases. cbv zeta.
  cbn [st withState setIsSpeaking setMessages messages isSpeaking].
  rewrite lastIsUser_snoc.
  rewrite (bool_decide_eq_true_2 (user = user)) by reflexivity.
  rewrite (bool_decide_eq_false_2 (length _ = length (_ ++ _)))
    by (rewrite length_app; cbn; lia).
  cbn [negb andb]. rewrite !andb_true_r.
  destruct (isSpeaking (st s)).
  - rewrite (bool_decide_eq_false_2 (true = false)) by discriminate. reflexivity.
  - rewrite (bool_decide_eq_true_2 (false = false)) by reflexivity. reflexivity.
Qed.

(** X17. When the caller starts to speak, playback is paused and the page
    is in the speaking state; nothing is added to the timeline, no
    request is sent and no call of [respond] or [asyncChecks] is made. *)
Theorem speech_start_pauses_playback (s : System) :
  let s' := step s SpeechStart in
  isSpeaking (st s') = true
  /\ paused <$> audioSpeaker s' = (fun _ => true) <$> audioSpeaker s
  /\ src <$> audioSpeaker s' = src <$> audioSpeaker s
  /\ messages (st s') = messages (st s)
  /\ sent s' = sent s /\ attempts s' = attempts s /\ checks s' = checks s.
Proof.
  cbv zeta. unfold step. rewrite rerender_quiet.
  - cbn [st withState withSpeaker setIsSpeaking isSpeaking messages audioSpeaker
         sent attempts checks].
    destruct (audioSpeaker s); repeat split; reflexivity.
  - right. left. reflexivity.
  - left. reflexivity.
Qed.

(** One event either keeps the number of calls of [respond], or is the
    end of the speaking state with the caller's entry last, and one call
    is made over that timeline. *)
Lemma step_attempts s e :
  let s' := step s e in
  (attempts s' = attempts s
   \/ exists k p, attempts s' = alter (fun a => withPhase a p) k (attempts s))
  \/ ((e = PressEndCall
       \/ exists transcript uuid wavBuffer, e = Transcribed transcript uuid wavBuffer)
      /\ isSpeaking (st s) = true /\ isSpeaking (st s') = false
      /\ lastIsUser (messages (st s')) = true
      /\ (exists a,
            attempts s' = attempts s ++ [a]
            /\ a_messages a = messages (st s') /\ a_isSpeaking a = false
            /\ lastID a = (id <$> list.last (messages (st s'))) ≫=
                          (fun i => if truthy_str i then Some i else None)
            /\ phase a = AwaitingText)
      /\ exists later,
           sent s' = sent s ++ GenerateText (systemPrompt (clock s))
                                 (chatOf (messages (st s'))) :: later).
Proof.
  cbv zeta.
  assert (render : forall s0,
            attempts s0 = attempts s -> sent s0 = sent s -> clock s0 = clock s ->
            (e = PressEndCall
             \/ exists transcript uuid wavBuffer, e = Transcribed transcript uuid wavBuffer)
            \/ isSpeaking (st s0) = isSpeaking (st s) \/ isSpeaking (st s0) = true ->
            let s' := rerender (st s) s0 in
            (attempts s' = attempts s
             \/ exists k p, attempts s' = alter (fun a => withPhase a p) k (attempts s))
            \/ ((e = PressEndCall
                 \/ exists transcript uuid wavBuffer,
                      e = Transcribed transcript uuid wavBuffer)
                /\ isSpeaking (st s) = true /\ isSpeaking (st s') = false
                /\ lastIsUser (messages (st s')) = true
                /\ (exists a,
                      attempts s' = attempts s ++ [a]
                      /\ a_messages a = messages (st s') /\ a_isSpeaking a = false
                      /\ lastID a = (id <$> list.last (messages (st s'))) ≫=
                                    (fun i => if truthy_str i then Some i else None)
                      /\ phase a = AwaitingText)
                /\ exists later,
                     sent s' = sent s ++ GenerateText (systemPrompt (clock s))
                                           (chatOf (messages (st s'))) :: later)).
  { intros s0 Ha Hsent Hclock He. cbv zeta.
    destruct (rerender_attempts (st s) s0) as [[E _]|(H1 & H2 & H3 & E)].
    - left. left. rewrite E, Ha. reflexivity.
    - destruct He as [He|[He|He]]; [|left; left; congruence|left; left; congruence].
      right. rewrite rerender_st.
      destruct (rerender_responds (st s) s0 H1 H2 H3) as (_ & later & Hlater).
      split; [exact He|]. split; [exact H1|]. split; [exact H2|].
      split; [exact H3|]. split.
      + eexists. rewrite E. unfold respond at 1. cbn [attempts]. rewrite Ha.
        split; [reflexivity|]. cbn [a_messages a_isSpeaking lastID phase].
        rewrite H2. repeat split; reflexivity.
      + exists later. rewrite Hlater, Hsent, Hclock. reflexivity. }
  destruct e as [| | |transcript uuid wavBuffer| |now|k v|k v]; unfold step.
  - apply render; try reflexivity. right. left. reflexivity.
  - apply render; try reflexivity. left. left. reflexivity.
  - apply render; try reflexivity. right. right. reflexivity.
  - apply render; try reflexivity. left. right. eauto.
  - left. left. reflexivity.
  - left. left. reflexivity.
  - destruct (attempts s !! k) as [a|]; [|left; left; reflexivity].
    pose proof (respond_resume_frame a v s) as F. cbv zeta in F.
    destruct (respond_resume a v s) as [p s1]. cbn [snd] in F.
    destruct F as (Fa & _ & Fc & Fs & _).
    destruct (rerender_attempts (st s) (setAttempt k p s1)) as [[E _]|(H1 & H2 & _)].
    + left. right. exists k, p. rewrite E. cbn [attempts setAttempt]. rewrite Fa.
      reflexivity.
    + cbn [st setAttempt] in H2. congruence.
  - destruct (checks s !! k) as [c|]; [|left; left; reflexivity].
    pose proof (checks_resume_frame c v s) as F. cbv zeta in F.
    destruct (checks_resume c v s) as [p s1]. cbn [snd] in F.
    destruct F as (Fa & _ & _ & _ & Fs & _).
    destruct (rerender_attempts (st s) (setChecks k p s1)) as [[E _]|(H1 & H2 & _)].
    + left. left. rewrite E. cbn [attempts setChecks]. rewrite Fa. reflexivity.
    + cbn [st setChecks] in H2. congruence.
Qed.

(** X18. A call of [respond] is made only when the speaking state ends,
    that is when an utterance is transcribed or the call is ended with
    the button while the page is in the speaking state, and the last
    entry is the caller's. The call works on the timeline of that moment, and
    its first request carries that timeline and the system prompt. *)
Theorem respond_starts_when_speech_ends (s : System) (e : Event) :
  length (attempts (step s e)) <> length (attempts s) ->
  let s' := step s e in
  (e = PressEndCall
   \/ exists transcript uuid wavBuffer, e = Transcribed transcript uuid wavBuffer)
  /\ isSpeaking (st s) = true /\ isSpeaking (st s') = false
  /\ lastIsUser (messages (st s')) = true
  /\ (exists a,
        attempts s' = attempts s ++ [a]
        /\ a_messages a = messages (st s') /\ a_isSpeaking a = false
        /\ lastID a = (id <$> list.last (messages (st s'))) ≫=
                      (fun i => if truthy_str i then Some i else None)
        /\ phase a = AwaitingText)
  /\ exists later,
       sent s' = sent s ++ GenerateText (systemPrompt (clock s))
                             (chatOf (messages (st s'))) :: later.
Proof.
  intros Hlen. destruct (step_attempts s e) as [[E|(k & p & E)]|H]; [| |exact H].
  - exfalso. apply Hlen. rewrite E. reflexivity.
  - exfalso. apply Hlen. rewrite E. apply length_alter.
Qed.

(** Outside the speaking state the page stays there until the caller is
    heard to start speaking. *)
Lemma step_stays_silent s e :
  e <> SpeechStart -> isSpeaking (st s) = false -> isSpeaking (st (step s e)) = false.
Proof.
  intros He Hs. destruct e as [| | |transcript uuid wavBuffer| |now|k v|k v];
    unfold step; try rewrite rerender_st; try reflexivity; try exact Hs.
  - contradiction.
  - destruct (attempts s !! k) as [a|]; [|exact Hs].
    pose proof (respond_resume_frame a v s) as F. cbv zeta in F.
    destruct (respond_resume a v s) as [p s1]. cbn [snd] in F.
    rewrite rerender_st. cbn [st setAttempt].
    destruct F as (_ & _ & _ & -> & _). exact Hs.
  - destruct (checks s !! k) as [c|]; [|exact Hs].
    pose proof (checks_resume_frame c v s) as F. cbv zeta in F.
    destruct (checks_resume c v s) as [p s1]. cbn [snd] in F.
    rewrite rerender_st. cbn [st setChecks].
    destruct F as (_ & _ & _ & _ & -> & _). exact Hs.
Qed.

(** No call of [respond] is made as long as the page is outside the
    speaking state. *)
Lemma run_stays_silent events s :
  isSpeaking (st s) = false ->
  Forall (fun e => e <> SpeechStart) events ->
  isSpeaking (st (run s events)) = false
  /\ length (attempts (run s events)) = length (attempts s).
Proof.
  intros Hs Hev. revert s Hs.
  induction Hev as [|e events He _ IH]; intros s Hs; [auto|].
  change (run s (e :: events)) with (run (step s e) events).
  destruct (IH (step s e) (step_stays_silent s e He Hs)) as [IH1 IH2].
  split; [exact IH1|]. rewrite IH2.
  destruct (step_attempts s e) as [[->|(k & p & ->)]|(_ & Hspeaking & _)].
  - reflexivity.
  - apply length_alter.
  - congruence.
Qed.

(** X19. An utterance that is transcribed while the page is not in the
    speaking state is added to the timeline and analysed, but the render
    that follows makes no call of [respond] and requests no text from the
    model; and no call of [respond] is made by any later event either, as
    long as the caller is not heard to start speaking again. *)
Theorem utterance_outside_speech_gets_no_response
    (s : System) (transcript uuid : jsstring) (wavBuffer : ArrayBuffer)
    (events : list Event) :
  isSpeaking (st s) = false ->
  Forall (fun e => e <> SpeechStart) events ->
  let s' := step s (Transcribed transcript uuid wavBuffer) in
  attempts s' = attempts s
  /\ lastIsUser (messages (st s')) = true
  /\ (exists new,
        sent s' = sent s ++ new
        /\ Forall (fun r => forall system chat, r <> GenerateText system chat) new)
  /\ length (attempts (run s' events)) = length (attempts s)
  /\ isSpeaking (st (run s' events)) = false.
Proof.
  intros Hs Hev. cbv zeta.
  assert (Hs' : isSpeaking (st (step s (Transcribed transcript uuid wavBuffer))) = false)
    by (apply step_stays_silent; [discriminate | exact Hs]).
  destruct (run_stays_silent events _ Hs' Hev) as [R1 R2].
  rewrite R2. rewrite step_transcribed in *. cbv zeta in *. rewrite Hs in *.
  rewrite asyncChecks_attempts, asyncChecks_st in *.
  split; [reflexivity|]. split; [|split; [|split; [reflexivity | exact R1]]].
  - cbn [st withState setIsSpeaking setMessages messages].
    rewrite lastIsUser_snoc. apply bool_decide_eq_true_2. reflexivity.
  - unfold asyncChecks.
    cbn [st withState setIsSpeaking setMessages messages]. rewrite last_snoc.
    eexists [_; _; _]. split; [reflexivity|].
    repeat constructor; intros system chat; discriminate.
Qed.

(** X20. Every transcribed utterance is analysed: one call of
    [asyncChecks] is made for its entry, and the sentiment of the
    utterance, the summary of the whole timeline and the decision on the
    lookups are requested, after the request of [respond] when there is
    one. *)
Theorem every_utterance_is_analysed
    (s : System) (transcript uuid : jsstring) (wavBuffer : ArrayBuffer) :
  let entry := {| role := user; content := transcript; id := uuid;
                  buffer := wavBuffer; sentiment := None |} in
  let s' := step s (Transcribed transcript uuid wavBuffer) in
  checks s' = checks s ++ [ {| c_lastMessage := Some entry; c_phase := AwaitingAnalysis |} ]
  /\ exists before,
       sent s'
       = sent s ++ before
         ++ [ SentimentRequest transcript;
              SummaryRequest (join [10%N] (map content (messages (st s) ++ [entry])))
                (js "points");
              GenerateObject
                (js "Decide the relevant services to use based on the content of the conversation. Return the params of the tool in a JSON format, if the tool is not suppose to be used, return null. Message content: "
                 ++ transcript) ]
       /\ (before = [] \/ exists system chat, before = [GenerateText system chat]).
Proof.
  cbv zeta. rewrite step_transcribed. cbv zeta. unfold asyncChecks.
  cbn [st withState setIsSpeaking setMessages messages]. rewrite last_snoc.
  cbn [checks sent content].
  destruct (isSpeaking (st s)).
  - split; [reflexivity|]. eexists [_]. unfold respond. cbn [sent].
    rewrite <- !app_assoc. split; [reflexivity|]. right. eauto.
  - split; [reflexivity|]. exists []. split; [reflexivity|]. left. reflexivity.
Qed.

(** X21. Only an utterance starts the analysis: an event that makes a
    call of [asyncChecks] is a transcribed utterance. A response of the
    operator is added to the timeline without one. *)
Theorem only_utterances_are_analysed (s : System) (e : Event) :
  length (checks (step s e)) <> length (checks s) ->
  exists transcript uuid wavBuffer, e = Transcribed transcript uuid wavBuffer.
Proof.
  intros Hlen.
  assert (render : forall s0,
            length (checks s0) = length (checks s) ->
            length (messages (st s0)) = length (messages (st s))
            \/ lastIsUser (messages (st s0)) = false ->
            length (checks (rerender (st s) s0)) = length (checks s)).
  { intros s0 Hc Hm.
    destruct (rerender_checks (st s) s0) as [[E _]|(Hne & m & Hl & Hr & _)].
    - rewrite E. exact Hc.
    - destruct Hm as [Hm|Hm]; [congruence|].
      unfold lastIsUser in Hm. rewrite Hl in Hm.
      rewrite bool_decide_eq_true_2 in Hm by exact Hr. discriminate. }
  destruct e as [| | |transcript uuid wavBuffer| |now|k v|k v]; unfold step in Hlen.
  - exfalso. apply Hlen, render; [reflexivity | left; reflexivity].
  - exfalso. apply Hlen, render; [reflexivity | left; reflexivity].
  - exfalso. apply Hlen, render; [reflexivity | left; reflexivity].
  - eauto.
  - exfalso. apply Hlen. reflexivity.
  - exfalso. apply Hlen. reflexivity.
  - exfalso. apply Hlen.
    destruct (attempts s !! k) as [a|]; [|reflexivity].
    destruct (respond_resume_cases a v s)
      as [[E _]|[(text & _ & _ & E)|(text & b & u & sp & _ & _ & _ & _ & E)]].
    + destruct (respond_resume a v s) as [p s1]. cbn [snd] in E. subst s1.
      apply render; [reflexivity | left; reflexivity].
    + rewrite E. apply render; [reflexivity | left; reflexivity].
    + rewrite E. apply render; [reflexivity|]. right.
      cbn [st setAttempt withState withSpeaker setMessages messages].
      rewrite lastIsUser_snoc. apply bool_decide_eq_false_2. discriminate.
  - exfalso. apply Hlen.
    destruct (checks s !! k) as [c|]; [|reflexivity].
    pose proof (checks_resume_frame c v s) as F. cbv zeta in F.
    destruct (checks_resume c v s) as [p s1]. cbn [snd] in F.
    destruct F as (_ & Fc & _ & _ & _ & _ & Fl).
    apply render.
    + cbn [checks setChecks]. rewrite length_alter, Fc. reflexivity.
    + left. exact Fl.
Qed.

(** ** The lookups *)

Lemma step_checks_settle s k c v :
  checks s !! k = Some c ->
  step s (ChecksSettle k v)
  = setChecks k (fst (checks_resume c v s)) (snd (checks_resume c v s)).
Proof.
  intros Hc. unfold step. rewrite Hc.
  pose proof (checks_resume_frame c v s) as F. cbv zeta in F.
  destruct (checks_resume c v s) as [p s1]. cbn [fst snd] in *.
  destruct F as (_ & _ & _ & _ & Fs & _ & Fl).
  apply rerender_same; [exact Fs | exact Fl].
Qed.

Lemma setChecks_phase s k c p s1 :
  checks s !! k = Some c -> checks s1 = checks s ->
  checks (setChecks k p s1) !! k
  = Some {| c_lastMessage := c_lastMessage c; c_phase := p |}.
Proof.
  intros Hc E. cbn [checks setChecks]. rewrite list_lookup_alter_eq, E, Hc.
  reflexivity.
Qed.

(** The panels, the sentiment and the summary after the statements that
    follow the second [Promise.all]. *)
Lemma applyLookups_panels lastMessage emotion points geo human t :
  let r := applyLookups lastMessage emotion points geo human t in
  locationSearch (snd r)
  = match (geo ≫= places) ≫= head with
    | Some geoData =>
        Some {| address := formattedAddress geoData;
                latitude := ll_latitude (place_location geoData);
                longitude := ll_longitude (place_location geoData) |}
    | None => locationSearch t
    end
  /\ match human with
     | None =>
         fst r = Returned tt /\ humanResearch (snd r) = humanResearch t
         /\ lastSentiment (snd r) = Some emotion /\ summary (snd r) = Some points
     | Some response =>
         match image_urls response with
         | Some urls =>
             fst r = Returned tt
             /\ humanResearch (snd r)
                = Some {| overview := ai_overview response; images := take 3 urls |}
             /\ lastSentiment (snd r) = Some emotion /\ summary (snd r) = Some points
         | None =>
             fst r = Thrown (readOfUndefined "slice")
             /\ humanResearch (snd r) = humanResearch t
             /\ lastSentiment (snd r) = lastSentiment t /\ summary (snd r) = summary t
             /\ messages (snd r) = messages t
         end
     end.
Proof.
  unfold applyLookups, bind, modify, ret, throw.
  destruct ((geo ≫= places) ≫= head) as [geoData|];
    destruct human as [[overview [urls|]]|]; cbn; repeat split; reflexivity.
Qed.

(** X22. The location panel changes only when a place lookup that was
    requested returns at least one place, and then it shows the first
    place; a lookup without a place, and every other event, leaves the
    panel as it is, so that it is never cleared. *)
Theorem location_panel_follows_found_places (s : System) (e : Event) :
  locationSearch (st (step s e)) <> locationSearch (st s) ->
  exists k c emotion points h geoResp human place rest,
    e = ChecksSettle k (LookupsReady (Some geoResp) human)
    /\ checks s !! k = Some c
    /\ c_phase c = AwaitingLookups emotion points true h
    /\ places geoResp = Some (place :: rest)
    /\ locationSearch (st (step s e))
       = Some {| address := formattedAddress place;
                 latitude := ll_latitude (place_location place);
                 longitude := ll_longitude (place_location place) |}.
Proof.
  intros Hne.
  destruct e as [| | |transcript uuid wavBuffer| |now|k v|k v];
    try (exfalso; apply Hne; unfold step; rewrite ?rerender_st; reflexivity).
  - exfalso. apply Hne. unfold step.
    destruct (attempts s !! k) as [a|]; [|reflexivity].
    pose proof (respond_resume_frame a v s) as F. cbv zeta in F.
    destruct (respond_resume a v s) as [p s1]. cbn [snd] in F.
    rewrite rerender_st. apply F.
  - destruct (checks s !! k) as [c|] eqn:Hc;
      [|exfalso; apply Hne; unfold step; rewrite Hc; reflexivity].
    rewrite (step_checks_settle s k c v Hc) in *.
    cbn [st setChecks] in *. unfold checks_resume in *.
    destruct (c_phase c) as [|emotion points g h| |e] eqn:Hp;
      destruct v as [emotion' points' toolResp|geo human|e'];
      destruct (c_lastMessage c) as [lastMessage|];
      try (exfalso; apply Hne; reflexivity).
    pose proof (applyLookups_panels lastMessage emotion points
                  (if g then geo else None) (if h then human else None) (st s))
      as [HL _].
    cbv zeta in *.
    assert (E : forall r : ChecksPhase * System,
              r = match applyLookups lastMessage emotion points
                          (if g then geo else None) (if h then human else None) (st s)
                  with
                  | (Returned _, t) => (ChecksDone, withState (fun _ => t) s)
                  | (Thrown e, t) => (ChecksRejected e, withState (fun _ => t) s)
                  end ->
              st (snd r)
              = snd (applyLookups lastMessage emotion points
                       (if g then geo else None) (if h then human else None) (st s))).
    { intros r ->.
      destruct (applyLookups lastMessage emotion points (if g then geo else None)
                  (if h then human else None) (st s)) as [[[]|e] t]; reflexivity. }
    rewrite (E _ eq_refl) in *. rewrite HL in *. clear E HL.
    destruct g; [|exfalso; apply Hne; reflexivity].
    destruct geo as [geoResp|]; [|exfalso; apply Hne; reflexivity].
    cbn [mbind option_bind] in *.
    destruct (places geoResp) as [[|place rest]|] eqn:Hplaces;
      try (exfalso; apply Hne; reflexivity).
    exists k, c, emotion, points, h, geoResp, human, place, rest.
    repeat split; try assumption; reflexivity.
Qed.

Lemma step_lookups_ready s k c lastMessage emotion points g h geo human :
  checks s !! k = Some c ->
  c_phase c = AwaitingLookups emotion points g h ->
  c_lastMessage c = Some lastMessage ->
  let r := applyLookups lastMessage emotion points
             (if g then geo else None) (if h then human else None) (st s) in
  let s' := step s (ChecksSettle k (LookupsReady geo human)) in
  st s' = snd r
  /\ sent s' = sent s
  /\ c_phase <$> checks s' !! k
     = Some (match fst r with
             | Returned _ => ChecksDone
             | Thrown e => ChecksRejected e
             end).
Proof.
  intros Hc Hp Hl. cbv zeta. rewrite (step_checks_settle s k c _ Hc).
  unfold checks_resume. rewrite Hp, Hl.
  destruct (applyLookups lastMessage emotion points (if g then geo else None)
              (if h then human else None) (st s)) as [[[]|e] t];
    cbn [fst snd st sent setChecks withState];
    (split; [reflexivity|]; split; [reflexivity|]);
    erewrite setChecks_phase by (try exact Hc; reflexivity); reflexivity.
Qed.

(** X23. When the decision step marks human-web-search as [should_use]
    with a query that is neither null nor empty, one web search is sent
    for "Short research on " followed by the query; and when the lookups
    then settle with a search response that has an image list, the
    research panel holds the overview of the response and its first
    three images. *)
Theorem person_lookup_query
    (s : System) (k : nat) c lastMessage emotion points toolResp q :
  checks s !! k = Some c ->
  c_phase c = AwaitingAnalysis ->
  c_lastMessage c = Some lastMessage ->
  should_use (human_web_search toolResp) = true ->
  query (human_web_search toolResp) = Some q ->
  q <> [] ->
  let s1 := step s (ChecksSettle k (AnalysisReady emotion points toolResp)) in
  (exists before,
     sent s1 = sent s ++ before ++ [WebSearchRequest (js "Short research on " ++ q)]
     /\ Forall (fun r => forall q', r <> WebSearchRequest q') before)
  /\ (exists g,
        checks s1 !! k
        = Some {| c_lastMessage := Some lastMessage;
                  c_phase := AwaitingLookups emotion points g true |})
  /\ forall (s2 : System) c2 g geo response urls,
       checks s2 !! k = Some c2 ->
       c_phase c2 = AwaitingLookups emotion points g true ->
       c_lastMessage c2 = Some lastMessage ->
       image_urls response = Some urls ->
       humanResearch (st (step s2 (ChecksSettle k (LookupsReady geo (Some response)))))
       = Some {| overview := ai_overview response; images := take 3 urls |}.
Proof.
  intros Hc Hp Hl Huse Hq Hne s1.
  assert (Hw : wanted (human_web_search toolResp) = true).
  { unfold wanted. rewrite Huse, Hq. destruct q; [congruence | reflexivity]. }
  assert (E : s1 = setChecks k (AwaitingLookups emotion points
                                  (wanted (geo_location_search toolResp)) true)
                     (send (lookupRequests toolResp) s)).
  { subst s1. rewrite (step_checks_settle s k c _ Hc).
    unfold checks_resume. rewrite Hp, Hl, Hw. reflexivity. }
  split; [|split].
  - rewrite E. cbn [sent setChecks send]. unfold lookupRequests. rewrite Hw, Hq.
    cbn [default from_option].
    destruct (wanted (geo_location_search toolResp)).
    + eexists [_]. split; [reflexivity|].
      constructor; [intros q'; discriminate | constructor].
    + exists []. split; [reflexivity | constructor].
  - exists (wanted (geo_location_search toolResp)). rewrite E.
    erewrite setChecks_phase by (try exact Hc; reflexivity). rewrite Hl. reflexivity.
  - intros s2 c2 g geo response urls Hc2 Hp2 Hl2 Hurls.
    destruct (step_lookups_ready s2 k c2 lastMessage emotion points g true geo
                (Some response) Hc2 Hp2 Hl2) as (-> & _).
    pose proof (applyLookups_panels lastMessage emotion points
                  (if g then geo else None) (Some response) (st s2)) as [_ H].
    rewrite Hurls in H. apply H.
Qed.

(** X24. A search response without an image list stops the enrichment
    half way: the call of [asyncChecks] is rejected with a [TypeError];
    the location panel has been set when a place was found, but the
    research panel, the sentiment, the summary and the timeline stay as
    they were. *)
Theorem missing_image_list_stops_the_enrichment
    (s : System) (k : nat) c lastMessage emotion points g geo response :
  checks s !! k = Some c ->
  c_phase c = AwaitingLookups emotion points g true ->
  c_lastMessage c = Some lastMessage ->
  image_urls response = None ->
  let s' := step s (ChecksSettle k (LookupsReady geo (Some response))) in
  c_phase <$> checks s' !! k = Some (ChecksRejected (readOfUndefined "slice"))
  /\ humanResearch (st s') = humanResearch (st s)
  /\ lastSentiment (st s') = lastSentiment (st s)
  /\ summary (st s') = summary (st s)
  /\ messages (st s') = messages (st s)
  /\ forall geoResp place rest,
       g = true -> geo = Some geoResp -> places geoResp = Some (place :: rest) ->
       locationSearch (st s')
       = Some {| address := formattedAddress place;
                 latitude := ll_latitude (place_location place);
                 longitude := ll_longitude (place_location place) |}.
Proof.
  intros Hc Hp Hl Hurls. cbv zeta.
  destruct (step_lookups_ready s k c lastMessage emotion points g true geo
              (Some response) Hc Hp Hl) as (-> & _ & ->).
  pose proof (applyLookups_panels lastMessage emotion points
                (if g then geo else None) (Some response) (st s)) as [HL H].
  cbv zeta in *. rewrite Hurls in H. destruct H as (-> & H1 & H2 & H3 & H4).
  repeat split; try assumption.
  intros geoResp place rest -> -> Hplaces. rewrite HL.
  cbn [mbind option_bind]. rewrite Hplaces. reflexivity.
Qed.

(** X25. When the lookups of an enrichment settle and the search
    response, if one was requested, has an image list, the enrichment
    finishes: the sentiment and the summary it computed are shown,
    whichever utterance it was started for, and no further request is
    sent. *)
Theorem finished_enrichment_shows_sentiment_and_summary
    (s : System) (k : nat) c lastMessage emotion points g h geo human :
  checks s !! k = Some c ->
  c_phase c = AwaitingLookups emotion points g h ->
  c_lastMessage c = Some lastMessage ->
  (h = true -> forall response, human = Some response -> is_Some (image_urls response)) ->
  let s' := step s (ChecksSettle k (LookupsReady geo human)) in
  lastSentiment (st s') = Some emotion
  /\ summary (st s') = Some points
  /\ c_phase <$> checks s' !! k = Some ChecksDone
  /\ sent s' = sent s
  /\ (h = false -> humanResearch (st s') = humanResearch (st s))
  /\ (g = false -> locationSearch (st s') = locationSearch (st s)).
Proof.
  intros Hc Hp Hl Hurls. cbv zeta.
  destruct (step_lookups_ready s k c lastMessage emotion points g h geo human
              Hc Hp Hl) as (-> & -> & ->).
  pose proof (applyLookups_panels lastMessage emotion points
                (if g then geo else None) (if h then human else None) (st s)) as [HL H].
  cbv zeta in *.
  assert (Hg : g = false ->
               locationSearch
                 (snd (applyLookups lastMessage emotion points (if g then geo else None)
                         (if h then human else None) (st s)))
               = locationSearch (st s)).
  { intros Eg. rewrite HL, Eg. reflexivity. }
  destruct h.
  - destruct human as [response|].
    + destruct (Hurls eq_refl response eq_refl) as [urls Hr]. rewrite Hr in H.
      destruct H as (-> & _ & H2 & H3).
      split; [exact H2|]. split; [exact H3|]. split; [reflexivity|].
      split; [reflexivity|]. split; [discriminate | exact Hg].
    + destruct H as (-> & _ & H2 & H3).
      split; [exact H2|]. split; [exact H3|]. split; [reflexivity|].
      split; [reflexivity|]. split; [discriminate | exact Hg].
  - destruct H as (-> & H1 & H2 & H3).
    split; [exact H2|]. split; [exact H3|]. split; [reflexivity|].
    split; [reflexivity|]. split; [intros _; exact H1 | exact Hg].
Qed.

(** ** Playback *)

(** One event leaves the audio element alone, pauses it, or is the commit
    of a call of [respond]. *)
Lemma step_audio s e :
  let s' := step s e in
  audioSpeaker s' = audioSpeaker s
  \/ audioSpeaker s'
     = (fun a => {| paused := true; src := src a; playbackRate := playbackRate a |})
         <$> audioSpeaker s
  \/ (exists k a text arrayBuffer uuid,
        e = RespondSettles k (ArrayBufferReady arrayBuffer uuid)
        /\ attempts s !! k = Some a /\ phase a = AwaitingArrayBuffer text
        /\ messages (st s')
           = messages (st s)
             ++ [ {| role := assistant; content := text; id := uuid;
                     buffer := arrayBuffer; sentiment := None |} ]
        /\ audioSpeaker s'
           = Some {| paused := false; src := Some arrayBuffer;
                     playbackRate := js "1.3" |}).
Proof.
  cbv zeta. destruct e as [| | |transcript uuid wavBuffer| |now|k v|k v].
  - left. unfold step. rewrite rerender_audioSpeaker. reflexivity.
  - left. unfold step. rewrite rerender_audioSpeaker. reflexivity.
  - right. left. unfold step. rewrite rerender_audioSpeaker. reflexivity.
  - left. unfold step. rewrite rerender_audioSpeaker. reflexivity.
  - right. left. reflexivity.
  - left. reflexivity.
  - destruct (step_timeline s (RespondSettles k v))
      as [_|[(t & u & b & He & _)|(k' & a & t & b & u & sp & He & Ha & Hp & _ & _ & E & Hplay)]].
    + unfold step. destruct (attempts s !! k) as [a|] eqn:Ha; [|left; reflexivity].
      destruct (respond_resume_cases a v s)
        as [[E _]|[(text & _ & _ & E)|(text & b & u & sp & Hp & -> & Hs & _ & E)]].
      * destruct (respond_resume a v s) as [p s1]. cbn [snd] in E. subst s1.
        left. rewrite rerender_audioSpeaker. reflexivity.
      * rewrite E. left. rewrite rerender_audioSpeaker. reflexivity.
      * rewrite E. right. right. exists k, a, text, b, u.
        rewrite rerender_st, rerender_audioSpeaker.
        cbn [st setAttempt withState withSpeaker audioSpeaker setMessages messages].
        rewrite Hs. repeat split; auto.
    + discriminate He.
    + right. right. injection He as <- ->. exists k, a, t, b, u. auto.
  - left. unfold step. destruct (checks s !! k) as [c|]; [|reflexivity].
    pose proof (checks_resume_frame c v s) as F. cbv zeta in F.
    destruct (checks_resume c v s) as [p s1]. cbn [snd] in F.
    rewrite rerender_audioSpeaker. apply F.
Qed.

(** X26. Playback starts only together with a timeline entry: an event
    after which the audio element plays, and before which it did not, is
    the last promise of a call of [respond] settling; the element then
    plays the audio of the entry which that event appends. *)
Theorem playback_starts_with_the_entry (s : System) (e : Event) :
  paused <$> audioSpeaker s <> Some false ->
  paused <$> audioSpeaker (step s e) = Some false ->
  exists k a text arrayBuffer uuid,
    e = RespondSettles k (ArrayBufferReady arrayBuffer uuid)
    /\ attempts s !! k = Some a /\ phase a = AwaitingArrayBuffer text
    /\ messages (st (step s e))
       = messages (st s)
         ++ [ {| role := assistant; content := text; id := uuid;
                 buffer := arrayBuffer; sentiment := None |} ]
    /\ src <$> audioSpeaker (step s e) = Some (Some arrayBuffer).
Proof.
  intros Hbefore Hafter.
  destruct (step_audio s e) as [E|[E|(k & a & t & b & u & He & Ha & Hp & Hm & E)]].
  - exfalso. apply Hbefore. rewrite <- E. exact Hafter.
  - exfalso. rewrite E in Hafter. destruct (audioSpeaker s); discriminate Hafter.
  - exists k, a, t, b, u. rewrite E. auto.
Qed.

(** ** The staleness tests *)

(** Every entry has an id, an audio element exists, and every call of
    [respond] in flight passes its staleness test. *)
Lemma page_invariant_step s e :
  hasId e = true ->
  Forall (fun m => id m <> []) (messages (st s))
  /\ is_Some (audioSpeaker s)
  /\ Forall (fun a => abandons a = Returned false) (attempts s) ->
  Forall (fun m => id m <> []) (messages (st (step s e)))
  /\ is_Some (audioSpeaker (step s e))
  /\ Forall (fun a => abandons a = Returned false) (attempts (step s e)).
Proof.
  intros He (Hids & Hsp & Hlive).
  assert (Hids' : Forall (fun m => id m <> []) (messages (st (step s e)))).
  { destruct (step_timeline s e)
      as [E|[(t & u & b & -> & ->)|(k & a & t & b & u & sp & -> & _ & _ & _ & _ & -> & _)]].
    - assert (Eid : id <$> messages (st (step s e)) = id <$> messages (st s)).
      { change id with ((fun f : Role * jsstring * jsstring * ArrayBuffer => snd (fst f))
                        ∘ frame).
        rewrite !list_fmap_compose, E. reflexivity. }
      apply (Forall_fmap id (fun i => i <> [])).
      rewrite Eid. apply Forall_fmap. exact Hids.
    - apply Forall_app. split; [exact Hids|]. constructor; [|constructor].
      cbn [id]. cbn [hasId] in He. destruct u; [discriminate | discriminate].
    - apply Forall_app. split; [exact Hids|]. constructor; [|constructor].
      cbn [id]. cbn [hasId] in He. destruct u; [discriminate | discriminate]. }
  split; [exact Hids'|]. split.
  - destruct (step_audio s e) as [->|[->|(k & a & t & b & u & _ & _ & _ & _ & ->)]];
      [exact Hsp | destruct Hsp as [sp ->]; eexists; reflexivity | eexists; reflexivity].
  - destruct (step_attempts s e)
      as [[->|(k & p & ->)]|(_ & _ & Hs & Hlast & (a & Ha & Hm & Hsp' & Hid & _) & _)].
    + exact Hlive.
    + apply Forall_alter; [exact Hlive|]. intros a _ Ha. exact Ha.
    + rewrite Ha. apply Forall_app. split; [exact Hlive|]. constructor; [|constructor].
      unfold abandons. rewrite Hm, Hsp', Hid. unfold lastIsUser in Hlast.
      destruct (list.last (messages (st (step s e)))) as [m|] eqn:Hl; [|discriminate].
      cbn [fmap option_fmap option_map mbind option_bind].
      assert (Hne : id m <> []).
      { apply last_Some in Hl as [l' Hl]. rewrite Hl in Hids'.
        apply Forall_app in Hids' as [_ H]. inversion H. assumption. }
      destruct (id m) as [|ch i]; [congruence|]. cbn [truthy_str].
      rewrite bool_decide_eq_true_2 by reflexivity. reflexivity.
Qed.

Lemma page_invariant now events :
  Forall (fun e => hasId e = true) events ->
  let s := run (mounted now) events in
  Forall (fun m => id m <> []) (messages (st s))
  /\ is_Some (audioSpeaker s)
  /\ Forall (fun a => abandons a = Returned false) (attempts s).
Proof.
  intros Hev. cbv zeta.
  assert (G : forall s,
            Forall (fun m => id m <> []) (messages (st s))
            /\ is_Some (audioSpeaker s)
            /\ Forall (fun a => abandons a = Returned false) (attempts s) ->
            Forall (fun m => id m <> []) (messages (st (run s events)))
            /\ is_Some (audioSpeaker (run s events))
            /\ Forall (fun a => abandons a = Returned false) (attempts (run s events))).
  { induction Hev as [|e events He Hev IH]; intros s Hs; [exact Hs|].
    change (run s (e :: events)) with (run (step s e) events).
    apply IH, page_invariant_step; assumption. }
  apply G. split; [constructor|]. split; [eexists; reflexivity | constructor].
Qed.

(** X27. From the start of the page on, no call of [respond] is ever
    given up as out of date: whatever events have happened, each of the
    calls in flight passes the test that is made after each of its
    requests, the test comparing the timeline and the speaking state of
    the render that made the call with themselves. *)
Theorem staleness_tests_never_fire (now : jsstring) (events : list Event) :
  Forall (fun e => hasId e = true) events ->
  Forall (fun a => abandons a = Returned false) (attempts (run (mounted now) events)).
Proof. intros Hev. apply (page_invariant now events Hev). Qed.

(** X28. From the start of the page on, a call of [respond] whose last
    promise settles adds its response to the timeline and plays it,
    whatever the caller has said or started to say since the call was
    made. *)
Theorem settled_responses_are_committed
    (now : jsstring) (events : list Event) (k : nat) (a : Attempt)
    (text : jsstring) (arrayBuffer : ArrayBuffer) (uuid : jsstring) :
  Forall (fun e => hasId e = true) events ->
  let s := run (mounted now) events in
  attempts s !! k = Some a ->
  phase a = AwaitingArrayBuffer text ->
  let s' := step s (RespondSettles k (ArrayBufferReady arrayBuffer uuid)) in
  messages (st s')
  = messages (st s)
    ++ [ {| role := assistant; content := text; id := uuid;
            buffer := arrayBuffer; sentiment := None |} ]
  /\ audioSpeaker s'
     = Some {| paused := false; src := Some arrayBuffer; playbackRate := js "1.3" |}
  /\ phase <$> attempts s' !! k = Some Committed.
Proof.
  intros Hev s Ha Hp. cbv zeta.
  destruct (page_invariant now events Hev) as (_ & [sp Hsp] & Hlive).
  fold s in Hsp, Hlive.
  assert (Hab : abandons a = Returned false).
  { rewrite Forall_lookup in Hlive. exact (Hlive k a Ha). }
  assert (E : respond_resume a (ArrayBufferReady arrayBuffer uuid) s
              = (Committed,
                 withState
                   (setMessages (fun prev =>
                      prev ++ [ {| role := assistant; content := text; id := uuid;
                                   buffer := arrayBuffer; sentiment := None |} ]))
                   (withSpeaker
                      (fun _ => {| paused := false; src := Some arrayBuffer;
                                   playbackRate := js "1.3" |})
                      s))).
  { unfold respond_resume, checked. rewrite Hp, Hab, Hsp. reflexivity. }
  unfold step. rewrite Ha, E. rewrite rerender_st, rerender_audioSpeaker.
  cbn [st setAttempt withState withSpeaker audioSpeaker setMessages messages].
  rewrite Hsp. split; [reflexivity|]. split; [reflexivity|].
  destruct (rerender_attempts (st s)
              (setAttempt k Committed
                 (withState
                    (setMessages (fun prev =>
                       prev ++ [ {| role := assistant; content := text; id := uuid;
                                    buffer := arrayBuffer; sentiment := None |} ]))
                    (withSpeaker
                       (fun _ => {| paused := false; src := Some arrayBuffer;
                                    playbackRate := js "1.3" |})
                       s))))
    as [[-> _]|(_ & _ & Hlast & _)].
  - cbn [attempts setAttempt withState withSpeaker].
    rewrite list_lookup_alter_eq, Ha. reflexivity.
  - cbn [st setAttempt withState withSpeaker setMessages messages] in Hlast.
    rewrite lastIsUser_snoc in Hlast.
    rewrite bool_decide_eq_false_2 in Hlast by discriminate. discriminate.
Qed.

(** ** The properties on the scenarios *)

(** The first utterance of a call. *)
Lemma entries_are_utterances_and_responses_witness :
  let s := run startOfCall [SpeechStart] in
  let e := Transcribed (js "There is a fire") (js "id-U1") wav in
  length (messages (st (step s e))) <> length (messages (st s))
  /\ messages (st (step s e))
     = [ {| role := user; content := js "There is a fire"; id := js "id-U1";
            buffer := wav; sentiment := None |} ].
Proof.
  intros s e.
  assert (H : length (messages (st (step s e))) <> length (messages (st s)))
    by (vm_compute; discriminate).
  split; [exact H|].
  destruct (entries_are_utterances_and_responses s e H)
    as [(t & u & b & He & ->)|(k & a & t & b & u & He & _)].
  - injection He as <- <- <-. reflexivity.
  - discriminate He.
Defined.

(** The first utterance ends the speaking state, and [respond] is called
    on the timeline that holds it. *)
Lemma respond_starts_when_speech_ends_witness :
  let s := run startOfCall [SpeechStart] in
  let s' := step s (Transcribed (js "There is a fire") (js "id-U1") wav) in
  length (attempts s') <> length (attempts s)
  /\ isSpeaking (st s) = true /\ isSpeaking (st s') = false
  /\ exists a, attempts s' = attempts s ++ [a] /\ a_messages a = messages (st s').
Proof.
  intros s s'.
  assert (H : length (attempts s') <> length (attempts s))
    by (vm_compute; discriminate).
  split; [exact H|].
  destruct (respond_starts_when_speech_ends s _ H)
    as (_ & H1 & H2 & _ & (a & Ha & Hm & _) & _).
  split; [exact H1|]. split; [exact H2|]. exists a. split; assumption.
Defined.

(** An utterance that arrives without the caller having been heard to
    start; its analysis settles and the call is ended, and still no call of
    [respond] is made. *)
Lemma utterance_outside_speech_gets_no_response_witness :
  let s' := step startOfCall (Transcribed (js "There is a fire") (js "id-U1") wav) in
  let later :=
    [ ChecksSettle 0 (AnalysisReady (js "fear") [js "A fire is reported"] mainAnd5th);
      PressEndCall ] in
  isSpeaking (st startOfCall) = false
  /\ Forall (fun e => e <> SpeechStart) later
  /\ attempts s' = attempts startOfCall
  /\ lastIsUser (messages (st s')) = true
  /\ length (attempts (run s' later)) = length (attempts startOfCall).
Proof.
  intros s' later.
  assert (H : Forall (fun e => e <> SpeechStart) later)
    by (repeat constructor; discriminate).
  split; [reflexivity|]. split; [exact H|].
  destruct (utterance_outside_speech_gets_no_response startOfCall
              (js "There is a fire") (js "id-U1") wav later eq_refl H)
    as (H1 & H2 & _ & H3 & _).
  repeat split; assumption.
Defined.

Lemma only_utterances_are_analysed_witness :
  let e := Transcribed (js "There is a fire") (js "id-U1") wav in
  length (checks (step startOfCall e)) <> length (checks startOfCall)
  /\ exists transcript uuid wavBuffer, e = Transcribed transcript uuid wavBuffer.
Proof.
  intros e.
  assert (H : length (checks (step startOfCall e)) <> length (checks startOfCall))
    by (vm_compute; discriminate).
  split; [exact H|]. exact (only_utterances_are_analysed startOfCall e H).
Defined.

(** The place lookup for Main and 5th returns a place. *)
Lemma location_panel_follows_found_places_witness :
  let s := run startOfCall
             (oneUtterance
              ++ [ChecksSettle 0 (AnalysisReady (js "fear") [js "A fire is reported"]
                                    mainAnd5th)]) in
  let e := ChecksSettle 0 (LookupsReady (Some {| places := Some [firstPlace] |}) None) in
  locationSearch (st (step s e)) <> locationSearch (st s)
  /\ exists k c emotion points h geoResp human place rest,
       e = ChecksSettle k (LookupsReady (Some geoResp) human)
       /\ checks s !! k = Some c
       /\ c_phase c = AwaitingLookups emotion points true h
       /\ places geoResp = Some (place :: rest)
       /\ locationSearch (st (step s e))
          = Some {| address := formattedAddress place;
                    latitude := ll_latitude (place_location place);
                    longitude := ll_longitude (place_location place) |}.
Proof.
  intros s e.
  assert (H : locationSearch (st (step s e)) <> locationSearch (st s))
    by (vm_compute; discriminate).
  split; [exact H|]. exact (location_panel_follows_found_places s e H).
Defined.

(** The caller names a neighbour, and the search returns four images. *)
Lemma person_lookup_query_witness :
  let s0 := run startOfCall (take 2 personUtterance) in
  let s1 := step s0 (ChecksSettle 0 (AnalysisReady (js "fear")
                                       [js "A neighbour has collapsed"] askAboutJohn)) in
  (exists before,
     sent s1 = sent s0 ++ before
               ++ [WebSearchRequest (js "Short research on " ++ js "John Smith")]
     /\ Forall (fun r => forall q', r <> WebSearchRequest q') before)
  /\ humanResearch (st (step s1 (ChecksSettle 0 (LookupsReady None (Some johnSmith)))))
     = Some {| overview := Some (js "John Smith is a resident of San Francisco.");
               images := [js "https://img.example/1"; js "https://img.example/2";
                          js "https://img.example/3"] |}.
Proof.
  intros s0 s1.
  assert (Hc : checks s0 !! 0
               = Some {| c_lastMessage :=
                           Some {| role := user;
                                   content := js "My neighbour John Smith has collapsed";
                                   id := js "id-U1"; buffer := wav; sentiment := None |};
                         c_phase := AwaitingAnalysis |})
    by (vm_compute; reflexivity).
  destruct (person_lookup_query s0 0 _ _ (js "fear") [js "A neighbour has collapsed"]
              askAboutJohn (js "John Smith") Hc eq_refl eq_refl eq_refl eq_refl)
    as (Hsent & (g & Hphase) & Hpanel).
  { discriminate. }
  split; [exact Hsent|].
  apply (Hpanel s1 _ g None johnSmith _ Hphase eq_refl eq_refl eq_refl).
Defined.

(** The same search, answered without an image list. *)
Lemma missing_image_list_stops_the_enrichment_witness :
  let s := run startOfCall personUtterance in
  let s' := step s (ChecksSettle 0 (LookupsReady None (Some noImages))) in
  c_phase <$> checks s' !! 0 = Some (ChecksRejected (readOfUndefined "slice"))
  /\ humanResearch (st s') = None
  /\ lastSentiment (st s') = None
  /\ summary (st s') = None.
Proof.
  intros s s'.
  assert (Hc : checks s !! 0
               = Some {| c_lastMessage :=
                           Some {| role := user;
                                   content := js "My neighbour John Smith has collapsed";
                                   id := js "id-U1"; buffer := wav; sentiment := None |};
                         c_phase := AwaitingLookups (js "fear")
                                      [js "A neighbour has collapsed"] false true |})
    by (vm_compute; reflexivity).
  destruct (missing_image_list_stops_the_enrichment s 0 _ _ (js "fear")
              [js "A neighbour has collapsed"] false None noImages
              Hc eq_refl eq_refl eq_refl) as (H1 & H2 & H3 & H4 & _).
  split; [exact H1|]. split; [exact H2|]. split; [exact H3 | exact H4].
Defined.

Lemma finished_enrichment_shows_sentiment_and_summary_witness :
  let s := run startOfCall personUtterance in
  let s' := step s (ChecksSettle 0 (LookupsReady None (Some johnSmith))) in
  lastSentiment (st s') = Some (js "fear")
  /\ summary (st s') = Some [js "A neighbour has collapsed"]
  /\ c_phase <$> checks s' !! 0 = Some ChecksDone.
Proof.
  intros s s'.
  assert (Hc : checks s !! 0
               = Some {| c_lastMessage :=
                           Some {| role := user;
                                   content := js "My neighbour John Smith has collapsed";
                                   id := js "id-U1"; buffer := wav; sentiment := None |};
                         c_phase := AwaitingLookups (js "fear")
                                      [js "A neighbour has collapsed"] false true |})
    by (vm_compute; reflexivity).
  destruct (finished_enrichment_shows_sentiment_and_summary s 0 _ _ (js "fear")
              [js "A neighbour has collapsed"] false true None (Some johnSmith)
              Hc eq_refl eq_refl) as (H1 & H2 & H3 & _).
  { intros _ response Hr. injection Hr as <-. eexists. reflexivity. }
  split; [exact H1|]. split; [exact H2 | exact H3].
Defined.

(** The response to the first utterance is played when its last promise
    settles. *)
Lemma playback_starts_with_the_entry_witness :
  let s := run startOfCall
             (oneUtterance ++ take 3 (settles 0 (js "Help is on the way.") (js "id-A1"))) in
  let e := RespondSettles 0 (ArrayBufferReady wav (js "id-A1")) in
  paused <$> audioSpeaker s <> Some false
  /\ paused <$> audioSpeaker (step s e) = Some false
  /\ src <$> audioSpeaker (step s e) = Some (Some wav).
Proof.
  intros s e.
  assert (H1 : paused <$> audioSpeaker s <> Some false) by (vm_compute; discriminate).
  assert (H2 : paused <$> audioSpeaker (step s e) = Some false)
    by (vm_compute; reflexivity).
  split; [exact H1|]. split; [exact H2|].
  destruct (playback_starts_with_the_entry s e H1 H2)
    as (k & a & t & b & u & He & _ & _ & _ & Hsrc).
  injection He as _ <- _. exact Hsrc.
Defined.

(** Two utterances in quick succession, and both responses. *)
Lemma staleness_tests_never_fire_witness :
  Forall (fun e => hasId e = true) bothRespond
  /\ Forall (fun a => abandons a = Returned false)
       (attempts (run (mounted (js "2025-01-01T00:00:00.000Z")) bothRespond)).
Proof.
  assert (H : Forall (fun e => hasId e = true) bothRespond)
    by (repeat constructor).
  split; [exact H|].
  exact (staleness_tests_never_fire (js "2025-01-01T00:00:00.000Z") bothRespond H).
Defined.

(** The response to the first utterance is committed after the second
    utterance. *)
Lemma settled_responses_are_committed_witness :
  let events :=
    twoUtterances
    ++ take 3 (settles 0 (js "What is the address of the fire?") (js "id-A1")) in
  let s := run (mounted (js "2025-01-01T00:00:00.000Z")) events in
  let s' := step s (RespondSettles 0 (ArrayBufferReady wav (js "id-A1"))) in
  Forall (fun e => hasId e = true) events
  /\ lastUserId (messages (st s)) = Some (js "id-U2")
  /\ messages (st s')
     = messages (st s)
       ++ [ {| role := assistant; content := js "What is the address of the fire?";
               id := js "id-A1"; buffer := wav; sentiment := None |} ]
  /\ phase <$> attempts s' !! 0 = Some Committed.
Proof.
  intros events s s'.
  assert (H : Forall (fun e => hasId e = true) events) by (repeat constructor).
  assert (Ha : attempts s !! 0
               = Some {| a_messages :=
                           [ {| role := user; content := js "There is a fire";
                                id := js "id-U1"; buffer := wav; sentiment := None |} ];
                         a_isSpeaking := false;
                         lastID := Some (js "id-U1");
                         phase := AwaitingArrayBuffer
                                    (js "What is the address of the fire?") |})
    by (vm_compute; reflexivity).
  destruct (settled_responses_are_committed (js "2025-01-01T00:00:00.000Z") events 0 _
              (js "What is the address of the fire?") wav (js "id-A1") H Ha eq_refl)
    as (Hm & _ & Hp).
  split; [exact H|]. split; [vm_compute; reflexivity|].
  split; [exact Hm | exact Hp].
Defined.

End HomeTimeline.
